(** * To-do watchlist backend: request handlers and data-access layer

    A shallow embedding of [backend/src/db.js] and [backend/src/app.js].

    - JavaScript values are the inductive [jsval]; request bodies, result
      rows and response bodies are all [jsval]s, read with the property
      access [js_get] exactly where the source writes [x.f].
    - A rejected promise or a thrown exception is an [outcome] [Rejected];
      [await] is the bind of the monad [M], [try]/[catch] is [try_catch].
    - The external collaborators (the sqlite3 and mysql2 drivers, bcryptjs,
      the file system) are a record [driver] of operations on a world [W].
      Results that do not depend on what the collaborators answer are
      proved for every driver; the others are proved on the reference
      drivers of module [Ref], a small relational store.

    A handler is modelled from the point where Express calls it: the first
    middleware of [app.js] lets a request through only once the bootstrap
    has resolved, and [express.json()] has parsed the body.

    Numbers are integers ([Z]); strings are sequences of one-byte
    characters, so letter case and white space are those of ASCII:
    results that rest on trimming, on letter case or on the length of a
    text are stated for printable ASCII texts, on which these strings and
    the strings of JavaScript agree. What a database engine takes a text
    for when it compares it with an integer column is a component of the
    store ([as_integer]); the results hold for every such conversion. *)

From Stdlib Require Import ZArith List String Ascii Bool.
From Stdlib Require Import Permutation Sorted Lia.
From Stdlib Require Import DecimalString.
Import ListNotations.
Open Scope string_scope.
Open Scope Z_scope.

(* ------------------------------------------------------------------ *)
(** * String primitives of the JavaScript runtime *)

Module Js.

Definition is_space (c : ascii) : bool :=
  let n := nat_of_ascii c in
  ((9 <=? n) && (n <=? 13))%nat || (n =? 32)%nat.

Definition is_digit (c : ascii) : bool :=
  let n := nat_of_ascii c in ((48 <=? n) && (n <=? 57))%nat.

Definition is_upper (c : ascii) : bool :=
  let n := nat_of_ascii c in ((65 <=? n) && (n <=? 90))%nat.

Definition lower_char (c : ascii) : ascii :=
  if is_upper c then ascii_of_nat (nat_of_ascii c + 32) else c.

(** [String.prototype.toLowerCase]. *)
Fixpoint toLowerCase (s : string) : string :=
  match s with
  | EmptyString => EmptyString
  | String c r => String (lower_char c) (toLowerCase r)
  end.

Fixpoint trimStart (s : string) : string :=
  match s with
  | EmptyString => EmptyString
  | String c r => if is_space c then trimStart r else s
  end.

Fixpoint trimEnd (s : string) : string :=
  match s with
  | EmptyString => EmptyString
  | String c r =>
      match trimEnd r with
      | EmptyString => if is_space c then EmptyString else String c EmptyString
      | r' => String c r'
      end
  end.

(** [String.prototype.trim]. *)
Definition trim (s : string) : string := trimEnd (trimStart s).

(** [String.prototype.startsWith]. *)
Definition startsWith (p s : string) : bool := String.prefix p s.

(** [haystack.includes(needle)]. *)
Fixpoint includes (needle hay : string) : bool :=
  String.prefix needle hay ||
  match hay with
  | EmptyString => false
  | String _ r => includes needle r
  end.

Definition is_empty (s : string) : bool :=
  match s with EmptyString => true | _ => false end.

Definition next_is_digit (s : string) : bool :=
  match s with String c _ => is_digit c | EmptyString => false end.

(** [text.replace(/\$\d+/g, '?')]: every dollar sign followed by at least
    one digit is replaced, together with its digits, by a question mark.
    [in_digits] is set while the digits of a match are being consumed. *)
Fixpoint replace_placeholders_from (in_digits : bool) (s : string) : string :=
  match s with
  | EmptyString => EmptyString
  | String c r =>
      if in_digits && is_digit c then replace_placeholders_from true r
      else if Ascii.eqb c "$" && next_is_digit r
           then String "?" (replace_placeholders_from true r)
           else String c (replace_placeholders_from false r)
  end.

Definition replace_placeholders (s : string) : string :=
  replace_placeholders_from false s.

Definition digit_val (c : ascii) : Z := Z.of_nat (nat_of_ascii c) - 48.

(** Value of the longest prefix of decimal digits; [None] when the prefix
    is empty. [acc] is the value read so far. *)
Fixpoint digits_prefix (acc : option Z) (s : string) : option Z :=
  match s with
  | EmptyString => acc
  | String c r =>
      if is_digit c
      then digits_prefix
             (Some (10 * match acc with Some a => a | None => 0 end + digit_val c)) r
      else acc
  end.

(** [Number.parseInt(s, 10)]; [None] is NaN. Leading white space is
    skipped, one sign is accepted, and the digits that follow are read up
    to the first character that is not a digit. *)
Definition parseInt (s : string) : option Z :=
  match trimStart s with
  | String "-" r => option_map Z.opp (digits_prefix None r)
  | String "+" r => digits_prefix None r
  | s' => digits_prefix None s'
  end.

(** A whole string of decimal digits. *)
Fixpoint all_digits (s : string) : bool :=
  match s with
  | EmptyString => true
  | String c r => is_digit c && all_digits r
  end.

(** [Number(s)] for a string that spells an integer, white space around
    it allowed; the blank string is [0], and [None] is NaN. *)
Definition to_integer (s : string) : option Z :=
  match trim s with
  | EmptyString => Some 0
  | String "-" r =>
      if all_digits r then option_map Z.opp (digits_prefix None r) else None
  | String "+" r => if all_digits r then digits_prefix None r else None
  | t => if all_digits t then digits_prefix None t else None
  end.

(** Decimal rendering of an integer, as [String(n)] does. *)
Definition string_of_Z (z : Z) : string := NilZero.string_of_int (Z.to_int z).

End Js.

(* ------------------------------------------------------------------ *)
(** * JavaScript values, errors and promises *)

#[warnings="-register-all"] Inductive jsval : Type :=
| VUndef
| VNull
| VBool (b : bool)
| VNum (z : Z)
| VStr (s : string)
| VArr (l : list jsval)
| VObj (fields : list (string * jsval)).

(** An [Error] object: its message, the [status] the handlers attach, the
    [code] the drivers attach, and the stack trace. *)
Record js_error : Type := mkError {
  e_message : string;
  e_status : option Z;
  e_code : option string;
  e_stack : string
}.

(** A settled promise, or the result of a block that may throw. *)
Inductive outcome (A : Type) : Type :=
| Resolved (a : A)
| Rejected (e : js_error).
Arguments Resolved {A} a.
Arguments Rejected {A} e.

(** Sequencing of synchronous steps: the first one that throws ends the
    evaluation. *)
Definition and_then {A B} (o : outcome A) (k : A -> outcome B) : outcome B :=
  match o with
  | Resolved a => k a
  | Rejected e => Rejected e
  end.

(** [err.code === c]. *)
Definition code_is (err : js_error) (c : string) : bool :=
  match e_code err with
  | Some x => String.eqb x c
  | None => false
  end.

Definition TypeError (msg : string) : js_error :=
  {| e_message := msg; e_status := None; e_code := None;
     e_stack := "TypeError: " ++ msg |}.

(** [new Error(msg)] followed by [error.status = st]. *)
Definition http_error (msg : string) (st : Z) : js_error :=
  {| e_message := msg; e_status := Some st; e_code := None;
     e_stack := "Error: " ++ msg |}.

Definition truthy (v : jsval) : bool :=
  match v with
  | VUndef | VNull => false
  | VBool b => b
  | VNum z => negb (z =? 0)
  | VStr s => negb (Js.is_empty s)
  | VArr _ | VObj _ => true
  end.

(** [a || b]. *)
Definition js_or (a b : jsval) : jsval := if truthy a then a else b.

(** [a ?? b]. *)
Definition js_nullish (a b : jsval) : jsval :=
  match a with VUndef | VNull => b | _ => a end.

Fixpoint lookup (k : string) (fields : list (string * jsval)) : jsval :=
  match fields with
  | [] => VUndef
  | (k', v) :: r => if String.eqb k k' then v else lookup k r
  end.

(** Property read [v.k]. Reading a property of [undefined] or [null]
    throws; a missing property is [undefined]. *)
Definition js_get (v : jsval) (k : string) : outcome jsval :=
  match v with
  | VUndef =>
      Rejected (TypeError ("Cannot read properties of undefined (reading '" ++ k ++ "')"))
  | VNull =>
      Rejected (TypeError ("Cannot read properties of null (reading '" ++ k ++ "')"))
  | VObj fields => Resolved (lookup k fields)
  | VArr l => Resolved (if String.eqb k "length" then VNum (Z.of_nat (List.length l)) else VUndef)
  | VStr s => Resolved (if String.eqb k "length" then VNum (Z.of_nat (String.length s)) else VUndef)
  | VBool _ | VNum _ => Resolved VUndef
  end.

(** Indexed read [v[0]]. *)
Definition js_first (v : jsval) : outcome jsval :=
  match v with
  | VArr l => Resolved (match l with x :: _ => x | [] => VUndef end)
  | VStr s => Resolved (match s with String c _ => VStr (String c EmptyString) | _ => VUndef end)
  | _ => js_get v "0"
  end.

(** Optional chaining [v?.[0]]. *)
Definition js_first_opt (v : jsval) : jsval :=
  match v with
  | VUndef | VNull => VUndef
  | _ => match js_first v with Resolved x => x | Rejected _ => VUndef end
  end.

(** Optional chaining [v?.length]. *)
Definition js_length_opt (v : jsval) : jsval :=
  match js_get v "length" with Resolved x => x | Rejected _ => VUndef end.

(** [typeof v === 'boolean']. *)
Definition is_boolean (v : jsval) : bool :=
  match v with VBool _ => true | _ => false end.

(** [String(v)]. Inside an array, [null] and [undefined] render as the
    empty string and the elements are joined by commas. *)
Fixpoint js_String (v : jsval) : string :=
  match v with
  | VUndef => "undefined"
  | VNull => "null"
  | VBool true => "true"
  | VBool false => "false"
  | VNum z => Js.string_of_Z z
  | VStr s => s
  | VObj _ => "[object Object]"
  | VArr l =>
      (fix join (l : list jsval) : string :=
         match l with
         | [] => EmptyString
         | x :: r =>
             let sx := match x with VUndef | VNull => EmptyString | _ => js_String x end in
             match r with [] => sx | _ => sx ++ "," ++ join r end
         end) l
  end.

(** [s.trim()] on a value that need not be a string; [src] is the source
    text of the receiver, which the runtime quotes in the error. *)
Definition js_trim (src : string) (v : jsval) : outcome string :=
  match v with
  | VStr s => Resolved (Js.trim s)
  | _ =>
      and_then (js_get v "trim") (fun _ =>
      Rejected (TypeError (src ++ ".trim is not a function")))
  end.

(** [v.length < n]. The length of a string or an array is its size; a
    number or a boolean has no [length], and [undefined < n] is false. An
    object is compared by its own [length] entry, converted to a number:
    a string or an array through the integer it spells. An entry that
    spells no integer compares false here: that is JavaScript's answer
    for NaN, and it leaves out the entries that spell another number
    (such as [3.5]); the handlers meet such an entry only in a password
    that is an object. *)
Definition js_length_lt (v : jsval) (n : Z) : bool :=
  match js_length_opt v with
  | VNum z => z <? n
  | VNull | VBool false => 0 <? n
  | VBool true => 1 <? n
  | VStr s =>
      match Js.to_integer s with Some z => z <? n | None => false end
  | VArr l =>
      match Js.to_integer (js_String (VArr l)) with
      | Some z => z <? n
      | None => false
      end
  | VObj _ | VUndef => false
  end.

(* ------------------------------------------------------------------ *)
(** * Asynchronous computations over a world *)

(** A computation reads and updates the world of the external
    collaborators and settles with a value or with an error. *)
Definition M (W A : Type) : Type := W -> outcome A * W.

Definition ret {W A} (a : A) : M W A := fun w => (Resolved a, w).

Definition throw {W A} (e : js_error) : M W A := fun w => (Rejected e, w).

(** [await]: a rejection skips the continuation. *)
Definition bind {W A B} (m : M W A) (k : A -> M W B) : M W B :=
  fun w =>
    match m w with
    | (Resolved a, w') => k a w'
    | (Rejected e, w') => (Rejected e, w')
    end.

(** [try { m } catch (e) { h e }] and [promise.catch(h)]. *)
Definition try_catch {W A} (m : M W A) (h : js_error -> M W A) : M W A :=
  fun w =>
    match m w with
    | (Resolved a, w') => (Resolved a, w')
    | (Rejected e, w') => h e w'
    end.

(** A synchronous step that may throw. *)
Definition lift {W A} (o : outcome A) : M W A := fun w => (o, w).

Declare Scope js_scope.
Delimit Scope js_scope with js.
Notation "x <- c ;; k" := (bind c (fun x => k))
  (at level 100, c at next level, right associativity) : js_scope.
Open Scope js_scope.

(* ------------------------------------------------------------------ *)
(** * The external collaborators *)

(** The [this] of a [db.run] callback. *)
Record run_info : Type := { changes : Z; lastID : Z }.

(** Modelled from the spec: the files [database/schema.sql] and
    [database/seed.sql] are not under the sources. A script file is
    represented by what it holds rather than by its text: the schema
    script defines the two tables when they do not exist, and a seed
    script is a list of INSERT statements. Whether a script is applied is
    decided by [applySqlFile] and [bootstrapDatabase] below, not here. *)
Inductive seed_stmt : Type :=
| SeedUser (name email password_hash : string)
| SeedTask (user_id : Z) (title : string) (completed : bool).

Inductive script : Type :=
| SchemaScript
| SeedScript (stmts : list seed_stmt).

Record driver (W : Type) : Type := {
  (** sqlite3 [db.all(sql, params, cb)]: the rows, or an error. *)
  sqlite_all : string -> list jsval -> M W (list jsval);
  (** sqlite3 [db.run(sql, params, cb)]. *)
  sqlite_run : string -> list jsval -> M W run_info;
  (** sqlite3 [db.exec(sql, cb)] on the content of a script file. *)
  sqlite_exec : script -> M W unit;
  (** mysql2 [pool.execute(sql, params)], first component of the result:
      an array of rows for a query, a result header object otherwise. *)
  mysql_execute : string -> list jsval -> M W jsval;
  (** bcryptjs [hash(plain, rounds, cb)]. *)
  bcrypt_hash : jsval -> Z -> M W string;
  (** bcryptjs [compare(plain, hashed, cb)]. *)
  bcrypt_compare : jsval -> jsval -> M W bool;
  (** [fs.existsSync(path)]. *)
  fs_existsSync : string -> W -> bool;
  (** [fs.readFileSync(path, 'utf8')] of a file that exists. *)
  fs_readFileSync : string -> W -> script
}.
Arguments sqlite_all {W}.
Arguments sqlite_run {W}.
Arguments sqlite_exec {W}.
Arguments mysql_execute {W}.
Arguments bcrypt_hash {W}.
Arguments bcrypt_compare {W}.
Arguments fs_existsSync {W}.
Arguments fs_readFileSync {W}.

(* ------------------------------------------------------------------ *)
(** * db.js *)

Module Db.

Definition SCHEMA_FILE : string := "database/schema.sql".
Definition SEED_FILE : string := "database/seed.sql".

(** The object a [query] resolves with. *)
Record qresult : Type := { rows : jsval; rowCount : jsval; q_lastID : jsval }.

Definition CREATE_USERS : string := "
      CREATE TABLE IF NOT EXISTS users (
        id INT AUTO_INCREMENT PRIMARY KEY,
        name VARCHAR(255) NOT NULL,
        email VARCHAR(255) NOT NULL UNIQUE,
        password_hash TEXT NOT NULL,
        created_at DATETIME NOT NULL DEFAULT CURRENT_TIMESTAMP,
        updated_at DATETIME NOT NULL DEFAULT CURRENT_TIMESTAMP ON UPDATE CURRENT_TIMESTAMP
      ) ENGINE=InnoDB;
    ".

Definition CREATE_TASKS : string := "
      CREATE TABLE IF NOT EXISTS tasks (
        id INT AUTO_INCREMENT PRIMARY KEY,
        user_id INT NOT NULL,
        title TEXT NOT NULL,
        completed BOOLEAN NOT NULL DEFAULT FALSE,
        created_at DATETIME NOT NULL DEFAULT CURRENT_TIMESTAMP,
        updated_at DATETIME NOT NULL DEFAULT CURRENT_TIMESTAMP ON UPDATE CURRENT_TIMESTAMP,
        CONSTRAINT fk_user FOREIGN KEY (user_id) REFERENCES users(id) ON DELETE CASCADE
      ) ENGINE=InnoDB;
    ".

Section WithDriver.

Context {W : Type}.
(** [useMySql = Boolean(process.env.MYSQL_URL)], fixed for the process. *)
Variable useMySql : bool.
Variable d : driver W.

(** [applySqlFile(filePath)]: a missing file resolves at once. *)
Definition applySqlFile (filePath : string) : M W unit :=
  fun w =>
    if negb (fs_existsSync d filePath w) then ret tt w
    else
      let sql := fs_readFileSync d filePath w in
      sqlite_exec d sql w.

(** [query(text, params)]. *)
Definition query (text : string) (params : list jsval) : M W qresult :=
  if useMySql then
    rows <- mysql_execute d (Js.replace_placeholders text) params ;;
    rows_length <- lift (js_get rows "length") ;;
    ret {| rows := rows; rowCount := rows_length; q_lastID := VUndef |}
  else
    let sqlText := Js.replace_placeholders text in
    let trimmed := Js.toLowerCase (Js.trim text) in
    let isSelect := Js.startsWith "select" trimmed in
    let isInsert := Js.startsWith "insert" trimmed in
    let isUpdate := Js.startsWith "update" trimmed in
    let isDelete := Js.startsWith "delete" trimmed in
    if isSelect then
      rows <- sqlite_all d sqlText params ;;
      ret {| rows := VArr rows; rowCount := VNum (Z.of_nat (List.length rows));
             q_lastID := VUndef |}
    else if isInsert || isUpdate || isDelete then
      this <- sqlite_run d sqlText params ;;
      ret {| rowCount := VNum (changes this); rows := VArr [];
             q_lastID := VNum (lastID this) |}
    else
      this <- sqlite_run d sqlText params ;;
      ret {| rowCount := VNum (changes this); rows := VArr [];
             q_lastID := VNum (lastID this) |}.

(** [bootstrapDatabase()]. *)
Definition bootstrapDatabase : M W unit :=
  if useMySql then
    _ <- mysql_execute d CREATE_USERS [] ;;
    _ <- mysql_execute d CREATE_TASKS [] ;;
    ret tt
  else
    _ <- applySqlFile SCHEMA_FILE ;;
    applySqlFile SEED_FILE.

End WithDriver.

End Db.

(* ------------------------------------------------------------------ *)
(** * app.js *)

Module App.

Import Db.

Definition SALT_ROUNDS : Z := 10.

(** What a handler leaves in [res]: the status code and the JSON body
    ([None] after [send()] without a body). *)
Record response : Type := { status : Z; body : option jsval }.

(** [res.status(st).json(v)]. *)
Definition json (st : Z) (v : jsval) : response :=
  {| status := st; body := Some v |}.

(** [res.status(st).json({ message: msg })]. *)
Definition message (st : Z) (msg : string) : response :=
  json st (VObj [("message", VStr msg)]).

(** The part of an Express request the handlers read: [req.params] and
    the parsed JSON [req.body]. *)
Record request : Type := {
  userId : string;
  taskId : string;
  req_body : jsval
}.

(** The statements the handlers send. *)
Definition SQL_USER_BY_ID : string :=
  "SELECT id, name, email FROM users WHERE id = $1".
Definition SQL_HEALTH : string := "SELECT 1".
Definition SQL_USER_ID_BY_EMAIL : string :=
  "SELECT id FROM users WHERE email = $1".
Definition SQL_INSERT_USER_RETURNING : string :=
  "INSERT INTO users (name, email, password_hash, created_at, updated_at) VALUES ($1, $2, $3, NOW(), NOW()) RETURNING id, name, email".
Definition SQL_INSERT_USER : string :=
  "INSERT INTO users (name, email, password_hash, created_at, updated_at) VALUES ($1, $2, $3, NOW(), NOW())".
Definition SQL_USER_BY_EMAIL : string :=
  "SELECT id, name, email FROM users WHERE email = $1".
Definition SQL_LOGIN : string :=
  "SELECT id, name, email, password_hash FROM users WHERE email = $1".
Definition SQL_TASKS_OF_USER : string :=
  "SELECT id, user_id, title, completed, created_at, updated_at FROM tasks WHERE user_id = $1 ORDER BY created_at DESC".
Definition SQL_INSERT_TASK_RETURNING : string :=
  "INSERT INTO tasks (user_id, title, completed, created_at, updated_at) VALUES ($1, $2, FALSE, NOW(), NOW()) RETURNING id, user_id, title, completed, created_at, updated_at".
Definition SQL_INSERT_TASK : string :=
  "INSERT INTO tasks (user_id, title, completed, created_at, updated_at) VALUES ($1, $2, FALSE, NOW(), NOW())".
Definition SQL_LAST_TASK_OF_USER : string :=
  "SELECT id, user_id, title, completed, created_at, updated_at FROM tasks WHERE user_id = $1 ORDER BY id DESC LIMIT 1".
Definition SQL_TASK_OF_USER : string :=
  "SELECT id, user_id, title, completed, created_at, updated_at FROM tasks WHERE id = $1 AND user_id = $2".
Definition SQL_UPDATE_TASK : string :=
  "UPDATE tasks SET title = $1, completed = $2, updated_at = NOW() WHERE id = $3 AND user_id = $4 RETURNING id, user_id, title, completed, created_at, updated_at".
Definition SQL_DELETE_TASK : string :=
  "DELETE FROM tasks WHERE id = $1 AND user_id = $2".

(** [sanitizeUser(row)]. *)
Definition sanitizeUser (row : jsval) : outcome jsval :=
  and_then (js_get row "id") (fun id =>
  and_then (js_get row "name") (fun name =>
  and_then (js_get row "email") (fun email =>
  Resolved (VObj [("id", id); ("name", name); ("email", email)])))).

(** [mapTask(row)]. *)
Definition mapTask (row : jsval) : outcome jsval :=
  and_then (js_get row "id") (fun id =>
  and_then (js_get row "user_id") (fun user_id =>
  and_then (js_get row "title") (fun title =>
  and_then (js_get row "completed") (fun completed =>
  and_then (js_get row "created_at") (fun created_at =>
  and_then (js_get row "updated_at") (fun updated_at =>
  Resolved (VObj [("id", id);
                  ("userId", user_id);
                  ("title", title);
                  ("completed", VBool (truthy completed));
                  ("createdAt", created_at);
                  ("updatedAt", updated_at)]))))))).

(** [rows.map(mapTask)]. *)
Fixpoint map_mapTask (l : list jsval) : outcome (list jsval) :=
  match l with
  | [] => Resolved []
  | x :: r =>
      and_then (mapTask x) (fun t =>
      and_then (map_mapTask r) (fun ts => Resolved (t :: ts)))
  end.

Definition rows_map_mapTask (rows : jsval) : outcome jsval :=
  match rows with
  | VArr l => and_then (map_mapTask l) (fun ts => Resolved (VArr ts))
  | _ =>
      and_then (js_get rows "map") (fun _ =>
      Rejected (TypeError "result.rows.map is not a function"))
  end.

(** [handleError(res, error, fallbackMessage)]. *)
Definition handleError (error : js_error) (fallbackMessage : string) : response :=
  let status :=
    match e_status error with
    | Some st => if st =? 0 then 500 else st
    | None => 500
    end in
  json status
    (VObj [("message",
            VStr (if Js.is_empty (e_message error) then fallbackMessage
                  else e_message error))]).

Section WithDriver.

Context {W : Type}.
Variable useMySql : bool.
Variable d : driver W.

Local Abbreviation query := (Db.query useMySql d).

(** [hashPassword(plain)] and [comparePassword(plain, hashed)] wrap the
    callbacks of bcryptjs in promises. *)
Definition hashPassword (plain : jsval) : M W string :=
  bcrypt_hash d plain SALT_ROUNDS.

Definition comparePassword (plain hashed : jsval) : M W bool :=
  bcrypt_compare d plain hashed.

(** [ensureUser(userId)]. *)
Definition ensureUser (userId : string) : M W jsval :=
  match Js.parseInt userId with
  | None => throw (http_error "Invalid user id" 400)
  | Some id =>
      result <- query SQL_USER_BY_ID [VNum id] ;;
      let user := js_first_opt (rows result) in
      if negb (truthy user) then throw (http_error "User not found" 404)
      else ret user
  end.

(** A handler body runs inside [try]; whatever it throws is answered by
    [handleError], so the handler itself always settles with a response. *)
Definition endpoint (fallbackMessage : string) (m : M W response) : W -> response * W :=
  fun w =>
    match m w with
    | (Resolved r, w') => (r, w')
    | (Rejected e, w') => (handleError e fallbackMessage, w')
    end.

(** [GET /api/health]. *)
Definition health (req : request) : W -> response * W :=
  fun w =>
    match query SQL_HEALTH [] w with
    | (Resolved _, w') => (json 200 (VObj [("status", VStr "ok")]), w')
    | (Rejected error, w') =>
        (json 500 (VObj [("status", VStr "error");
                         ("message", VStr (e_message error))]), w')
    end.

(** [POST /api/auth/register]. *)
Definition register (req : request) : W -> response * W :=
  endpoint "Failed to register" (
    body_name <- lift (js_get (req_body req) "name") ;;
    name <- lift (js_trim "(req.body.name || '')" (js_or body_name (VStr EmptyString))) ;;
    body_email <- lift (js_get (req_body req) "email") ;;
    email_t <- lift (js_trim "(req.body.email || '')" (js_or body_email (VStr EmptyString))) ;;
    let email := Js.toLowerCase email_t in
    body_password <- lift (js_get (req_body req) "password") ;;
    let password := js_or body_password (VStr EmptyString) in
    if Js.is_empty name || Js.is_empty email || negb (truthy password) then
      ret (message 400 "Name, email, and password are required")
    else if js_length_lt password 6 then
      ret (message 400 "Password must be at least 6 characters")
    else
      existing <- query SQL_USER_ID_BY_EMAIL [VStr email] ;;
      if truthy (js_length_opt (rows existing)) then
        ret (message 409 "Email already registered")
      else
        passwordHash <- hashPassword password ;;
        created <-
          try_catch
            (query SQL_INSERT_USER_RETURNING [VStr name; VStr email; VStr passwordHash])
            (fun err =>
               (* Fallback for MySQL which doesn't support RETURNING *)
               if code_is err "ER_PARSE_ERROR" then
                 _ <- query SQL_INSERT_USER [VStr name; VStr email; VStr passwordHash] ;;
                 fetched <- query SQL_USER_BY_EMAIL [VStr email] ;;
                 row <- lift (js_first (rows fetched)) ;;
                 ret {| rows := VArr [row]; rowCount := VUndef; q_lastID := VUndef |}
               else throw err) ;;
        row <- lift (js_first (rows created)) ;;
        user <- lift (sanitizeUser row) ;;
        ret (json 201 (VObj [("user", user)]))).

(** [POST /api/auth/login]. *)
Definition login (req : request) : W -> response * W :=
  endpoint "Failed to login" (
    body_email <- lift (js_get (req_body req) "email") ;;
    email_t <- lift (js_trim "(req.body.email || '')" (js_or body_email (VStr EmptyString))) ;;
    let email := Js.toLowerCase email_t in
    body_password <- lift (js_get (req_body req) "password") ;;
    let password := js_or body_password (VStr EmptyString) in
    if Js.is_empty email || negb (truthy password) then
      ret (message 400 "Email and password are required")
    else
      result <- query SQL_LOGIN [VStr email] ;;
      let user := js_first_opt (rows result) in
      if negb (truthy user) then ret (message 401 "Invalid credentials")
      else
        password_hash <- lift (js_get user "password_hash") ;;
        match_ <- comparePassword password password_hash ;;
        if negb match_ then ret (message 401 "Invalid credentials")
        else
          u <- lift (sanitizeUser user) ;;
          ret (json 200 (VObj [("user", u)]))).

(** [GET /api/users/:userId/tasks]. *)
Definition listTasks (req : request) : W -> response * W :=
  endpoint "Failed to load tasks" (
    user <- ensureUser (userId req) ;;
    user_id <- lift (js_get user "id") ;;
    result <- query SQL_TASKS_OF_USER [user_id] ;;
    tasks <- lift (rows_map_mapTask (rows result)) ;;
    ret (json 200 tasks)).

(** [POST /api/users/:userId/tasks]. *)
Definition createTask (req : request) : W -> response * W :=
  endpoint "Failed to create task" (
    user <- ensureUser (userId req) ;;
    body_title <- lift (js_get (req_body req) "title") ;;
    title <- lift (js_trim "(req.body.title || '')" (js_or body_title (VStr EmptyString))) ;;
    if Js.is_empty title then ret (message 400 "Task title is required")
    else
      user_id <- lift (js_get user "id") ;;
      created <-
        try_catch
          (query SQL_INSERT_TASK_RETURNING [user_id; VStr title])
          (fun err =>
             if code_is err "ER_PARSE_ERROR" then
               _ <- query SQL_INSERT_TASK [user_id; VStr title] ;;
               fetched <- query SQL_LAST_TASK_OF_USER [user_id] ;;
               row <- lift (js_first (rows fetched)) ;;
               ret {| rows := VArr [row]; rowCount := VUndef; q_lastID := VUndef |}
             else throw err) ;;
      row <- lift (js_first (rows created)) ;;
      task <- lift (mapTask row) ;;
      ret (json 201 task)).

(** [PUT /api/users/:userId/tasks/:taskId]. *)
Definition updateTask (req : request) : W -> response * W :=
  endpoint "Failed to update task" (
    user <- ensureUser (userId req) ;;
    user_id <- lift (js_get user "id") ;;
    existing <- query SQL_TASK_OF_USER [VStr (taskId req); user_id] ;;
    let current := js_first_opt (rows existing) in
    if negb (truthy current) then ret (message 404 "Task not found")
    else
      body_title <- lift (js_get (req_body req) "title") ;;
      let hasTitle := match body_title with VUndef => false | _ => true end in
      title <- (if hasTitle
                then ret (VStr (Js.trim (js_String (js_nullish body_title (VStr EmptyString)))))
                else lift (js_get current "title")) ;;
      if hasTitle && negb (truthy title) then
        ret (message 400 "Task title cannot be empty")
      else
        body_completed <- lift (js_get (req_body req) "completed") ;;
        completed <- (if is_boolean body_completed
                      then ret (if truthy body_completed then true else false)
                      else current_completed <- lift (js_get current "completed") ;;
                           ret (truthy current_completed)) ;;
        updated <- query SQL_UPDATE_TASK
                     [title; VBool completed; VStr (taskId req); user_id] ;;
        row <- lift (js_first (rows updated)) ;;
        task <- lift (mapTask row) ;;
        ret (json 200 task)).

(** [DELETE /api/users/:userId/tasks/:taskId]. *)
Definition deleteTask (req : request) : W -> response * W :=
  endpoint "Failed to delete task" (
    user <- ensureUser (userId req) ;;
    user_id <- lift (js_get user "id") ;;
    result <- query SQL_DELETE_TASK [VStr (taskId req); user_id] ;;
    if negb (truthy (rowCount result)) then ret (message 404 "Task not found")
    else ret {| status := 204; body := None |}).

End WithDriver.

End App.

(* ------------------------------------------------------------------ *)
(** * Reference collaborators: a small relational store

    A model of what the two database engines do with the statements of
    [App], and stand-ins for bcryptjs and the file system. The MySQL
    engine rejects every statement with a RETURNING clause, as the
    fallback of the registration handler records; the SQLite engine has
    no NOW() function. *)

Module Ref.

Record user_row : Type := {
  u_id : Z;
  u_name : string;
  u_email : string;
  u_password_hash : string;
  u_created_at : Z;
  u_updated_at : Z
}.

Record task_row : Type := {
  t_id : Z;
  t_user_id : Z;
  t_title : string;
  t_completed : bool;
  t_created_at : Z;
  t_updated_at : Z
}.

(** The two tables (a table that was never created holds no rows), the
    counters of the generated identifiers, and the conversion of the
    engine: [as_integer] is the integer the engine takes a text operand
    for when it compares it with an identifier column, if it takes it for
    one. The conversion belongs to the engine (SQLite reads [1.0], [+1]
    and [1e0] as 1, MySQL reads the numeric prefix of a text); no
    statement changes it, and the results below hold for every one. *)
Record database : Type := {
  has_users : bool;
  has_tasks : bool;
  users : list user_row;
  tasks : list task_row;
  next_user_id : Z;
  next_task_id : Z;
  as_integer : string -> option Z
}.

(** The store, the clock NOW() reads, and the two script files: whether
    the schema file is on disk, and the statements of the seed file when
    it is. *)
Record world : Type := {
  db : database;
  now : Z;
  schema_file : bool;
  seed_file : option (list seed_stmt)
}.

Definition set_db (w : world) (b : database) : world :=
  {| db := b; now := now w; schema_file := schema_file w;
     seed_file := seed_file w |}.

Inductive stmt : Type :=
| UserById | Health | UserIdByEmail | InsertUserReturning | InsertUser
| UserByEmail | Login | TasksOfUser | InsertTaskReturning | InsertTask
| LastTaskOfUser | TaskOfUser | UpdateTask | DeleteTask
| CreateUsers | CreateTasks.

(** The statements as the drivers receive them, placeholders translated. *)
Definition statements : list (string * stmt) :=
  [ (Js.replace_placeholders App.SQL_USER_BY_ID, UserById);
    (Js.replace_placeholders App.SQL_HEALTH, Health);
    (Js.replace_placeholders App.SQL_USER_ID_BY_EMAIL, UserIdByEmail);
    (Js.replace_placeholders App.SQL_INSERT_USER_RETURNING, InsertUserReturning);
    (Js.replace_placeholders App.SQL_INSERT_USER, InsertUser);
    (Js.replace_placeholders App.SQL_USER_BY_EMAIL, UserByEmail);
    (Js.replace_placeholders App.SQL_LOGIN, Login);
    (Js.replace_placeholders App.SQL_TASKS_OF_USER, TasksOfUser);
    (Js.replace_placeholders App.SQL_INSERT_TASK_RETURNING, InsertTaskReturning);
    (Js.replace_placeholders App.SQL_INSERT_TASK, InsertTask);
    (Js.replace_placeholders App.SQL_LAST_TASK_OF_USER, LastTaskOfUser);
    (Js.replace_placeholders App.SQL_TASK_OF_USER, TaskOfUser);
    (Js.replace_placeholders App.SQL_UPDATE_TASK, UpdateTask);
    (Js.replace_placeholders App.SQL_DELETE_TASK, DeleteTask);
    (Db.CREATE_USERS, CreateUsers);
    (Db.CREATE_TASKS, CreateTasks) ].

Fixpoint parse_in (table : list (string * stmt)) (sql : string) : option stmt :=
  match table with
  | [] => None
  | (text, st) :: r => if String.eqb sql text then Some st else parse_in r sql
  end.

Definition parse (sql : string) : option stmt := parse_in statements sql.

Definition engine_error (code msg : string) : js_error :=
  {| e_message := msg; e_status := None; e_code := Some code;
     e_stack := "Error: " ++ msg |}.

(** The text from the RETURNING keyword on, which the MySQL parser quotes. *)
Fixpoint from_returning (sql : string) : string :=
  if String.prefix "RETURNING" sql then sql
  else match sql with
       | EmptyString => EmptyString
       | String _ r => from_returning r
       end.

Definition mysql_parse_error (sql : string) : js_error :=
  engine_error "ER_PARSE_ERROR"
    ("You have an error in your SQL syntax; check the manual that corresponds to your MySQL server version for the right syntax to use near '"
     ++ from_returning sql ++ "' at line 1").

Definition no_such_table (mysql : bool) (t : string) : js_error :=
  if mysql then engine_error "ER_NO_SUCH_TABLE" ("Table 'todo." ++ t ++ "' doesn't exist")
  else engine_error "SQLITE_ERROR" ("SQLITE_ERROR: no such table: " ++ t).

Definition duplicate_email (mysql : bool) (email : string) : js_error :=
  if mysql then engine_error "ER_DUP_ENTRY"
                  ("Duplicate entry '" ++ email ++ "' for key 'users.email'")
  else engine_error "SQLITE_CONSTRAINT"
         "SQLITE_CONSTRAINT: UNIQUE constraint failed: users.email".

Definition foreign_key_failed (mysql : bool) : js_error :=
  if mysql then engine_error "ER_NO_REFERENCED_ROW_2"
                  "Cannot add or update a child row: a foreign key constraint fails"
  else engine_error "SQLITE_CONSTRAINT"
         "SQLITE_CONSTRAINT: FOREIGN KEY constraint failed".

Definition bad_parameters (mysql : bool) : js_error :=
  if mysql then engine_error "ER_WRONG_ARGUMENTS" "Incorrect arguments to mysqld_stmt_execute"
  else engine_error "SQLITE_RANGE" "SQLITE_RANGE: column index out of range".

(** The integer a text spells: digits, with a minus sign or without. The
    conversion of the sample worlds; engines accept more spellings. *)
Definition int_literal (s : string) : option Z :=
  match s with
  | String "-" r =>
      if Js.all_digits r then option_map Z.opp (Js.digits_prefix None r) else None
  | _ => if Js.all_digits s then Js.digits_prefix None s else None
  end.

(** The integer an identifier column is compared with. A text operand is
    compared as the integer the engine takes it for; a text it takes for
    none matches no row. *)
Definition sql_int (b : database) (v : jsval) : option Z :=
  match v with
  | VNum z => Some z
  | VStr s => as_integer b s
  | VBool true => Some 1
  | VBool false => Some 0
  | _ => None
  end.

(** The text a text column is compared with or set to. *)
Definition sql_text (v : jsval) : option string :=
  match v with
  | VStr s => Some s
  | VNum z => Some (Js.string_of_Z z)
  | _ => None
  end.

Definition opt_Z_eqb (o : option Z) (z : Z) : bool :=
  match o with Some x => x =? z | None => false end.

Definition opt_string_eqb (o : option string) (s : string) : bool :=
  match o with Some x => String.eqb x s | None => false end.

Definition user_public (u : user_row) : list (string * jsval) :=
  [("id", VNum (u_id u)); ("name", VStr (u_name u)); ("email", VStr (u_email u))].

Definition user_obj (u : user_row) : jsval := VObj (user_public u).

Definition user_id_obj (u : user_row) : jsval := VObj [("id", VNum (u_id u))].

Definition user_login_obj (u : user_row) : jsval :=
  VObj (user_public u ++ [("password_hash", VStr (u_password_hash u))]).

Definition task_obj (t : task_row) : jsval :=
  VObj [("id", VNum (t_id t)); ("user_id", VNum (t_user_id t));
        ("title", VStr (t_title t));
        ("completed", VNum (if t_completed t then 1 else 0));
        ("created_at", VNum (t_created_at t));
        ("updated_at", VNum (t_updated_at t))].

Definition users_by_id (id : jsval) (b : database) : list user_row :=
  filter (fun u => opt_Z_eqb (sql_int b id) (u_id u)) (users b).

(** Emails are compared exactly: the handlers store and look up emails in
    lower case only. *)
Definition users_by_email (email : jsval) (b : database) : list user_row :=
  filter (fun u => opt_string_eqb (sql_text email) (u_email u)) (users b).

Definition tasks_of_user (uid : jsval) (b : database) : list task_row :=
  filter (fun t => opt_Z_eqb (sql_int b uid) (t_user_id t)) (tasks b).

(** The condition [id = ? AND user_id = ?]. *)
Definition task_matches (b : database) (tid uid : jsval) (t : task_row) : bool :=
  opt_Z_eqb (sql_int b tid) (t_id t) && opt_Z_eqb (sql_int b uid) (t_user_id t).

(** ORDER BY key DESC, as a stable insertion sort. *)
Fixpoint insert_desc (key : task_row -> Z) (t : task_row) (l : list task_row) : list task_row :=
  match l with
  | [] => [t]
  | x :: r => if key x <=? key t then t :: l else x :: insert_desc key t r
  end.

Definition sort_desc (key : task_row -> Z) (l : list task_row) : list task_row :=
  fold_right (insert_desc key) [] l.


(** What a statement produces: rows, or the count of affected rows with
    the generated identifier. *)
Inductive reply : Type :=
| Rows (l : list jsval)
| Header (affected insertId : Z).

(** INSERT INTO users with the unique constraint on the email. The sizes
    of the columns are not part of the store: a result that concludes
    that a row was stored bounds the lengths of its texts. *)
Definition insert_user (mysql : bool) (name email hash : string) (w : world)
  : outcome reply * world :=
  let b := db w in
  if negb (has_users b) then (Rejected (no_such_table mysql "users"), w)
  else if existsb (fun u => String.eqb email (u_email u)) (users b)
  then (Rejected (duplicate_email mysql email), w)
  else
    let u := {| u_id := next_user_id b; u_name := name; u_email := email;
                u_password_hash := hash;
                u_created_at := now w; u_updated_at := now w |} in
    (Resolved (Header 1 (next_user_id b)),
     set_db w {| has_users := has_users b; has_tasks := has_tasks b;
                 users := users b ++ [u]; tasks := tasks b;
                 next_user_id := next_user_id b + 1;
                 next_task_id := next_task_id b;
                 as_integer := as_integer b |}).

(** INSERT INTO tasks with the foreign key on the owner. *)
Definition insert_task (mysql : bool) (uid : Z) (title : string) (completed : bool)
    (w : world) : outcome reply * world :=
  let b := db w in
  if negb (has_tasks b) then (Rejected (no_such_table mysql "tasks"), w)
  else if negb (existsb (fun u => uid =? u_id u) (users b))
  then (Rejected (foreign_key_failed mysql), w)
  else
    let t := {| t_id := next_task_id b; t_user_id := uid; t_title := title;
                t_completed := completed;
                t_created_at := now w; t_updated_at := now w |} in
    (Resolved (Header 1 (next_task_id b)),
     set_db w {| has_users := has_users b; has_tasks := has_tasks b;
                 users := users b; tasks := tasks b ++ [t];
                 next_user_id := next_user_id b;
                 next_task_id := next_task_id b + 1;
                 as_integer := as_integer b |}).

Definition select_users (mysql : bool) (render : user_row -> jsval)
    (found : list user_row) (w : world) : outcome reply * world :=
  if negb (has_users (db w)) then (Rejected (no_such_table mysql "users"), w)
  else (Resolved (Rows (map render found)), w).

Definition select_tasks (mysql : bool) (found : list task_row) (w : world)
  : outcome reply * world :=
  if negb (has_tasks (db w)) then (Rejected (no_such_table mysql "tasks"), w)
  else (Resolved (Rows (map task_obj found)), w).

Definition delete_task (mysql : bool) (tid uid : jsval) (w : world)
  : outcome reply * world :=
  let b := db w in
  if negb (has_tasks b) then (Rejected (no_such_table mysql "tasks"), w)
  else
    let gone := filter (task_matches b tid uid) (tasks b) in
    (Resolved (Header (Z.of_nat (List.length gone)) 0),
     set_db w {| has_users := has_users b; has_tasks := has_tasks b;
                 users := users b;
                 tasks := filter (fun t => negb (task_matches b tid uid t)) (tasks b);
                 next_user_id := next_user_id b;
                 next_task_id := next_task_id b;
                 as_integer := as_integer b |}).

Definition create_table (users_table : bool) (w : world) : outcome reply * world :=
  let b := db w in
  (Resolved (Header 0 0),
   set_db w {| has_users := has_users b || users_table;
               has_tasks := has_tasks b || negb users_table;
               users := users b; tasks := tasks b;
               next_user_id := next_user_id b;
               next_task_id := next_task_id b; as_integer := as_integer b |}).

Definition uses_returning (st : stmt) : bool :=
  match st with
  | InsertUserReturning | InsertTaskReturning | UpdateTask => true
  | _ => false
  end.

(** The table of a statement that calls NOW(). *)
Definition uses_now (st : stmt) : option string :=
  match st with
  | InsertUserReturning | InsertUser => Some "users"
  | InsertTaskReturning | InsertTask | UpdateTask => Some "tasks"
  | _ => None
  end.

Definition is_create (st : stmt) : bool :=
  match st with CreateUsers | CreateTasks => true | _ => false end.

Definition has_table (t : string) (b : database) : bool :=
  if String.eqb t "users" then has_users b else has_tasks b.

(** A statement both engines accept, on the store. *)
Definition run_stmt (mysql : bool) (st : stmt) (params : list jsval) (w : world)
  : outcome reply * world :=
  match st, params with
  | Health, [] => (Resolved (Rows [VObj [("1", VNum 1)]]), w)
  | UserById, [id] => select_users mysql user_obj (users_by_id id (db w)) w
  | UserIdByEmail, [email] =>
      select_users mysql user_id_obj (users_by_email email (db w)) w
  | UserByEmail, [email] =>
      select_users mysql user_obj (users_by_email email (db w)) w
  | Login, [email] =>
      select_users mysql user_login_obj (users_by_email email (db w)) w
  | TasksOfUser, [uid] =>
      select_tasks mysql (sort_desc t_created_at (tasks_of_user uid (db w))) w
  | LastTaskOfUser, [uid] =>
      select_tasks mysql (firstn 1 (sort_desc t_id (tasks_of_user uid (db w)))) w
  | TaskOfUser, [tid; uid] =>
      select_tasks mysql (filter (task_matches (db w) tid uid) (tasks (db w))) w
  | DeleteTask, [tid; uid] => delete_task mysql tid uid w
  | InsertUser, [VStr name; VStr email; VStr hash] =>
      insert_user mysql name email hash w
  | InsertTask, [VNum uid; VStr title] => insert_task mysql uid title false w
  | CreateUsers, [] => create_table true w
  | CreateTasks, [] => create_table false w
  | _, _ => (Rejected (bad_parameters mysql), w)
  end.

(** One statement on one engine. MySQL rejects a RETURNING clause when it
    parses the statement; SQLite knows neither NOW() nor the MySQL table
    options. *)
Definition exec (mysql : bool) (sql : string) (params : list jsval) (w : world)
  : outcome reply * world :=
  match parse sql with
  | None =>
      (Rejected (if mysql then mysql_parse_error sql
                 else engine_error "SQLITE_ERROR" "SQLITE_ERROR: syntax error"), w)
  | Some st =>
      if mysql then
        if uses_returning st then (Rejected (mysql_parse_error sql), w)
        else run_stmt true st params w
      else
        match uses_now st with
        | Some t =>
            if has_table t (db w)
            then (Rejected (engine_error "SQLITE_ERROR"
                              "SQLITE_ERROR: no such function: NOW"), w)
            else (Rejected (no_such_table false t), w)
        | None =>
            if is_create st
            then (Rejected (engine_error "SQLITE_ERROR" "SQLITE_ERROR: syntax error"), w)
            else run_stmt false st params w
        end
  end.

(** The result header mysql2 resolves with for a statement that is not a
    query. *)
Definition result_header (affected insertId : Z) : jsval :=
  VObj [("fieldCount", VNum 0); ("affectedRows", VNum affected);
        ("insertId", VNum insertId); ("info", VStr EmptyString);
        ("serverStatus", VNum 2); ("warningStatus", VNum 0);
        ("changedRows", VNum 0)].

Definition ref_mysql_execute (sql : string) (params : list jsval) : M world jsval :=
  fun w =>
    match exec true sql params w with
    | (Resolved (Rows l), w') => (Resolved (VArr l), w')
    | (Resolved (Header a i), w') => (Resolved (result_header a i), w')
    | (Rejected e, w') => (Rejected e, w')
    end.

Definition ref_sqlite_all (sql : string) (params : list jsval) : M world (list jsval) :=
  fun w =>
    match exec false sql params w with
    | (Resolved (Rows l), w') => (Resolved l, w')
    | (Resolved (Header _ _), w') => (Resolved [], w')
    | (Rejected e, w') => (Rejected e, w')
    end.

Definition ref_sqlite_run (sql : string) (params : list jsval) : M world run_info :=
  fun w =>
    match exec false sql params w with
    | (Resolved (Rows _), w') => (Resolved {| changes := 0; lastID := 0 |}, w')
    | (Resolved (Header a i), w') => (Resolved {| changes := a; lastID := i |}, w')
    | (Rejected e, w') => (Rejected e, w')
    end.

(** Modelled from the spec: the statements of a seed script, each an
    INSERT of the engine. [db.exec] runs them in order and stops at the
    first one that fails. *)
Fixpoint run_seed (stmts : list seed_stmt) (w : world) : outcome unit * world :=
  match stmts with
  | [] => (Resolved tt, w)
  | st :: r =>
      match (match st with
             | SeedUser name email hash => insert_user false name email hash w
             | SeedTask uid title completed => insert_task false uid title completed w
             end) with
      | (Resolved _, w') => run_seed r w'
      | (Rejected e, w') => (Rejected e, w')
      end
  end.

(** Modelled from the spec: the schema script creates each table that
    does not exist. A seed script handed to [db.exec] is run as it is,
    whatever the store holds. *)
Definition ref_sqlite_exec (sc : script) : M world unit :=
  fun w =>
    match sc with
    | SchemaScript =>
        let b := db w in
        (Resolved tt,
         set_db w {| has_users := true; has_tasks := true;
                     users := users b; tasks := tasks b;
                     next_user_id := next_user_id b;
                     next_task_id := next_task_id b;
                     as_integer := as_integer b |})
    | SeedScript stmts => run_seed stmts w
    end.

(** A stand-in for the bcrypt digest: deterministic, prefixed like a
    digest of cost 10. Only strings can be hashed or compared. The
    stand-in tells any two passwords apart, which bcrypt does not past
    its first 72 bytes; no result below rests on two different passwords
    having different digests beyond that length. *)
Definition digest (plain : string) : string := "$2a$10$" ++ plain.

Definition illegal_arguments : js_error :=
  {| e_message := "Illegal arguments"; e_status := None; e_code := None;
     e_stack := "Error: Illegal arguments" |}.

Definition ref_bcrypt_hash (plain : jsval) (rounds : Z) : M world string :=
  match plain with
  | VStr p => ret (digest p)
  | _ => throw illegal_arguments
  end.

Definition ref_bcrypt_compare (plain hashed : jsval) : M world bool :=
  match plain, hashed with
  | VStr p, VStr h => ret (String.eqb (digest p) h)
  | _, _ => throw illegal_arguments
  end.

Definition ref_existsSync (path : string) (w : world) : bool :=
  if String.eqb path Db.SCHEMA_FILE then schema_file w
  else if String.eqb path Db.SEED_FILE
       then match seed_file w with Some _ => true | None => false end
       else false.

(** Read only after [ref_existsSync] answered [true]. *)
Definition ref_readFileSync (path : string) (w : world) : script :=
  if String.eqb path Db.SCHEMA_FILE then SchemaScript
  else SeedScript (match seed_file w with Some stmts => stmts | None => [] end).

Definition ref_driver : driver world :=
  {| sqlite_all := ref_sqlite_all;
     sqlite_run := ref_sqlite_run;
     sqlite_exec := ref_sqlite_exec;
     mysql_execute := ref_mysql_execute;
     bcrypt_hash := ref_bcrypt_hash;
     bcrypt_compare := ref_bcrypt_compare;
     fs_existsSync := ref_existsSync;
     fs_readFileSync := ref_readFileSync |}.

(** The handlers and the data-access layer on the reference collaborators. *)
Definition query (useMySql : bool) := Db.query useMySql ref_driver.
Definition bootstrapDatabase (useMySql : bool) := Db.bootstrapDatabase useMySql ref_driver.
Definition register (useMySql : bool) := App.register useMySql ref_driver.
Definition login (useMySql : bool) := App.login useMySql ref_driver.
Definition listTasks (useMySql : bool) := App.listTasks useMySql ref_driver.
Definition createTask (useMySql : bool) := App.createTask useMySql ref_driver.
Definition updateTask (useMySql : bool) := App.updateTask useMySql ref_driver.
Definition deleteTask (useMySql : bool) := App.deleteTask useMySql ref_driver.
Definition health (useMySql : bool) := App.health useMySql ref_driver.

(** An empty store with both tables, no script files, at time [0]. *)
Definition empty_db : database :=
  {| has_users := true; has_tasks := true; users := []; tasks := [];
     next_user_id := 1; next_task_id := 1; as_integer := int_literal |}.

Definition empty_world : world :=
  {| db := empty_db; now := 0; schema_file := false; seed_file := None |}.

(** The error of an INSERT with a RETURNING clause, on each engine. *)
Definition insert_returning_error (mysql : bool) (sql table : string) (w : world)
  : js_error :=
  if mysql then mysql_parse_error sql
  else if has_table table (db w)
       then engine_error "SQLITE_ERROR" "SQLITE_ERROR: no such function: NOW"
       else no_such_table false table.

(** The store with both tables defined. *)
Definition with_tables (w : world) : world :=
  set_db w {| has_users := true; has_tasks := true;
              users := users (db w); tasks := tasks (db w);
              next_user_id := next_user_id (db w);
              next_task_id := next_task_id (db w);
              as_integer := as_integer (db w) |}.

(** What applying the schema file, then the seed file, does on SQLite. *)
Definition after_schema (w : world) : world :=
  if schema_file w then with_tables w else w.

Definition after_seed (w : world) : world :=
  match seed_file w with
  | None => w
  | Some stmts => snd (run_seed stmts w)
  end.

(** The world after a bootstrap, whether it resolved or not. *)
Definition bootstrap (useMySql : bool) (w : world) : world :=
  snd (bootstrapDatabase useMySql w).


(** The result object [query] builds from an array of rows. *)
Definition rows_result (l : list jsval) : Db.qresult :=
  {| Db.rows := VArr l; Db.rowCount := VNum (Z.of_nat (List.length l));
     Db.q_lastID := VUndef |}.

(** [text.trim().toLowerCase().startsWith(kw)], the test of [query]. *)
Definition leading (kw text : string) : bool :=
  Js.startsWith kw (Js.toLowerCase (Js.trim text)).

(** The store was bootstrapped: both tables are there. *)
Definition ready (w : world) : Prop :=
  has_users (db w) = true /\ has_tasks (db w) = true.

Definition user_exists (uid : Z) (w : world) : Prop :=
  exists u, In u (users (db w)) /\ u_id u = uid.

(** No task with the identifier [tid] of the path belongs to user [uid]:
    there is no such task at all, or another user owns it. *)
Definition no_owned_task (tid : string) (uid : Z) (w : world) : Prop :=
  forall t, In t (tasks (db w)) ->
            sql_int (db w) (VStr tid) = Some (t_id t) -> t_user_id t <> uid.

End Ref.


(* ------------------------------------------------------------------ *)
(** * Vocabulary of the specification *)

Module Spec.

Import App Ref.

(** [email.trim().toLowerCase()], the form under which an email is stored
    and looked up. *)
Definition normalize_email (e : string) : string := Js.toLowerCase (Js.trim e).

(** The email a registration or login request is looked up by, when the
    handler gets as far as computing it. *)
Definition request_email (req : request) : option string :=
  match js_get (req_body req) "email" with
  | Resolved v =>
      match js_trim EmptyString (js_or v (VStr EmptyString)) with
      | Resolved t => Some (Js.toLowerCase t)
      | Rejected _ => None
      end
  | Rejected _ => None
  end.

(** A login request that carries the email [e] and the password [p], both
    present. *)
Definition login_fields (req : request) (e : string) (p : jsval) : Prop :=
  js_get (req_body req) "email" = Resolved (VStr e) /\
  js_get (req_body req) "password" = Resolved p /\
  Js.is_empty (normalize_email e) = false /\
  truthy p = true.



(** A text of printable ASCII characters (space to tilde). On such texts
    the one-byte strings of this file and the strings of JavaScript
    agree: the white space and the letter case are those of ASCII, and
    the length is the number of characters. *)
Definition is_printable (c : ascii) : bool :=
  let n := nat_of_ascii c in ((32 <=? n) && (n <=? 126))%nat.

Fixpoint printable (s : string) : bool :=
  match s with
  | EmptyString => true
  | String c r => is_printable c && printable r
  end.


(** The stored emails are as the registration handler writes them:
    printable, trimmed and in lower case. *)
Definition emails_as_written (w : world) : Prop :=
  Forall (fun u => printable (u_email u) = true /\
                   normalize_email (u_email u) = u_email u)
         (users (db w)).



(** The task [t] has the identifier [tid] of the path and belongs to the
    user [uid]. *)
Definition owned_task (tid : string) (uid : Z) (t : task_row) (w : world) : Prop :=
  In t (tasks (db w)) /\ sql_int (db w) (VStr tid) = Some (t_id t) /\ t_user_id t = uid.

(** A response whose body is [{ message }] and nothing else. *)
Definition is_message (r : response) : Prop := exists st m, r = message st m.



(** The SQLite driver reports its own error codes, never the parse error
    code of MySQL. *)
Definition sqlite_codes {W : Type} (d : driver W) : Prop :=
  forall sql params w e w',
    sqlite_run d sql params w = (Rejected e, w') ->
    e_code e <> Some "ER_PARSE_ERROR".

(** A driver that only counts the calls made to it. *)
Definition counting_driver : driver nat :=
  {| sqlite_all := fun _ _ n => (Resolved [], S n);
     sqlite_run := fun _ _ n => (Resolved {| changes := 0; lastID := 0 |}, S n);
     sqlite_exec := fun _ n => (Resolved tt, S n);
     mysql_execute := fun _ _ n => (Resolved (VArr []), S n);
     bcrypt_hash := fun _ _ n => (Resolved EmptyString, S n);
     bcrypt_compare := fun _ _ n => (Resolved false, S n);
     fs_existsSync := fun _ _ => false;
     fs_readFileSync := fun _ _ => SchemaScript |}.

(** ** Sample data *)

Definition ann : user_row :=
  {| u_id := 1; u_name := "Ann"; u_email := "ann@x.com";
     u_password_hash := digest "secret1"; u_created_at := 10; u_updated_at := 10 |}.

Definition bob : user_row :=
  {| u_id := 2; u_name := "Bob"; u_email := "bob@x.com";
     u_password_hash := digest "hunter22"; u_created_at := 11; u_updated_at := 11 |}.

Definition write_spec : task_row :=
  {| t_id := 1; t_user_id := 1; t_title := "Write spec"; t_completed := false;
     t_created_at := 12; t_updated_at := 12 |}.

(** Ann and Bob are registered; Ann owns the only task. *)
Definition sample : world :=
  {| db := {| has_users := true; has_tasks := true;
              users := [ann; bob]; tasks := [write_spec];
              next_user_id := 3; next_task_id := 2;
              as_integer := int_literal |};
     now := 20; schema_file := true; seed_file := None |}.

Definition request_of (uid tid : string) (fields : list (string * jsval)) : request :=
  {| userId := uid; taskId := tid; req_body := VObj fields |}.

(** Bob's path with Ann's task. *)
Definition bob_on_ann_task : request :=
  request_of "2" "1" [("completed", VBool true)].

(** Ann completes her task without sending a title. *)
Definition ann_completes : request :=
  request_of "1" "1" [("completed", VBool true)].


Definition register_ann : request :=
  request_of EmptyString EmptyString
    [("name", VStr "Ann"); ("email", VStr "ann@x.com"); ("password", VStr "secret1")].


(** The same email in capitals, with valid fields. *)
Definition register_ann_again : request :=
  request_of EmptyString EmptyString
    [("name", VStr "Ann B"); ("email", VStr "ANN@X.COM"); ("password", VStr "secret2")].

Definition login_ghost : request :=
  request_of EmptyString EmptyString
    [("email", VStr "ghost@x.com"); ("password", VStr "secret1")].

(** An unknown email and no password. *)
Definition login_ghost_no_password : request :=
  request_of EmptyString EmptyString [("email", VStr "ghost@x.com")].

Definition login_ann_wrong : request :=
  request_of EmptyString EmptyString
    [("email", VStr "ann@x.com"); ("password", VStr "secret2")].

(** The same number as password, once with an unknown email and once
    with Ann's. *)
Definition login_ghost_number : request :=
  request_of EmptyString EmptyString
    [("email", VStr "ghost@x.com"); ("password", VNum 123456)].

Definition login_ann_number : request :=
  request_of EmptyString EmptyString
    [("email", VStr "ann@x.com"); ("password", VNum 123456)].

(** Ann adds a task. *)
Definition ann_adds_task : request :=
  request_of "1" EmptyString [("title", VStr " Write spec ")].

(** The text MySQL quotes from the UPDATE statement of the handler. *)
Definition returning_clause : string :=
  "RETURNING id, user_id, title, completed, created_at, updated_at".

(** A seed file with one user and one task of that user. *)
Definition seeded_disk (w : world) : world :=
  {| db := db w; now := now w; schema_file := true;
     seed_file := Some [SeedUser "Demo" "demo@x.com" (digest "demo123");
                        SeedTask 1 "Try the app" false] |}.

(** A store before the first bootstrap: no table yet. *)
Definition blank : world :=
  seeded_disk
    {| db := {| has_users := false; has_tasks := false; users := []; tasks := [];
                next_user_id := 1; next_task_id := 1;
                as_integer := int_literal |};
       now := 5; schema_file := false; seed_file := None |}.


(** The worlds of the scenario of the specification on MySQL: after Ann
    registered, and after she added her task. *)
Definition after_register : world :=
  snd (Ref.register true register_ann empty_world).

Definition after_create : world :=
  snd (Ref.createTask true ann_adds_task after_register).

End Spec.
(* ------------------------------------------------------------------ *)
(** * Vocabulary for the behaviour of the handlers on the store *)

Module Behaviour.

Import App Ref Spec.

(** A dollar sign followed by a digit somewhere in the text: a
    placeholder in the style the handlers write. *)
Fixpoint has_placeholder (s : string) : bool :=
  match s with
  | EmptyString => false
  | String c r => (Ascii.eqb c "$" && Js.next_is_digit r) || has_placeholder r
  end.

(** The task object of a response, as [mapTask] builds it from a row. *)
Definition task_json (t : task_row) : jsval :=
  VObj [("id", VNum (t_id t)); ("userId", VNum (t_user_id t));
        ("title", VStr (t_title t)); ("completed", VBool (t_completed t));
        ("createdAt", VNum (t_created_at t)); ("updatedAt", VNum (t_updated_at t))].

(** The body [{ user }] of a registration or login answer. *)
Definition user_body (u : user_row) : jsval := VObj [("user", user_obj u)].

(** The tasks of one user, in the order of the table. *)
Definition own_tasks (uid : Z) (w : world) : list task_row :=
  filter (fun t => uid =? t_user_id t) (tasks (db w)).

(** The tasks of one user as [GET /api/users/:userId/tasks] orders them. *)
Definition listed_tasks (uid : Z) (w : world) : list task_row :=
  sort_desc t_created_at (own_tasks uid w).

(** The row an INSERT INTO tasks creates, and the store with it. *)
Definition new_task (w : world) (uid : Z) (title : string) : task_row :=
  {| t_id := next_task_id (db w); t_user_id := uid; t_title := title;
     t_completed := false; t_created_at := now w; t_updated_at := now w |}.

Definition add_task (w : world) (t : task_row) : world :=
  set_db w {| has_users := has_users (db w); has_tasks := has_tasks (db w);
              users := users (db w); tasks := tasks (db w) ++ [t];
              next_user_id := next_user_id (db w);
              next_task_id := next_task_id (db w) + 1;
              as_integer := as_integer (db w) |}.

(** The row an INSERT INTO users creates, and the store with it. *)
Definition new_user (w : world) (name email hash : string) : user_row :=
  {| u_id := next_user_id (db w); u_name := name; u_email := email;
     u_password_hash := hash; u_created_at := now w; u_updated_at := now w |}.

Definition add_user (w : world) (u : user_row) : world :=
  set_db w {| has_users := has_users (db w); has_tasks := has_tasks (db w);
              users := users (db w) ++ [u]; tasks := tasks (db w);
              next_user_id := next_user_id (db w) + 1;
              next_task_id := next_task_id (db w);
              as_integer := as_integer (db w) |}.

(** The store after DELETE FROM tasks WHERE id = tid AND user_id = uid. *)
Definition without_task (w : world) (tid : string) (uid : Z) : world :=
  set_db w {| has_users := has_users (db w); has_tasks := has_tasks (db w);
              users := users (db w);
              tasks := filter (fun t => negb (task_matches (db w) (VStr tid) (VNum uid) t))
                         (tasks (db w));
              next_user_id := next_user_id (db w);
              next_task_id := next_task_id (db w);
              as_integer := as_integer (db w) |}.

(** Newest first: the order of [ORDER BY created_at DESC]. *)
Definition newer_first (a b : task_row) : Prop := t_created_at b <= t_created_at a.

(** A field that is absent, falsy, or a text of white space only: what
    [(v || '').trim()] turns into the empty string. *)
Definition blank_field (v : jsval) : bool :=
  match v with
  | VStr s => Js.is_empty (Js.trim s)
  | _ => negb (truthy v)
  end.

(** A value that is truthy and not a string: [(v || '').trim] is not a
    function. *)
Definition not_text (v : jsval) : bool :=
  match v with
  | VStr _ => false
  | _ => truthy v
  end.

(** An answer [{ user: { id, name, email } }] with these three keys and
    no other. *)
Definition user_answer (st : Z) (r : response) : Prop :=
  exists id name email,
    r = json st (VObj [("user", VObj [("id", id); ("name", name); ("email", email)])]).

(** The same request under another path user id. *)
Definition with_userId (s : string) (req : request) : request :=
  {| userId := s; taskId := taskId req; req_body := req_body req |}.

(** The routes of [app.js]. *)
Inductive route : Type :=
| GetHealth | PostRegister | PostLogin | GetTasks | PostTask | PutTask | DelTask.

Definition handle (useMySql : bool) (r : route)
  : request -> world -> response * world :=
  match r with
  | GetHealth => Ref.health useMySql
  | PostRegister => Ref.register useMySql
  | PostLogin => Ref.login useMySql
  | GetTasks => Ref.listTasks useMySql
  | PostTask => Ref.createTask useMySql
  | PutTask => Ref.updateTask useMySql
  | DelTask => Ref.deleteTask useMySql
  end.

(** The world after a sequence of requests. *)
Definition run (useMySql : bool) (calls : list (route * request)) (w : world)
  : world :=
  fold_left (fun w c => snd (handle useMySql (fst c) (snd c) w)) calls w.

(** The user a request acts for: the path user of a task route. *)
Definition acting_user (r : route) (req : request) : option Z :=
  match r with
  | GetTasks | PostTask | PutTask | DelTask => Js.parseInt (userId req)
  | GetHealth | PostRegister | PostLogin => None
  end.

(** What one request can do to the store: nothing, add a user under the
    next user id, add a task of the acting user under the next task id,
    or delete tasks of the acting user. *)
Inductive effect (actor : option Z) (w : world) : world -> Prop :=
| effect_none : effect actor w w
| effect_user name email hash :
    users_by_email (VStr email) (db w) = [] ->
    effect actor w (add_user w (new_user w name email hash))
| effect_task uid title :
    actor = Some uid -> user_exists uid w ->
    effect actor w (add_task w (new_task w uid title))
| effect_delete uid tid :
    actor = Some uid -> effect actor w (without_task w tid uid).

(** Identifiers are below the counters and distinct, and every task
    belongs to a stored user. *)
Definition well_formed (w : world) : Prop :=
  Forall (fun u => u_id u < next_user_id (db w)) (users (db w)) /\
  Forall (fun t => t_id t < next_task_id (db w)) (tasks (db w)) /\
  NoDup (map u_id (users (db w))) /\
  NoDup (map t_id (tasks (db w))) /\
  (forall t, In t (tasks (db w)) -> user_exists (t_user_id t) w).

(** The status codes each route can answer with on the reference store. *)
Definition statuses (useMySql : bool) (r : route) : list Z :=
  match r with
  | GetHealth => [200]
  | PostRegister => if useMySql then [201; 400; 409; 500] else [400; 409; 500]
  | PostLogin => [200; 400; 401; 500]
  | GetTasks => [200; 400; 404; 500]
  | PostTask => if useMySql then [201; 400; 404; 500] else [400; 404; 500]
  | PutTask => [400; 404; 500]
  | DelTask => if useMySql then [400; 404; 500] else [204; 400; 404; 500]
  end.

End Behaviour.

(* ================================================================== *)
(** * Properties *)

(** ** The runtime primitives on examples *)

Example trim_example : Js.trim "  Buy milk  " = "Buy milk".
Proof. reflexivity. Qed.

Example toLowerCase_example : Js.toLowerCase "Ann@X.com" = "ann@x.com".
Proof. reflexivity. Qed.

Example replace_placeholders_example :
  Js.replace_placeholders "WHERE id = $1 AND user_id = $12 OR x = '$'" =
  "WHERE id = ? AND user_id = ? OR x = '$'".
Proof. reflexivity. Qed.

Example parseInt_example :
  Js.parseInt " 42abc" = Some 42 /\ Js.parseInt "-7" = Some (-7) /\
  Js.parseInt "abc" = None /\ Js.parseInt "-" = None.
Proof. repeat split; reflexivity. Qed.

(** ** Facts about the runtime primitives *)

Module JsFacts.







Lemma js_or_string_trim src e :
  js_trim src (js_or (VStr e) (VStr EmptyString)) = Resolved (Js.trim e).
Proof. destruct e; reflexivity. Qed.

Lemma js_or_truthy p : truthy p = true -> js_or p (VStr EmptyString) = p.
Proof. unfold js_or. intros ->. reflexivity. Qed.

Lemma js_trim_src src src' v t :
  js_trim src v = Resolved t -> js_trim src' v = Resolved t.
Proof. destruct v; simpl; intros H; inversion H; reflexivity. Qed.

Lemma js_get_rejected v k e : js_get v k = Rejected e -> e_status e = None.
Proof. destruct v; simpl; intros H; inversion H; reflexivity. Qed.

Lemma js_trim_rejected src v e : js_trim src v = Rejected e -> e_status e = None.
Proof. destruct v; simpl; intros H; inversion H; reflexivity. Qed.

Lemma handleError_internal e fb :
  e_status e = None -> App.status (App.handleError e fb) = 500.
Proof. unfold App.handleError. intros ->. reflexivity. Qed.

End JsFacts.

(** ** The reference engine, statement by statement *)

Module RefFacts.

Import App Ref.

Lemma query_mysql text params w :
  query true text params w =
  match exec true (Js.replace_placeholders text) params w with
  | (Resolved (Rows l), w') => (Resolved (rows_result l), w')
  | (Resolved (Header a i), w') =>
      (Resolved {| Db.rows := result_header a i; Db.rowCount := VUndef;
                   Db.q_lastID := VUndef |}, w')
  | (Rejected e, w') => (Rejected e, w')
  end.
Proof.
  unfold query, Db.query, bind, lift. cbn [mysql_execute ref_driver].
  unfold ref_mysql_execute.
  destruct (exec true _ params w) as [[[l|a i]|e] w']; reflexivity.
Qed.

Lemma query_sqlite_select text params w :
  leading "select" text = true ->
  query false text params w =
  match exec false (Js.replace_placeholders text) params w with
  | (Resolved (Rows l), w') => (Resolved (rows_result l), w')
  | (Resolved (Header _ _), w') => (Resolved (rows_result []), w')
  | (Rejected e, w') => (Rejected e, w')
  end.
Proof.
  intros H. unfold query, Db.query, leading in *. cbv zeta. rewrite H.
  unfold bind. cbn [sqlite_all ref_driver]. unfold ref_sqlite_all.
  destruct (exec false _ params w) as [[[l|a i]|e] w']; reflexivity.
Qed.

Lemma query_sqlite_run text params w :
  leading "select" text = false ->
  query false text params w =
  match exec false (Js.replace_placeholders text) params w with
  | (Resolved (Rows l), w') =>
      (Resolved {| Db.rows := VArr []; Db.rowCount := VNum 0;
                   Db.q_lastID := VNum 0 |}, w')
  | (Resolved (Header a i), w') =>
      (Resolved {| Db.rows := VArr []; Db.rowCount := VNum a;
                   Db.q_lastID := VNum i |}, w')
  | (Rejected e, w') => (Rejected e, w')
  end.
Proof.
  intros H. unfold query, Db.query, leading in *. cbv zeta. rewrite H.
  destruct (_ || _); unfold bind; cbn [sqlite_run ref_driver];
    unfold ref_sqlite_run;
    destruct (exec false _ params w) as [[[l|a i]|e] w']; reflexivity.
Qed.

Lemma parse_user_by_id :
  parse (Js.replace_placeholders SQL_USER_BY_ID) = Some UserById.
Proof. vm_compute. reflexivity. Qed.

Lemma parse_task_of_user :
  parse (Js.replace_placeholders SQL_TASK_OF_USER) = Some TaskOfUser.
Proof. vm_compute. reflexivity. Qed.

Lemma parse_delete_task :
  parse (Js.replace_placeholders SQL_DELETE_TASK) = Some DeleteTask.
Proof. vm_compute. reflexivity. Qed.

Lemma parse_update_task :
  parse (Js.replace_placeholders SQL_UPDATE_TASK) = Some UpdateTask.
Proof. vm_compute. reflexivity. Qed.

Lemma parse_login :
  parse (Js.replace_placeholders SQL_LOGIN) = Some Login.
Proof. vm_compute. reflexivity. Qed.

Lemma parse_user_id_by_email :
  parse (Js.replace_placeholders SQL_USER_ID_BY_EMAIL) = Some UserIdByEmail.
Proof. vm_compute. reflexivity. Qed.

Lemma parse_user_by_email :
  parse (Js.replace_placeholders SQL_USER_BY_EMAIL) = Some UserByEmail.
Proof. vm_compute. reflexivity. Qed.

Lemma parse_insert_user_returning :
  parse (Js.replace_placeholders SQL_INSERT_USER_RETURNING) = Some InsertUserReturning.
Proof. vm_compute. reflexivity. Qed.

Lemma parse_insert_user :
  parse (Js.replace_placeholders SQL_INSERT_USER) = Some InsertUser.
Proof. vm_compute. reflexivity. Qed.

(** A SELECT on the users table answers the same on both engines. *)
Ltac select_on_users parse_lemma :=
  let w := match goal with |- context [has_users (db ?w)] => w end in
  match goal with
  | |- query ?mysql _ _ _ = _ =>
      destruct mysql;
      [ rewrite query_mysql; unfold exec; rewrite parse_lemma;
        cbn [uses_returning run_stmt]
      | rewrite query_sqlite_select by (vm_compute; reflexivity);
        unfold exec; rewrite parse_lemma;
        cbn [uses_now is_create run_stmt] ];
      unfold select_users, select_tasks;
      destruct (has_users (db w)); reflexivity
  end.

Lemma query_user_by_id mysql id w :
  query mysql SQL_USER_BY_ID [id] w =
  if has_users (db w)
  then (Resolved (rows_result (map user_obj (users_by_id id (db w)))), w)
  else (Rejected (no_such_table mysql "users"), w).
Proof. select_on_users parse_user_by_id. Qed.

Lemma query_login mysql email w :
  query mysql SQL_LOGIN [email] w =
  if has_users (db w)
  then (Resolved (rows_result (map user_login_obj (users_by_email email (db w)))), w)
  else (Rejected (no_such_table mysql "users"), w).
Proof. select_on_users parse_login. Qed.

Lemma query_user_id_by_email mysql email w :
  query mysql SQL_USER_ID_BY_EMAIL [email] w =
  if has_users (db w)
  then (Resolved (rows_result (map user_id_obj (users_by_email email (db w)))), w)
  else (Rejected (no_such_table mysql "users"), w).
Proof. select_on_users parse_user_id_by_email. Qed.

Lemma query_user_by_email mysql email w :
  query mysql SQL_USER_BY_EMAIL [email] w =
  if has_users (db w)
  then (Resolved (rows_result (map user_obj (users_by_email email (db w)))), w)
  else (Rejected (no_such_table mysql "users"), w).
Proof. select_on_users parse_user_by_email. Qed.

Lemma query_task_of_user mysql tid uid w :
  query mysql SQL_TASK_OF_USER [tid; uid] w =
  if has_tasks (db w)
  then (Resolved (rows_result
                    (map task_obj (filter (task_matches (db w) tid uid) (tasks (db w))))), w)
  else (Rejected (no_such_table mysql "tasks"), w).
Proof.
  destruct mysql;
    [ rewrite query_mysql; unfold exec; rewrite parse_task_of_user;
      cbn [uses_returning run_stmt]
    | rewrite query_sqlite_select by (vm_compute; reflexivity);
      unfold exec; rewrite parse_task_of_user;
      cbn [uses_now is_create run_stmt] ];
    unfold select_tasks; destruct (has_tasks (db w)); reflexivity.
Qed.

(** The UPDATE of the handler carries a RETURNING clause: MySQL rejects
    it when parsing, and the store is not touched. *)
Lemma query_update_task_mysql params w :
  query true SQL_UPDATE_TASK params w =
  (Rejected (mysql_parse_error (Js.replace_placeholders SQL_UPDATE_TASK)), w).
Proof.
  rewrite query_mysql. unfold exec. rewrite parse_update_task. reflexivity.
Qed.

Lemma set_db_same w :
  set_db w {| has_users := has_users (db w); has_tasks := has_tasks (db w);
              users := users (db w); tasks := tasks (db w);
              next_user_id := next_user_id (db w);
              next_task_id := next_task_id (db w);
              as_integer := as_integer (db w) |} = w.
Proof. destruct w as [[] ? ?]. reflexivity. Qed.

Lemma filter_none {A} (f : A -> bool) (l : list A) :
  (forall x, In x l -> f x = false) ->
  filter f l = [] /\ filter (fun x => negb (f x)) l = l.
Proof.
  induction l as [|a l IH]; intros H; simpl.
  - split; reflexivity.
  - rewrite (H a (or_introl eq_refl)). simpl.
    destruct IH as [IH1 IH2]; [intros x Hx; apply H; right; exact Hx|].
    rewrite IH1, IH2. split; reflexivity.
Qed.

(** A DELETE that matches no row: zero changes on SQLite, a result header
    on MySQL, and the same store. *)
Lemma query_delete_none mysql tid uid w :
  has_tasks (db w) = true ->
  (forall t, In t (tasks (db w)) -> task_matches (db w) tid uid t = false) ->
  exists r, query mysql SQL_DELETE_TASK [tid; uid] w = (Resolved r, w) /\
            truthy (Db.rowCount r) = false.
Proof.
  intros Ht Hnone. destruct (filter_none _ _ Hnone) as [F1 F2].
  destruct mysql.
  - rewrite query_mysql. unfold exec. rewrite parse_delete_task.
    cbn [uses_returning run_stmt]. unfold delete_task. cbv zeta.
    rewrite F1, F2, set_db_same, Ht. eexists. split; reflexivity.
  - rewrite query_sqlite_run by (vm_compute; reflexivity).
    unfold exec. rewrite parse_delete_task.
    cbn [uses_now is_create run_stmt]. unfold delete_task. cbv zeta.
    rewrite F1, F2, set_db_same, Ht. eexists. split; reflexivity.
Qed.


Lemma ensureUser_found mysql s uid w :
  ready w -> Js.parseInt s = Some uid -> user_exists uid w ->
  exists u, ensureUser mysql ref_driver s w = (Resolved (user_obj u), w) /\
            u_id u = uid.
Proof.
  intros [Hu _] Hp [u [Hin Hid]].
  unfold ensureUser. rewrite Hp. unfold bind.
  change (Db.query mysql ref_driver) with (query mysql).
  rewrite query_user_by_id, Hu.
  unfold users_by_id. cbn [sql_int opt_Z_eqb].
  destruct (filter (fun u0 => uid =? u_id u0) (users (db w))) as [|u' l] eqn:F.
  - exfalso.
    assert (Hf : In u (filter (fun u0 => uid =? u_id u0) (users (db w)))).
    { apply filter_In. split; [exact Hin|]. rewrite Hid. apply Z.eqb_refl. }
    rewrite F in Hf. exact Hf.
  - exists u'. split; [reflexivity|].
    assert (Hf : In u' (filter (fun u0 => uid =? u_id u0) (users (db w)))).
    { rewrite F. left. reflexivity. }
    apply filter_In in Hf. destruct Hf as [_ Hf]. apply Z.eqb_eq in Hf.
    symmetry. exact Hf.
Qed.

(** [ensureUser] only reads. *)
Lemma ensureUser_reads mysql s w o w' :
  ensureUser mysql ref_driver s w = (o, w') -> w' = w.
Proof.
  unfold ensureUser. destruct (Js.parseInt s) as [id|].
  - unfold bind. change (Db.query mysql ref_driver) with (query mysql).
    rewrite query_user_by_id.
    destruct (has_users (db w)); cbv beta iota.
    + destruct (negb _); unfold throw, ret; intros H; inversion H; reflexivity.
    + intros H; inversion H; reflexivity.
  - unfold throw. intros H; inversion H; reflexivity.
Qed.

Lemma no_owned_task_matches tid uid w :
  no_owned_task tid uid w ->
  forall t, In t (tasks (db w)) -> task_matches (db w) (VStr tid) (VNum uid) t = false.
Proof.
  intros Hn t Ht. unfold task_matches.
  destruct (sql_int (db w) (VStr tid)) as [z|] eqn:Ez; [|reflexivity].
  cbn [opt_Z_eqb sql_int].
  destruct (z =? t_id t) eqn:Ezt; [|reflexivity].
  apply Z.eqb_eq in Ezt. subst z.
  specialize (Hn t Ht Ez). cbn [andb].
  apply Z.eqb_neq. intros E. apply Hn. symmetry. exact E.
Qed.

End RefFacts.

(** ** C10: a path user id that is not a number *)

Section AnyDriver.

Context {W : Type} (useMySql : bool) (d : driver W).

(** C10. When [Number.parseInt] of the path user id is NaN, each of the
    four task endpoints answers 400 with the message 'Invalid user id'.
    This holds for every driver and leaves every world as it was: no call
    to a collaborator is made, so no store query runs before the answer. *)
Theorem invalid_user_id_is_400 (req : App.request) (w : W) :
  Js.parseInt (App.userId req) = None ->
  App.listTasks useMySql d req w = (App.message 400 "Invalid user id", w) /\
  App.createTask useMySql d req w = (App.message 400 "Invalid user id", w) /\
  App.updateTask useMySql d req w = (App.message 400 "Invalid user id", w) /\
  App.deleteTask useMySql d req w = (App.message 400 "Invalid user id", w).
Proof.
  intros H.
  unfold App.listTasks, App.createTask, App.updateTask, App.deleteTask,
    App.endpoint, bind, App.ensureUser.
  rewrite H. repeat split; reflexivity.
Qed.

End AnyDriver.

Lemma invalid_user_id_is_400_witness :
  Js.parseInt "abc" = None /\
  App.updateTask true Spec.counting_driver (Spec.request_of "abc" "1" []) 0%nat =
  (App.message 400 "Invalid user id", 0%nat) /\
  App.deleteTask false Ref.ref_driver (Spec.request_of "abc" "1" []) Spec.sample =
  (App.message 400 "Invalid user id", Spec.sample).
Proof.
  split; [reflexivity|]. split.
  - apply (invalid_user_id_is_400 true Spec.counting_driver
             (Spec.request_of "abc" "1" []) 0%nat).
    reflexivity.
  - apply (invalid_user_id_is_400 false Ref.ref_driver
             (Spec.request_of "abc" "1" []) Spec.sample).
    reflexivity.
Defined.

(** ** C1: tasks are scoped to their owner *)

Module Ownership.

Import App Ref RefFacts Spec.

(** C1. On a bootstrapped store, when the path user exists and no task
    with the path task id belongs to that user (no such task, or a task of
    another user), the update and the delete handlers both answer 404
    'Task not found' and return the world unchanged, on either backend.
    The task with the path task id is the one whose identifier the engine
    takes the text of the path for; the result holds whatever conversion
    of texts to integers the engine applies. *)
Theorem foreign_task_is_not_found mysql req w uid :
  ready w ->
  Js.parseInt (userId req) = Some uid ->
  user_exists uid w ->
  no_owned_task (taskId req) uid w ->
  updateTask mysql req w = (message 404 "Task not found", w) /\
  deleteTask mysql req w = (message 404 "Task not found", w).
Proof.
  intros Hr Hp Hu Hn.
  destruct (ensureUser_found mysql _ _ _ Hr Hp Hu) as [u [He Hid]].
  pose proof (no_owned_task_matches _ _ _ Hn) as Hnone.
  destruct Hr as [_ Ht].
  split.
  - unfold updateTask, App.updateTask, endpoint, bind. rewrite He.
    unfold lift.
    change (js_get (user_obj u) "id") with (Resolved (A:=jsval) (VNum (u_id u))).
    rewrite Hid.
    change (Db.query mysql ref_driver) with (query mysql).
    rewrite query_task_of_user, Ht.
    rewrite (proj1 (filter_none _ _ Hnone)). reflexivity.
  - unfold deleteTask, App.deleteTask, endpoint, bind. rewrite He.
    unfold lift.
    change (js_get (user_obj u) "id") with (Resolved (A:=jsval) (VNum (u_id u))).
    rewrite Hid.
    change (Db.query mysql ref_driver) with (query mysql).
    destruct (query_delete_none mysql (VStr (taskId req)) (VNum uid) w Ht Hnone)
      as [r [Hq Hc]].
    rewrite Hq, Hc. reflexivity.
Qed.

Lemma foreign_task_is_not_found_witness :
  ready sample /\
  Js.parseInt (userId bob_on_ann_task) = Some 2 /\
  user_exists 2 sample /\
  no_owned_task (taskId bob_on_ann_task) 2 sample /\
  updateTask true bob_on_ann_task sample = (message 404 "Task not found", sample) /\
  deleteTask true bob_on_ann_task sample = (message 404 "Task not found", sample).
Proof.
  assert (Hr : ready sample) by (split; reflexivity).
  assert (Hu : user_exists 2 sample).
  { exists bob. split; [right; left; reflexivity|reflexivity]. }
  assert (Hn : no_owned_task (taskId bob_on_ann_task) 2 sample).
  { intros t [<-|[]] _. simpl. discriminate. }
  split; [exact Hr|]. split; [reflexivity|]. split; [exact Hu|]. split; [exact Hn|].
  exact (foreign_task_is_not_found true bob_on_ann_task sample 2 Hr eq_refl Hu Hn).
Defined.

End Ownership.

(** ** C4: failed logins look alike *)

Module Login.

Import App Ref RefFacts Spec JsFacts Behaviour.

(** With passwords that bcrypt can compare, the two failures look
    alike. On a bootstrapped store, take two login requests that both
    carry an email that is not blank and a password that is present. If
    the email of the first matches no stored user, and the email of the
    second matches a stored user whose digest the password fails to
    verify against, both answers are the same response: 401 with the body
    [{ message: 'Invalid credentials' }]. The world is unchanged. *)
Theorem login_failures_look_alike mysql w r1 r2 e1 p1 e2 p2 u rest :
  ready w ->
  login_fields r1 e1 p1 ->
  login_fields r2 e2 p2 ->
  users_by_email (VStr (normalize_email e1)) (db w) = [] ->
  users_by_email (VStr (normalize_email e2)) (db w) = u :: rest ->
  ref_bcrypt_compare p2 (VStr (u_password_hash u)) w = (Resolved false, w) ->
  login mysql r1 w = (message 401 "Invalid credentials", w) /\
  login mysql r2 w = (message 401 "Invalid credentials", w).
Proof.
  intros [Hu _] (E1 & P1 & N1 & T1) (E2 & P2 & N2 & T2) Hnone Hsome Hcmp.
  unfold normalize_email in *.
  split.
  - unfold login, App.login, endpoint, bind, lift.
    rewrite E1, js_or_string_trim, P1, (js_or_truthy _ T1), N1, T1.
    cbn [orb negb].
    change (Db.query mysql ref_driver) with (query mysql).
    rewrite query_login, Hu, Hnone. reflexivity.
  - unfold login, App.login, endpoint, bind, lift.
    rewrite E2, js_or_string_trim, P2, (js_or_truthy _ T2), N2, T2.
    cbn [orb negb].
    change (Db.query mysql ref_driver) with (query mysql).
    rewrite query_login, Hu, Hsome.
    cbn [map rows_result Db.rows js_first_opt js_first].
    change (truthy (user_login_obj u)) with true. cbn [negb].
    change (js_get (user_login_obj u) "password_hash")
      with (Resolved (A:=jsval) (VStr (u_password_hash u))).
    unfold comparePassword. cbn [bcrypt_compare ref_driver].
    rewrite Hcmp. reflexivity.
Qed.

(** The checks on the fields come first: a login request whose email matches no stored
    user but that carries no password is answered 400, while a request
    with Ann's email and a wrong password is answered 401; the two bodies
    differ. *)
Lemma login_without_password_is_400 :
  users_by_email (VStr (normalize_email "ghost@x.com")) (db sample) = [] /\
  users_by_email (VStr (normalize_email "ann@x.com")) (db sample) = [ann] /\
  ref_bcrypt_compare (VStr "secret2") (VStr (u_password_hash ann)) sample =
    (Resolved false, sample) /\
  fst (login true login_ghost_no_password sample) =
    message 400 "Email and password are required" /\
  fst (login true login_ann_wrong sample) = message 401 "Invalid credentials" /\
  body (fst (login true login_ghost_no_password sample)) <>
  body (fst (login true login_ann_wrong sample)).
Proof.
  repeat split; try reflexivity.
  vm_compute. discriminate.
Qed.

(** C4. The password is handed to bcrypt as it came. Take two login
    requests with printable emails that are not blank and the same
    password, a value that is truthy and not a string (a number, [true],
    an array, an object). When the email of the first matches no stored
    user it is answered 401 'Invalid credentials'; when the email of the
    second matches a stored user it is answered 500, since the comparison
    throws. The two answers tell a stored email from an unknown one. *)
Theorem non_string_password_tells_the_email mysql w r1 r2 e1 e2 p u rest :
  has_users (db w) = true ->
  login_fields r1 e1 p ->
  login_fields r2 e2 p ->
  printable e1 = true -> printable e2 = true ->
  not_text p = true ->
  users_by_email (VStr (normalize_email e1)) (db w) = [] ->
  users_by_email (VStr (normalize_email e2)) (db w) = u :: rest ->
  login mysql r1 w = (message 401 "Invalid credentials", w) /\
  status (fst (login mysql r2 w)) = 500 /\
  is_message (fst (login mysql r2 w)) /\
  snd (login mysql r2 w) = w.
Proof.
  intros Hu (E1 & P1 & N1 & T1) (E2 & P2 & N2 & T2) _ _ Hp Hnone Hsome.
  unfold normalize_email in *.
  split.
  - unfold login, App.login, endpoint, bind, lift.
    rewrite E1, js_or_string_trim, P1, (js_or_truthy _ T1), N1, T1.
    cbn [orb negb].
    change (Db.query mysql ref_driver) with (query mysql).
    rewrite query_login, Hu, Hnone. reflexivity.
  - unfold login, App.login, endpoint, bind, lift.
    rewrite E2, js_or_string_trim, P2, (js_or_truthy _ T2), N2, T2.
    cbn [orb negb].
    change (Db.query mysql ref_driver) with (query mysql).
    rewrite query_login, Hu, Hsome.
    cbn [map rows_result Db.rows js_first_opt js_first].
    change (truthy (user_login_obj u)) with true. cbn [negb].
    change (js_get (user_login_obj u) "password_hash")
      with (Resolved (A:=jsval) (VStr (u_password_hash u))).
    unfold comparePassword. cbn [bcrypt_compare ref_driver].
    assert (Hcmp : ref_bcrypt_compare p (VStr (u_password_hash u)) w =
                   (Rejected illegal_arguments, w)).
    { destruct p; try discriminate Hp; reflexivity. }
    rewrite Hcmp. cbn [fst snd].
    split; [reflexivity|]. split; [|reflexivity].
    unfold is_message, message, handleError, json. do 2 eexists. reflexivity.
Qed.

Lemma non_string_password_tells_the_email_witness :
  login true login_ghost_number sample = (message 401 "Invalid credentials", sample) /\
  status (fst (login true login_ann_number sample)) = 500.
Proof.
  destruct (non_string_password_tells_the_email true sample
              login_ghost_number login_ann_number
              "ghost@x.com" "ann@x.com" (VNum 123456) ann [])
    as (H1 & H2 & _); try reflexivity.
  - repeat split; reflexivity.
  - repeat split; reflexivity.
  - split; [exact H1|exact H2].
Defined.

End Login.

(** ** C5: one account per email *)

Module Registration.

Import App Ref RefFacts Spec JsFacts.

Lemma rows_nonempty l :
  truthy (js_length_opt (Db.rows (rows_result l))) =
  match l with [] => false | _ => true end.
Proof. destruct l; reflexivity. Qed.

Lemma users_by_email_none e b :
  users_by_email (VStr e) b = [] ->
  existsb (fun u => String.eqb e (u_email u)) (users b) = false.
Proof.
  unfold users_by_email. cbn [sql_text opt_string_eqb].
  induction (users b) as [|u l IH]; simpl; [reflexivity|].
  destruct (String.eqb e (u_email u)); [discriminate|]. exact IH.
Qed.

Lemma users_by_email_app e b u :
  users_by_email (VStr e) b = [] -> u_email u = e ->
  filter (fun x => opt_string_eqb (sql_text (VStr e)) (u_email x)) (users b ++ [u])
  = [u].
Proof.
  unfold users_by_email. intros H E. rewrite filter_app, H. simpl.
  rewrite E, String.eqb_refl. reflexivity.
Qed.

Lemma users_by_email_In e b u :
  In u (users b) -> u_email u = e -> users_by_email (VStr e) b <> [].
Proof.
  intros Hin E H.
  assert (Hf : In u (users_by_email (VStr e) b)).
  { apply filter_In. split; [exact Hin|]. simpl. rewrite E. apply String.eqb_refl. }
  rewrite H in Hf. exact Hf.
Qed.

Lemma NoDup_snoc {A} (l : list A) (a : A) :
  NoDup l -> ~ In a l -> NoDup (l ++ [a]).
Proof.
  induction l as [|x l IH]; intros Hnd Hin; simpl.
  - constructor; [intros []|constructor].
  - inversion Hnd as [|? ? Hx Hl]; subst. constructor.
    + intros H. apply in_app_or in H. destruct H as [H|[H|[]]].
      * exact (Hx H).
      * apply Hin. left. symmetry. exact H.
    + apply IH; [exact Hl|]. intros H. apply Hin. right. exact H.
Qed.

Lemma query_insert_user_returning mysql params w :
  query mysql SQL_INSERT_USER_RETURNING params w =
  (Rejected (insert_returning_error mysql
               (Js.replace_placeholders SQL_INSERT_USER_RETURNING) "users" w), w).
Proof.
  destruct mysql.
  - rewrite query_mysql. unfold exec. rewrite parse_insert_user_returning.
    reflexivity.
  - rewrite query_sqlite_run by (vm_compute; reflexivity).
    unfold exec. rewrite parse_insert_user_returning.
    cbn [uses_now]. unfold insert_returning_error.
    destruct (has_table "users" (db w)); reflexivity.
Qed.

Lemma query_insert_user_mysql n e h w :
  query true SQL_INSERT_USER [VStr n; VStr e; VStr h] w =
  match insert_user true n e h w with
  | (Resolved (Rows l), w') => (Resolved (rows_result l), w')
  | (Resolved (Header a i), w') =>
      (Resolved {| Db.rows := result_header a i; Db.rowCount := VUndef;
                   Db.q_lastID := VUndef |}, w')
  | (Rejected e, w') => (Rejected e, w')
  end.
Proof.
  rewrite query_mysql. unfold exec. rewrite parse_insert_user. reflexivity.
Qed.













End Registration.

(** ** C6, C7: updating a task *)

Module Update.

Import App Ref RefFacts Spec JsFacts.

Lemma owned_task_found tid uid t w :
  owned_task tid uid t w ->
  exists t' rest,
    filter (task_matches (db w) (VStr tid) (VNum uid)) (tasks (db w)) = t' :: rest.
Proof.
  intros (Hin & Hid & Hown).
  destruct (filter _ (tasks (db w))) as [|t' rest] eqn:F.
  - exfalso.
    assert (Hf : In t (filter (task_matches (db w) (VStr tid) (VNum uid)) (tasks (db w)))).
    { apply filter_In. split; [exact Hin|]. unfold task_matches.
      rewrite Hid. cbn [opt_Z_eqb sql_int]. rewrite Hown, !Z.eqb_refl. reflexivity. }
    rewrite F in Hf. exact Hf.
  - exists t', rest. reflexivity.
Qed.

(** C6 on the MySQL backend. On a bootstrapped store, an update request
    on an existing task of the path user that supplies a boolean
    [completed] and no [title] is answered 500 with the parse error of
    the engine, and the world is returned unchanged: the UPDATE carries a
    RETURNING clause, which MySQL rejects, and the handler has no
    fallback. The stored [completed] therefore does not take the supplied
    value. *)
Theorem update_is_rejected_on_mysql req w uid t b :
  ready w ->
  Js.parseInt (userId req) = Some uid ->
  user_exists uid w ->
  owned_task (taskId req) uid t w ->
  js_get (req_body req) "title" = Resolved VUndef ->
  js_get (req_body req) "completed" = Resolved (VBool b) ->
  updateTask true req w =
  (message 500
     (e_message (mysql_parse_error (Js.replace_placeholders SQL_UPDATE_TASK))), w).
Proof.
  intros Hr Hp Hu Hown Htitle Hcompleted.
  destruct (ensureUser_found true _ _ _ Hr Hp Hu) as [u [He Hid]].
  destruct (owned_task_found _ _ _ _ Hown) as (t' & rest & F).
  destruct Hr as [_ Ht].
  unfold updateTask, App.updateTask, endpoint, bind. rewrite He.
  unfold lift.
  change (js_get (user_obj u) "id") with (Resolved (A:=jsval) (VNum (u_id u))).
  rewrite Hid.
  change (Db.query true ref_driver) with (query true).
  rewrite query_task_of_user, Ht, F.
  cbn [map rows_result Db.rows js_first_opt js_first].
  change (truthy (task_obj t')) with true. cbn [negb].
  rewrite Htitle, Hcompleted.
  change (js_get (task_obj t') "title") with (Resolved (A:=jsval) (VStr (t_title t'))).
  cbn [andb is_boolean]. unfold ret.
  rewrite query_update_task_mysql. reflexivity.
Qed.

Lemma update_is_rejected_on_mysql_witness :
  ready sample /\
  Js.parseInt (userId ann_completes) = Some 1 /\
  user_exists 1 sample /\
  owned_task (taskId ann_completes) 1 write_spec sample /\
  js_get (req_body ann_completes) "title" = Resolved VUndef /\
  js_get (req_body ann_completes) "completed" = Resolved (VBool true) /\
  status (fst (updateTask true ann_completes sample)) = 500 /\
  tasks (db (snd (updateTask true ann_completes sample))) = [write_spec] /\
  t_completed write_spec = false.
Proof.
  assert (Hr : ready sample) by (split; reflexivity).
  assert (Hu : user_exists 1 sample).
  { exists ann. split; [left; reflexivity|reflexivity]. }
  assert (Ho : owned_task (taskId ann_completes) 1 write_spec sample).
  { split; [left; reflexivity|]. split; reflexivity. }
  split; [exact Hr|]. split; [reflexivity|]. split; [exact Hu|]. split; [exact Ho|].
  split; [reflexivity|]. split; [reflexivity|].
  rewrite (update_is_rejected_on_mysql ann_completes sample 1 write_spec true
             Hr eq_refl Hu Ho eq_refl eq_refl).
  repeat split; reflexivity.
Defined.



Section AnyDriver.

Context {W : Type} (useMySql : bool) (d : driver W).


End AnyDriver.



End Update.

(** ** C9: what an error response shows *)

Module Errors.

Import App Ref RefFacts Spec JsFacts.

Section AnyDriver.

Context {W : Type} (useMySql : bool) (d : driver W).

(** C9, amended. When the body of a handler throws an error without an
    HTTP status, the answer is 500 and its JSON body is exactly
    [{ message }], where the message is the one of the error itself, or
    the fallback text of the endpoint when that message is empty. The
    stack trace is not part of the answer; the text of the message is
    passed on as the failing layer wrote it. The health endpoint answers
    likewise with [{ status: 'error', message }]. *)
Theorem internal_error_shows_its_message
    (fallbackMessage : string) (m : M W response) (req : request) (w w' : W)
    (e : js_error) :
  e_status e = None ->
  (m w = (Rejected e, w') ->
   endpoint fallbackMessage m w =
   ({| status := 500;
       body := Some (VObj [("message",
                            VStr (if Js.is_empty (e_message e)
                                  then fallbackMessage else e_message e))]) |},
    w')) /\
  (Db.query useMySql d SQL_HEALTH [] w = (Rejected e, w') ->
   App.health useMySql d req w =
   ({| status := 500;
       body := Some (VObj [("status", VStr "error");
                           ("message", VStr (e_message e))]) |}, w')).
Proof.
  intros Hs. split; intros H.
  - unfold endpoint. rewrite H. unfold handleError, json. rewrite Hs. reflexivity.
  - unfold App.health. rewrite H. reflexivity.
Qed.

End AnyDriver.

Lemma internal_error_shows_its_message_witness :
  let e := mysql_parse_error (Js.replace_placeholders SQL_UPDATE_TASK) in
  e_status e = None /\
  endpoint "Failed to update task" (throw e) sample =
  ({| status := 500; body := Some (VObj [("message", VStr (e_message e))]) |}, sample).
Proof.
  split; [reflexivity|].
  exact (proj1 (internal_error_shows_its_message true ref_driver
                  "Failed to update task"
                  (throw (mysql_parse_error (Js.replace_placeholders SQL_UPDATE_TASK)))
                  ann_completes sample sample
                  (mysql_parse_error (Js.replace_placeholders SQL_UPDATE_TASK))
                  eq_refl) eq_refl).
Defined.

(** C9 as stated fails: on the MySQL backend, Ann's update of her task
    fails inside the engine, and the body of the 500 answer quotes the
    RETURNING clause of the UPDATE statement. *)
Lemma error_response_quotes_the_statement :
  Js.includes returning_clause SQL_UPDATE_TASK = true /\
  exists msg,
    fst (updateTask true ann_completes sample) =
    {| status := 500; body := Some (VObj [("message", VStr msg)]) |} /\
    Js.includes returning_clause msg = true.
Proof.
  split; [vm_compute; reflexivity|].
  eexists. split; [vm_compute; reflexivity|vm_compute; reflexivity].
Qed.

End Errors.

(** ** C2, C3: the rows and the count of a write *)

Module Writes.

Import App Ref RefFacts Spec JsFacts.

Section AnyDriver.

Context {W : Type} (d : driver W).

(** On SQLite, a statement that does not start with SELECT goes through
    [db.run]: the result has no rows. *)
Lemma query_sqlite_write text params :
  leading "select" text = false ->
  Db.query false d text params =
  bind (sqlite_run d (Js.replace_placeholders text) params)
       (fun this => ret {| Db.rowCount := VNum (changes this); Db.rows := VArr [];
                           Db.q_lastID := VNum (lastID this) |}).
Proof.
  intros H. unfold Db.query, leading in *. cbv zeta. rewrite H.
  destruct (_ || _); reflexivity.
Qed.

Lemma code_is_not e c : e_code e <> Some c -> code_is e c = false.
Proof.
  unfold code_is. destruct (e_code e) as [x|]; [|reflexivity].
  intros H. apply String.eqb_neq. intros E. apply H. rewrite E. reflexivity.
Qed.

Ltac answered :=
  cbn [fst]; unfold is_message, message, handleError, json;
  do 2 eexists; reflexivity.

(** C2 on the SQLite backend. For every driver whose SQLite errors carry
    SQLite codes, every request and every world, the registration and the
    task creation handlers answer with a body [{ message }]: never with
    the inserted row. The INSERT goes through [db.run], whose result has
    an empty row list, and the read-back fallback is taken only for the
    MySQL parse error code. *)
Theorem sqlite_insert_never_answers_the_row (req : request) (w : W) :
  sqlite_codes d ->
  is_message (fst (App.register false d req w)) /\
  is_message (fst (App.createTask false d req w)).
Proof.
  intros Hrun. split.
  - unfold App.register, endpoint, bind, lift, ret, throw, try_catch.
    destruct (js_get (req_body req) "name") as [bn|e]; [|answered].
    cbv beta iota.
    destruct (js_trim _ (js_or bn _)) as [name|e]; [|answered].
    cbv beta iota.
    destruct (js_get (req_body req) "email") as [be|e]; [|answered].
    cbv beta iota.
    destruct (js_trim _ (js_or be _)) as [email|e]; [|answered].
    cbv beta iota.
    destruct (js_get (req_body req) "password") as [bp|e]; [|answered].
    cbv beta iota.
    destruct (_ || _ || _); [answered|].
    destruct (js_length_lt _ 6); [answered|].
    destruct (Db.query false d SQL_USER_ID_BY_EMAIL _ w) as [[existing|e] w1];
      [|answered].
    cbv beta iota.
    destruct (truthy _); [answered|].
    destruct (hashPassword d _ w1) as [[h|e] w2]; [|answered].
    cbv beta iota.
    rewrite query_sqlite_write by (vm_compute; reflexivity).
    unfold bind, ret.
    destruct (sqlite_run d _ _ w2) as [[this|e] w3] eqn:R.
    + cbv beta iota. cbn [Db.rows js_first]. answered.
    + cbv beta iota. rewrite (code_is_not _ _ (Hrun _ _ _ _ _ R)). answered.
  - unfold App.createTask, endpoint, bind, lift, ret, throw, try_catch.
    destruct (ensureUser false d (userId req) w) as [[user|e] w1]; [|answered].
    cbv beta iota.
    destruct (js_get (req_body req) "title") as [bt|e]; [|answered].
    cbv beta iota.
    destruct (js_trim _ (js_or bt _)) as [title|e]; [|answered].
    cbv beta iota.
    destruct (Js.is_empty title); [answered|].
    destruct (js_get user "id") as [user_id|e]; [|answered].
    cbv beta iota.
    rewrite query_sqlite_write by (vm_compute; reflexivity).
    unfold bind, ret.
    destruct (sqlite_run d _ _ w1) as [[this|e] w2] eqn:R.
    + cbv beta iota. cbn [Db.rows js_first]. answered.
    + cbv beta iota. rewrite (code_is_not _ _ (Hrun _ _ _ _ _ R)). answered.
Qed.

(** On SQLite the UPDATE goes through [db.run], whose result has no rows:
    whatever the driver answers, the handler never answers with the task. *)
Lemma sqlite_update_never_answers_the_row (req : request) (w : W) :
  is_message (fst (App.updateTask false d req w)).
Proof.
  unfold App.updateTask, endpoint, bind, lift, ret, throw.
  destruct (ensureUser false d (userId req) w) as [[user|e] w1]; [|answered].
  cbv beta iota.
  destruct (js_get user "id") as [user_id|e]; [|answered].
  cbv beta iota.
  destruct (Db.query false d SQL_TASK_OF_USER _ w1) as [[existing|e] w2];
    [|answered].
  cbv beta iota.
  destruct (negb _); [answered|].
  destruct (js_get (req_body req) "title") as [bt|e]; [|answered].
  cbv beta iota.
  destruct (match bt with VUndef => false | _ => true end).
  - cbv beta iota.
    destruct (_ && _); [answered|].
    destruct (js_get (req_body req) "completed") as [bc|e]; [|answered].
    cbv beta iota.
    destruct (is_boolean bc); cbv beta iota.
    + rewrite query_sqlite_write by (vm_compute; reflexivity).
      unfold bind, ret.
      destruct (sqlite_run d _ _ w2) as [[this|e] w3]; answered.
    + destruct (js_get (js_first_opt _) "completed") as [cc|e]; [|answered].
      cbv beta iota.
      rewrite query_sqlite_write by (vm_compute; reflexivity).
      unfold bind, ret.
      destruct (sqlite_run d _ _ w2) as [[this|e] w3]; answered.
  - destruct (js_get (js_first_opt _) "title") as [ct|e]; [|answered].
    cbv beta iota. cbn [andb].
    destruct (js_get (req_body req) "completed") as [bc|e]; [|answered].
    cbv beta iota.
    destruct (is_boolean bc); cbv beta iota.
    + rewrite query_sqlite_write by (vm_compute; reflexivity).
      unfold bind, ret.
      destruct (sqlite_run d _ _ w2) as [[this|e] w3]; answered.
    + destruct (js_get (js_first_opt _) "completed") as [cc|e]; [|answered].
      cbv beta iota.
      rewrite query_sqlite_write by (vm_compute; reflexivity).
      unfold bind, ret.
      destruct (sqlite_run d _ _ w2) as [[this|e] w3]; answered.
Qed.

(** C3 on the MySQL backend. Whenever [pool.execute] resolves with an
    object that is not an array and has no [length] entry (the result
    header of an INSERT, UPDATE or DELETE), [query] resolves with that
    object as [rows] and with [undefined] as [rowCount]: neither a row
    list nor the number of affected rows. *)
Theorem mysql_write_has_no_count text params hdr (w w' : W) :
  mysql_execute d (Js.replace_placeholders text) params w = (Resolved (VObj hdr), w') ->
  lookup "length" hdr = VUndef ->
  Db.query true d text params w =
  (Resolved {| Db.rows := VObj hdr; Db.rowCount := VUndef; Db.q_lastID := VUndef |},
   w').
Proof.
  intros H Hl. unfold Db.query, bind, lift. rewrite H.
  cbn [js_get]. rewrite Hl. reflexivity.
Qed.

End AnyDriver.

(** Every error of the reference SQLite engine carries an SQLite code. *)
Lemma exec_sqlite_code sql params w e w' :
  exec false sql params w = (Rejected e, w') ->
  exists c, e_code e = Some c /\ String.prefix "SQLITE" c = true.
Proof.
  unfold exec.
  destruct (parse sql) as [st|].
  2:{ intros H; inversion H; subst. eexists. split; reflexivity. }
  destruct (uses_now st) as [t|].
  { destruct (has_table t (db w)); intros H; inversion H; subst;
      eexists; split; reflexivity. }
  destruct (is_create st).
  { intros H; inversion H; subst. eexists. split; reflexivity. }
  unfold run_stmt, select_users, select_tasks, delete_task, insert_user,
    insert_task, create_table.
  destruct st; try discriminate;
    repeat match goal with
           | |- context [match ?x with _ => _ end] =>
               lazymatch x with
               | context [match _ with _ => _ end] => fail
               | _ => destruct x
               end
           end;
    intros H; inversion H; subst; eexists; split; reflexivity.
Qed.

Lemma ref_sqlite_codes : sqlite_codes ref_driver.
Proof.
  intros sql params w e w' H. cbn [sqlite_run ref_driver] in H.
  unfold ref_sqlite_run in H.
  destruct (exec false sql params w) as [[[l|a i]|e0] w0] eqn:E;
    inversion H; subst.
  destruct (exec_sqlite_code _ _ _ _ _ E) as (c & Hc & Hp).
  rewrite Hc. intros Heq. inversion Heq; subst. discriminate Hp.
Qed.

Lemma sqlite_insert_never_answers_the_row_witness :
  sqlite_codes ref_driver /\
  is_message (fst (register false register_ann empty_world)) /\
  is_message (fst (createTask false (request_of "1" EmptyString
                                       [("title", VStr "Write spec")]) sample)).
Proof.
  split; [exact ref_sqlite_codes|].
  split.
  - exact (proj1 (sqlite_insert_never_answers_the_row ref_driver register_ann
                    empty_world ref_sqlite_codes)).
  - exact (proj2 (sqlite_insert_never_answers_the_row ref_driver
                    (request_of "1" EmptyString [("title", VStr "Write spec")])
                    sample ref_sqlite_codes)).
Defined.

(** Ann deletes her task on the MySQL backend. *)
Lemma mysql_write_has_no_count_witness :
  mysql_execute ref_driver (Js.replace_placeholders SQL_DELETE_TASK)
    [VStr "1"; VNum 1] sample =
  (Resolved (result_header 1 0),
   set_db sample {| has_users := true; has_tasks := true; users := [ann; bob];
                    tasks := []; next_user_id := 3; next_task_id := 2;
                    as_integer := int_literal |}) /\
  Db.rowCount
    (match fst (query true SQL_DELETE_TASK [VStr "1"; VNum 1] sample) with
     | Resolved r => r
     | Rejected _ => rows_result []
     end) = VUndef.
Proof.
  assert (H : mysql_execute ref_driver (Js.replace_placeholders SQL_DELETE_TASK)
                [VStr "1"; VNum 1] sample =
              (Resolved (result_header 1 0),
               set_db sample {| has_users := true; has_tasks := true;
                                users := [ann; bob]; tasks := [];
                                next_user_id := 3; next_task_id := 2;
                                as_integer := int_literal |}))
    by (vm_compute; reflexivity).
  split; [exact H|].
  unfold query.
  rewrite (mysql_write_has_no_count ref_driver SQL_DELETE_TASK [VStr "1"; VNum 1]
             _ sample _ H eq_refl).
  reflexivity.
Defined.

(** The consequence for the delete handler on MySQL: Ann's delete of her
    own task removes the row and is answered 404. *)
Lemma mysql_delete_of_own_task_is_404 :
  fst (deleteTask true (request_of "1" "1" []) sample) =
    message 404 "Task not found" /\
  tasks (db (snd (deleteTask true (request_of "1" "1" []) sample))) = [].
Proof. split; vm_compute; reflexivity. Qed.

(** The count is right where the claim holds: a SELECT on either backend
    and a write on SQLite. *)
Lemma sqlite_counts text params w :
  match query false text params w with
  | (Resolved r, _) =>
      exists l, Db.rows r = VArr l /\
                (leading "select" text = true ->
                 Db.rowCount r = VNum (Z.of_nat (List.length l)))
  | (Rejected _, _) => True
  end.
Proof.
  destruct (leading "select" text) eqn:L.
  - rewrite query_sqlite_select by exact L.
    destruct (exec false _ params w) as [[[l|a i]|e] w']; [| |exact I];
      eexists; split; reflexivity.
  - rewrite query_sqlite_run by exact L.
    destruct (exec false _ params w) as [[[l|a i]|e] w']; [| |exact I];
      eexists; (split; [reflexivity|discriminate]).
Qed.

End Writes.

(** ** C8: bootstrap *)

Module Bootstrap.

Import App Ref RefFacts Spec.

Lemma with_tables_ready w : ready w -> with_tables w = w.
Proof.
  intros [Hu Ht]. unfold with_tables. destruct w as [[] ? ? ?].
  cbn in *. subst. reflexivity.
Qed.

Lemma parse_create_users : parse Db.CREATE_USERS = Some CreateUsers.
Proof. vm_compute. reflexivity. Qed.

Lemma parse_create_tasks : parse Db.CREATE_TASKS = Some CreateTasks.
Proof. vm_compute. reflexivity. Qed.

(** On MySQL the bootstrap issues the two CREATE TABLE IF NOT EXISTS. *)
Lemma bootstrap_mysql w : bootstrap true w = with_tables w.
Proof.
  unfold bootstrap, bootstrapDatabase, Db.bootstrapDatabase, bind.
  cbn [mysql_execute ref_driver]. unfold ref_mysql_execute, exec.
  rewrite parse_create_users. cbn [uses_returning run_stmt create_table].
  cbv beta iota zeta. rewrite parse_create_tasks.
  cbn [uses_returning run_stmt create_table]. cbv beta iota zeta.
  unfold ret. cbn [snd set_db db has_users has_tasks users tasks next_user_id
                     next_task_id now schema_file seed_file negb].
  unfold with_tables, set_db. rewrite !orb_true_r. reflexivity.
Qed.

(** On SQLite it applies the schema file, then the seed file, when they
    are on disk. *)
Lemma bootstrap_sqlite w : bootstrap false w = after_seed (after_schema w).
Proof.
  unfold bootstrap, bootstrapDatabase, Db.bootstrapDatabase, bind, Db.applySqlFile.
  cbn [fs_existsSync fs_readFileSync sqlite_exec ref_driver].
  unfold ref_existsSync, ref_readFileSync, after_schema, after_seed.
  change (String.eqb Db.SCHEMA_FILE Db.SCHEMA_FILE) with true.
  change (String.eqb Db.SEED_FILE Db.SCHEMA_FILE) with false.
  change (String.eqb Db.SEED_FILE Db.SEED_FILE) with true.
  cbv beta iota.
  destruct (schema_file w) eqn:Hs; cbn [negb]; unfold ret; cbv beta iota.
  - cbn [ref_sqlite_exec]. fold (with_tables w).
    change (seed_file (with_tables w)) with (seed_file w).
    destruct (seed_file w) as [stmts|]; cbn [negb]; [|reflexivity].
    reflexivity.
  - destruct (seed_file w) as [stmts|]; cbn [negb]; reflexivity.
Qed.

Lemma after_schema_twice w : after_schema (after_schema w) = after_schema w.
Proof.
  unfold after_schema. destruct (schema_file w) eqn:E; [|rewrite E; reflexivity].
  change (schema_file (with_tables w)) with (schema_file w). rewrite E.
  reflexivity.
Qed.

Lemma after_schema_ready w : ready w -> after_schema w = w.
Proof.
  intros Hr. unfold after_schema.
  destruct (schema_file w); [apply with_tables_ready; exact Hr|reflexivity].
Qed.

(** On the reference store: without a seed file the bootstrap on SQLite
    is idempotent, and with one its statements run on every bootstrap,
    whatever rows the store holds. *)
Lemma sqlite_bootstrap_without_seed w :
  seed_file w = None ->
  bootstrap false (bootstrap false w) = bootstrap false w /\
  (ready w -> bootstrap false w = w).
Proof.
  intros Hnone.
  assert (E : forall v, seed_file v = None -> bootstrap false v = after_schema v).
  { intros v Hv. rewrite bootstrap_sqlite. unfold after_seed.
    assert (Hv' : seed_file (after_schema v) = None).
    { unfold after_schema. destruct (schema_file v); exact Hv. }
    rewrite Hv'. reflexivity. }
  rewrite (E w Hnone). split.
  - rewrite E.
    + apply after_schema_twice.
    + unfold after_schema. destruct (schema_file w); exact Hnone.
  - apply after_schema_ready.
Qed.

Lemma sqlite_bootstrap_runs_the_seed w stmts :
  seed_file w = Some stmts ->
  bootstrap false w = snd (run_seed stmts (after_schema w)).
Proof.
  intros Hsome. rewrite bootstrap_sqlite. unfold after_seed.
  assert (Hs : seed_file (after_schema w) = Some stmts).
  { unfold after_schema. destruct (schema_file w); exact Hsome. }
  rewrite Hs. reflexivity.
Qed.

Section AnyDriver.

Context {W : Type} (d : driver W).


End AnyDriver.



End Bootstrap.

(** ** The scenario of the specification, on the MySQL backend *)

Module Scenario.

Import App Ref Spec.

(** Registration answers 201 with the public part of the new row, read
    back after the INSERT without RETURNING. *)
Example register_answers_the_user :
  fst (register true register_ann empty_world) =
  json 201 (VObj [("user", VObj [("id", VNum 1); ("name", VStr "Ann");
                                 ("email", VStr "ann@x.com")])]).
Proof. vm_compute. reflexivity. Qed.

(** Creating a task answers 201 with the new row, not completed. *)
Example create_answers_the_task :
  fst (createTask true ann_adds_task after_register) =
  json 201 (VObj [("id", VNum 1); ("userId", VNum 1); ("title", VStr "Write spec");
                  ("completed", VBool false); ("createdAt", VNum 0);
                  ("updatedAt", VNum 0)]).
Proof. vm_compute. reflexivity. Qed.

(** The task is listed for its owner on both backends. *)
Example list_shows_the_task :
  fst (listTasks true ann_adds_task after_create) =
  fst (listTasks false ann_adds_task after_create) /\
  fst (listTasks true ann_adds_task after_create) =
  json 200 (VArr [VObj [("id", VNum 1); ("userId", VNum 1);
                        ("title", VStr "Write spec"); ("completed", VBool false);
                        ("createdAt", VNum 0); ("updatedAt", VNum 0)]]).
Proof. split; vm_compute; reflexivity. Qed.

(** Completing it is answered 500 and the task stays as it was. *)
Example complete_is_answered_500 :
  status (fst (updateTask true ann_completes after_create)) = 500 /\
  snd (updateTask true ann_completes after_create) = after_create.
Proof. split; vm_compute; reflexivity. Qed.

(** Login with the right password answers the user; a wrong password and
    an unknown email get the same 401. *)
Example login_answers :
  fst (login true register_ann after_create) =
  json 200 (VObj [("user", VObj [("id", VNum 1); ("name", VStr "Ann");
                                 ("email", VStr "ann@x.com")])]) /\
  fst (login true login_ann_wrong after_create) = message 401 "Invalid credentials" /\
  fst (login true login_ghost after_create) = message 401 "Invalid credentials".
Proof. repeat split; vm_compute; reflexivity. Qed.

End Scenario.

(** ** Placeholder translation *)

Module Placeholders.

Import Behaviour.

Lemma replace_from_no_digit s :
  Js.next_is_digit s = false ->
  Js.next_is_digit (Js.replace_placeholders_from false s) = false.
Proof.
  destruct s as [|c r]; simpl; [reflexivity|].
  intros Hc.
  destruct (Ascii.eqb c "$" && Js.next_is_digit r); simpl; [reflexivity|exact Hc].
Qed.

Lemma replace_from_complete s :
  forall f, has_placeholder (Js.replace_placeholders_from f s) = false.
Proof.
  induction s as [|c r IH]; intros f; simpl; [reflexivity|].
  destruct (f && Js.is_digit c); [apply IH|].
  destruct (Ascii.eqb c "$" && Js.next_is_digit r) eqn:E; simpl.
  - apply IH.
  - rewrite IH, orb_false_r.
    destruct (Ascii.eqb c "$"); [|reflexivity]. simpl in *.
    apply replace_from_no_digit. exact E.
Qed.

Lemma replace_without_placeholder s :
  has_placeholder s = false -> Js.replace_placeholders s = s.
Proof.
  unfold Js.replace_placeholders.
  induction s as [|c r IH]; simpl; [reflexivity|].
  intros H. apply orb_false_elim in H. destruct H as [H1 H2].
  rewrite H1, IH by exact H2. reflexivity.
Qed.

(** X1. The translation replaces every placeholder: no dollar sign
    followed by a digit is left in its result. A text without such a
    placeholder comes out as it went in, so translating a text that was
    already translated changes nothing. *)
Theorem replace_placeholders_is_complete (s : string) :
  has_placeholder (Js.replace_placeholders s) = false /\
  (has_placeholder s = false -> Js.replace_placeholders s = s) /\
  Js.replace_placeholders (Js.replace_placeholders s) = Js.replace_placeholders s.
Proof.
  split; [apply replace_from_complete|].
  split; [apply replace_without_placeholder|].
  apply replace_without_placeholder. apply replace_from_complete.
Qed.

Lemma replace_placeholders_is_complete_witness :
  has_placeholder Db.CREATE_TASKS = false /\
  Js.replace_placeholders Db.CREATE_TASKS = Db.CREATE_TASKS.
Proof.
  assert (H : has_placeholder Db.CREATE_TASKS = false) by (vm_compute; reflexivity).
  split; [exact H|].
  exact (proj1 (proj2 (replace_placeholders_is_complete Db.CREATE_TASKS)) H).
Defined.

End Placeholders.

(** ** The reference engine: the remaining statements *)

Module RefFacts2.

Import App Ref RefFacts Spec Behaviour.

Lemma parse_health : parse (Js.replace_placeholders SQL_HEALTH) = Some Ref.Health.
Proof. vm_compute. reflexivity. Qed.

Lemma parse_tasks_of_user :
  parse (Js.replace_placeholders SQL_TASKS_OF_USER) = Some TasksOfUser.
Proof. vm_compute. reflexivity. Qed.

Lemma parse_last_task_of_user :
  parse (Js.replace_placeholders SQL_LAST_TASK_OF_USER) = Some LastTaskOfUser.
Proof. vm_compute. reflexivity. Qed.

Lemma parse_insert_task_returning :
  parse (Js.replace_placeholders SQL_INSERT_TASK_RETURNING) = Some InsertTaskReturning.
Proof. vm_compute. reflexivity. Qed.

Lemma parse_insert_task :
  parse (Js.replace_placeholders SQL_INSERT_TASK) = Some InsertTask.
Proof. vm_compute. reflexivity. Qed.

Lemma query_health mysql w :
  query mysql SQL_HEALTH [] w = (Resolved (rows_result [VObj [("1", VNum 1)]]), w).
Proof.
  destruct mysql.
  - rewrite query_mysql. unfold exec. rewrite parse_health. reflexivity.
  - rewrite query_sqlite_select by (vm_compute; reflexivity).
    unfold exec. rewrite parse_health. reflexivity.
Qed.

Ltac select_on_tasks parse_lemma :=
  let w := match goal with |- context [has_tasks (db ?w)] => w end in
  match goal with
  | |- query ?mysql _ _ _ = _ =>
      destruct mysql;
      [ rewrite query_mysql; unfold exec; rewrite parse_lemma;
        cbn [uses_returning run_stmt]
      | rewrite query_sqlite_select by (vm_compute; reflexivity);
        unfold exec; rewrite parse_lemma;
        cbn [uses_now is_create run_stmt] ];
      unfold select_tasks;
      destruct (has_tasks (db w)); reflexivity
  end.

Lemma query_tasks_of_user mysql uid w :
  query mysql SQL_TASKS_OF_USER [VNum uid] w =
  if has_tasks (db w)
  then (Resolved (rows_result (map task_obj (listed_tasks uid w))), w)
  else (Rejected (no_such_table mysql "tasks"), w).
Proof. select_on_tasks parse_tasks_of_user. Qed.

Lemma query_last_task_of_user mysql uid w :
  query mysql SQL_LAST_TASK_OF_USER [VNum uid] w =
  if has_tasks (db w)
  then (Resolved (rows_result
                    (map task_obj (firstn 1 (sort_desc t_id (own_tasks uid w))))), w)
  else (Rejected (no_such_table mysql "tasks"), w).
Proof. select_on_tasks parse_last_task_of_user. Qed.

Lemma query_insert_task_returning mysql params w :
  query mysql SQL_INSERT_TASK_RETURNING params w =
  (Rejected (insert_returning_error mysql
               (Js.replace_placeholders SQL_INSERT_TASK_RETURNING) "tasks" w), w).
Proof.
  destruct mysql.
  - rewrite query_mysql. unfold exec. rewrite parse_insert_task_returning.
    reflexivity.
  - rewrite query_sqlite_run by (vm_compute; reflexivity).
    unfold exec. rewrite parse_insert_task_returning.
    cbn [uses_now]. unfold insert_returning_error.
    destruct (has_table "tasks" (db w)); reflexivity.
Qed.

Lemma query_insert_task_mysql uid title w :
  query true SQL_INSERT_TASK [VNum uid; VStr title] w =
  match insert_task true uid title false w with
  | (Resolved (Rows l), w') => (Resolved (rows_result l), w')
  | (Resolved (Header a i), w') =>
      (Resolved {| Db.rows := result_header a i; Db.rowCount := VUndef;
                   Db.q_lastID := VUndef |}, w')
  | (Rejected e, w') => (Rejected e, w')
  end.
Proof.
  rewrite query_mysql. unfold exec. rewrite parse_insert_task. reflexivity.
Qed.

(** The UPDATE of the handler on SQLite: rejected, the store untouched. *)
Lemma query_update_task_sqlite params w :
  exists e, query false SQL_UPDATE_TASK params w = (Rejected e, w) /\
            e_status e = None.
Proof.
  rewrite query_sqlite_run by (vm_compute; reflexivity).
  unfold exec. rewrite parse_update_task. cbn [uses_now].
  destruct (has_table "tasks" (db w)); eexists; split; reflexivity.
Qed.

(** The DELETE of the handler: the matching rows go, and the count that
    [query] reports is their number on SQLite and [undefined] on MySQL. *)
Lemma query_delete_task mysql tid uid w :
  query mysql SQL_DELETE_TASK [VStr tid; VNum uid] w =
  if has_tasks (db w)
  then (Resolved
          (if mysql
           then {| Db.rows :=
                     result_header
                       (Z.of_nat (List.length
                          (filter (task_matches (db w) (VStr tid) (VNum uid)) (tasks (db w)))))
                       0;
                   Db.rowCount := VUndef; Db.q_lastID := VUndef |}
           else {| Db.rows := VArr [];
                   Db.rowCount :=
                     VNum (Z.of_nat (List.length
                       (filter (task_matches (db w) (VStr tid) (VNum uid)) (tasks (db w)))));
                   Db.q_lastID := VNum 0 |}),
        without_task w tid uid)
  else (Rejected (no_such_table mysql "tasks"), w).
Proof.
  destruct mysql.
  - rewrite query_mysql. unfold exec. rewrite parse_delete_task.
    cbn [uses_returning run_stmt]. unfold delete_task, without_task. cbv zeta.
    destruct (has_tasks (db w)); reflexivity.
  - rewrite query_sqlite_run by (vm_compute; reflexivity).
    unfold exec. rewrite parse_delete_task.
    cbn [uses_now is_create run_stmt]. unfold delete_task, without_task. cbv zeta.
    destruct (has_tasks (db w)); reflexivity.
Qed.

(** What [ensureUser] resolves with, and that it throws otherwise. *)
Lemma ensureUser_resolved mysql s w user w' :
  ensureUser mysql ref_driver s w = (Resolved user, w') ->
  exists uid u,
    Js.parseInt s = Some uid /\ In u (users (db w)) /\ u_id u = uid /\
    user = user_obj u /\ has_users (db w) = true /\ w' = w.
Proof.
  unfold ensureUser. destruct (Js.parseInt s) as [uid|]; [|discriminate].
  unfold bind. change (Db.query mysql ref_driver) with (query mysql).
  rewrite query_user_by_id.
  destruct (has_users (db w)) eqn:Hu; [|discriminate].
  cbv beta iota. cbn [rows_result Db.rows].
  destruct (users_by_id (VNum uid) (db w)) as [|u l] eqn:F; [discriminate|].
  cbn. intros H. injection H as Hus Hw.
  assert (Hf : In u (users_by_id (VNum uid) (db w))) by (rewrite F; left; reflexivity).
  apply filter_In in Hf. destruct Hf as [Hin Hid]. cbn in Hid.
  apply Z.eqb_eq in Hid.
  exists uid, u. repeat split; auto.
Qed.

Lemma user_exists_found uid w :
  user_exists uid w -> existsb (fun u => uid =? u_id u) (users (db w)) = true.
Proof.
  intros [u [Hin Hid]]. apply existsb_exists. exists u.
  split; [exact Hin|]. apply Z.eqb_eq. symmetry. exact Hid.
Qed.

End RefFacts2.

(** ** What each handler does to the store *)

Module Effects.

Import App Ref RefFacts RefFacts2 Registration Spec Behaviour.

Lemma health_answers mysql req w :
  Ref.health mysql req w = (json 200 (VObj [("status", VStr "ok")]), w).
Proof.
  unfold Ref.health, App.health.
  change (Db.query mysql ref_driver) with (query mysql).
  rewrite query_health. reflexivity.
Qed.

Lemma login_reads mysql req w : snd (login mysql req w) = w.
Proof.
  unfold login, App.login, endpoint, bind, lift, ret, throw. cbv zeta.
  destruct (js_get (req_body req) "email") as [be|e]; [|reflexivity]. cbv beta iota.
  destruct (js_trim _ _) as [email|e]; [|reflexivity]. cbv beta iota.
  destruct (js_get (req_body req) "password") as [bp|e]; [|reflexivity]. cbv beta iota.
  destruct (_ || _); [reflexivity|].
  change (Db.query mysql ref_driver) with (query mysql).
  rewrite query_login. destruct (has_users (db w)); [|reflexivity]. cbv beta iota.
  destruct (negb _); [reflexivity|].
  destruct (js_get _ "password_hash") as [h|e]; [|reflexivity]. cbv beta iota.
  unfold comparePassword. cbn [bcrypt_compare ref_driver]. unfold ref_bcrypt_compare.
  destruct (js_or bp _); try reflexivity.
  destruct h; try reflexivity.
  unfold ret. cbv beta iota.
  destruct (negb _); [reflexivity|].
  destruct (sanitizeUser _); reflexivity.
Qed.

(** The start of every task handler. *)
Ltac ensure_user mysql req w :=
  let o := fresh "o" in let w1 := fresh "w" in let E := fresh "E" in
  let user := fresh "user" in let e := fresh "e" in
  destruct (ensureUser mysql ref_driver (userId req) w) as [o w1] eqn:E;
  destruct o as [user|e];
  [ apply ensureUser_resolved in E;
    destruct E as (uid & u & Hp & Hin & Hid & -> & Hu & ->)
  | apply ensureUser_reads in E; subst w1 ].

Lemma listTasks_reads mysql req w : snd (listTasks mysql req w) = w.
Proof.
  unfold listTasks, App.listTasks, endpoint, bind, lift, ret, throw.
  ensure_user mysql req w; [|reflexivity].
  change (js_get (user_obj u) "id") with (Resolved (A:=jsval) (VNum (u_id u))).
  cbv beta iota. change (Db.query mysql ref_driver) with (query mysql).
  rewrite query_tasks_of_user.
  destruct (has_tasks (db w)); [|reflexivity]. cbv beta iota.
  destruct (rows_map_mapTask _); reflexivity.
Qed.

Lemma updateTask_reads mysql req w : snd (updateTask mysql req w) = w.
Proof.
  unfold updateTask, App.updateTask, endpoint, bind, lift, ret, throw.
  ensure_user mysql req w; [|reflexivity].
  change (js_get (user_obj u) "id") with (Resolved (A:=jsval) (VNum (u_id u))).
  cbv beta iota. change (Db.query mysql ref_driver) with (query mysql).
  rewrite query_task_of_user.
  destruct (has_tasks (db w)); [|reflexivity]. cbv beta iota.
  destruct (negb _); [reflexivity|].
  destruct (js_get (req_body req) "title") as [bt|e]; [|reflexivity]. cbv beta iota.
  destruct bt; cbv beta iota;
    try (destruct (js_get _ "title") as [t|e]; [|reflexivity]; cbv beta iota).
  all: destruct (_ && _); [reflexivity|].
  all: destruct (js_get (req_body req) "completed") as [bc|e]; [|reflexivity].
  all: cbv beta iota; destruct (is_boolean bc); cbv beta iota.
  all: try (destruct (js_get _ "completed") as [c|e]; [|reflexivity]; cbv beta iota).
  all: destruct mysql;
    [ rewrite query_update_task_mysql; reflexivity
    | match goal with
      | |- context [query false SQL_UPDATE_TASK ?params ?w'] =>
          destruct (query_update_task_sqlite params w') as (? & -> & _)
      end; reflexivity ].
Qed.

Lemma deleteTask_effect mysql req w :
  snd (deleteTask mysql req w) = w \/
  exists uid, Js.parseInt (userId req) = Some uid /\ user_exists uid w /\
              has_tasks (db w) = true /\
              snd (deleteTask mysql req w) = without_task w (taskId req) uid.
Proof.
  unfold deleteTask, App.deleteTask, endpoint, bind, lift, ret, throw.
  ensure_user mysql req w; [|left; reflexivity].
  change (js_get (user_obj u) "id") with (Resolved (A:=jsval) (VNum (u_id u))).
  cbv beta iota. change (Db.query mysql ref_driver) with (query mysql).
  rewrite query_delete_task.
  destruct (has_tasks (db w)) eqn:Ht; [|left; reflexivity]. cbv beta iota.
  right. exists uid. split; [exact Hp|]. split; [exists u; split; assumption|].
  split; [reflexivity|]. rewrite Hid.
  destruct (negb _); reflexivity.
Qed.

Lemma createTask_effect mysql req w :
  snd (createTask mysql req w) = w \/
  exists uid title,
    mysql = true /\ Js.parseInt (userId req) = Some uid /\ user_exists uid w /\
    snd (createTask mysql req w) = add_task w (new_task w uid title).
Proof.
  unfold createTask, App.createTask, endpoint, bind, lift, ret, throw, try_catch.
  ensure_user mysql req w; [|left; reflexivity].
  destruct (js_get (req_body req) "title") as [bt|e]; [|left; reflexivity].
  cbv beta iota.
  destruct (js_trim _ _) as [title|e]; [|left; reflexivity]. cbv beta iota.
  destruct (Js.is_empty title); [left; reflexivity|].
  change (js_get (user_obj u) "id") with (Resolved (A:=jsval) (VNum (u_id u))).
  cbv beta iota. change (Db.query mysql ref_driver) with (query mysql).
  rewrite query_insert_task_returning.
  destruct mysql; unfold insert_returning_error.
  2:{ left. destruct (has_table "tasks" (db w)); reflexivity. }
  change (code_is (mysql_parse_error _) "ER_PARSE_ERROR") with true. cbv beta iota.
  rewrite query_insert_task_mysql. unfold insert_task. cbv zeta.
  destruct (has_tasks (db w)) eqn:Ht; [|left; reflexivity]. cbn [negb].
  assert (Hex : user_exists uid w) by (exists u; split; assumption).
  rewrite Hid, (user_exists_found _ _ Hex). cbn [negb]. cbv beta iota.
  right. exists uid, title. split; [reflexivity|]. split; [exact Hp|].
  split; [exact Hex|].
  rewrite query_last_task_of_user.
  cbn [set_db db has_tasks]. unfold add_task, new_task. rewrite Ht. cbv beta iota.
  destruct (js_first _); [|reflexivity]. cbv beta iota.
  destruct (js_first _); [|reflexivity]. cbv beta iota.
  destruct (mapTask _); reflexivity.
Qed.

Lemma register_effect mysql req w :
  snd (register mysql req w) = w \/
  exists name email hash,
    mysql = true /\ users_by_email (VStr email) (db w) = [] /\
    snd (register mysql req w) = add_user w (new_user w name email hash).
Proof.
  unfold register, App.register, endpoint, bind, lift, ret, throw, try_catch.
  cbv zeta.
  destruct (js_get (req_body req) "name") as [bn|e]; [|left; reflexivity].
  cbv beta iota.
  destruct (js_trim _ (js_or bn _)) as [name|e]; [|left; reflexivity].
  cbv beta iota.
  destruct (js_get (req_body req) "email") as [be|e]; [|left; reflexivity].
  cbv beta iota.
  destruct (js_trim _ (js_or be _)) as [email|e]; [|left; reflexivity].
  cbv beta iota.
  destruct (js_get (req_body req) "password") as [bp|e]; [|left; reflexivity].
  cbv beta iota.
  destruct (_ || _ || _); [left; reflexivity|].
  destruct (js_length_lt _ 6); [left; reflexivity|].
  change (Db.query mysql ref_driver) with (query mysql).
  rewrite query_user_id_by_email.
  destruct (has_users (db w)) eqn:Hu; [|left; reflexivity].
  cbv beta iota. rewrite rows_nonempty.
  destruct (users_by_email (VStr (Js.toLowerCase email)) (db w)) as [|x l] eqn:Hnone;
    cbn [map]; [|left; reflexivity].
  unfold hashPassword. cbn [bcrypt_hash ref_driver]. unfold ref_bcrypt_hash.
  destruct (js_or bp (VStr EmptyString)) as [| |b|z|p|l|o];
    try (left; reflexivity).
  unfold ret. cbv beta iota.
  rewrite query_insert_user_returning.
  destruct mysql; unfold insert_returning_error.
  2:{ left. destruct (has_table "users" (db w)); reflexivity. }
  change (code_is (mysql_parse_error _) "ER_PARSE_ERROR") with true. cbv beta iota.
  rewrite query_insert_user_mysql. unfold insert_user. cbv zeta.
  rewrite Hu, (users_by_email_none _ _ Hnone). cbn [negb]. cbv beta iota.
  right. exists name, (Js.toLowerCase email), (digest p).
  split; [reflexivity|]. split; [exact Hnone|].
  rewrite query_user_by_email.
  cbn [set_db db has_users]. unfold add_user, new_user. rewrite Hu. cbv beta iota.
  destruct (js_first _); [|reflexivity]. cbv beta iota.
  destruct (js_first _); [|reflexivity]. cbv beta iota.
  destruct (sanitizeUser _); reflexivity.
Qed.

(** Every request has one of the four effects. *)
Lemma handle_effect mysql r req w :
  effect (acting_user r req) w (snd (handle mysql r req w)).
Proof.
  destruct r; cbn [handle acting_user].
  - rewrite health_answers. constructor.
  - destruct (register_effect mysql req w) as [->|(n & e & h & _ & Hnone & ->)].
    + constructor.
    + apply effect_user. exact Hnone.
  - rewrite login_reads. constructor.
  - rewrite listTasks_reads. constructor.
  - destruct (createTask_effect mysql req w) as [->|(uid & t & _ & Hp & Hex & ->)].
    + constructor.
    + apply effect_task; assumption.
  - rewrite updateTask_reads. constructor.
  - destruct (deleteTask_effect mysql req w) as [->|(uid & Hp & _ & _ & ->)].
    + constructor.
    + apply effect_delete. exact Hp.
Qed.

(** X2. Only three requests ever write: the login, the listing, the
    update and the health check return the store as they found it on
    either backend, whatever the request; on SQLite the registration and
    the task creation change nothing either. *)
Theorem only_insert_and_delete_write mysql req w :
  snd (Ref.health mysql req w) = w /\
  snd (login mysql req w) = w /\
  snd (listTasks mysql req w) = w /\
  snd (updateTask mysql req w) = w /\
  snd (register false req w) = w /\
  snd (createTask false req w) = w.
Proof.
  split; [rewrite health_answers; reflexivity|].
  split; [apply login_reads|].
  split; [apply listTasks_reads|].
  split; [apply updateTask_reads|].
  split.
  - destruct (register_effect false req w) as [E|(n & e & h & Hm & _)];
      [exact E|discriminate Hm].
  - destruct (createTask_effect false req w) as [E|(uid & t & Hm & _)];
      [exact E|discriminate Hm].
Qed.

End Effects.

(** ** The store under sequences of requests *)

Module Store.

Import App Ref RefFacts RefFacts2 Registration Spec Behaviour Effects.

Lemma user_exists_more uid w w' more :
  users (db w') = (users (db w) ++ more)%list ->
  user_exists uid w -> user_exists uid w'.
Proof.
  intros E [u [Hin Hid]]. exists u. split; [|exact Hid].
  rewrite E. apply in_or_app. left. exact Hin.
Qed.

Lemma add_user_well_formed w u :
  well_formed w -> u_id u = next_user_id (db w) -> well_formed (add_user w u).
Proof.
  intros (Hu & Ht & Nu & Nt & Hown) Hid.
  unfold well_formed, add_user. cbn [set_db db users tasks next_user_id next_task_id].
  repeat split.
  - apply Forall_app. split.
    + eapply Forall_impl; [|exact Hu]. cbn beta. intros; lia.
    + constructor; [lia|constructor].
  - exact Ht.
  - rewrite map_app. cbn [map]. apply NoDup_snoc; [exact Nu|].
    intros Hin. apply in_map_iff in Hin. destruct Hin as (x & Hx & Hinx).
    rewrite Forall_forall in Hu. specialize (Hu x Hinx). lia.
  - exact Nt.
  - intros t Hin. destruct (Hown t Hin) as [x [Hx Hxid]].
    exists x. split; [|exact Hxid]. cbn. apply in_or_app. left. exact Hx.
Qed.

Lemma add_task_well_formed w t :
  well_formed w -> t_id t = next_task_id (db w) -> user_exists (t_user_id t) w ->
  well_formed (add_task w t).
Proof.
  intros (Hu & Ht & Nu & Nt & Hown) Hid Hex.
  unfold well_formed, add_task. cbn [set_db db users tasks next_user_id next_task_id].
  repeat split.
  - exact Hu.
  - apply Forall_app. split.
    + eapply Forall_impl; [|exact Ht]. cbn beta. intros; lia.
    + constructor; [lia|constructor].
  - exact Nu.
  - rewrite map_app. cbn [map]. apply NoDup_snoc; [exact Nt|].
    intros Hin. apply in_map_iff in Hin. destruct Hin as (x & Hx & Hinx).
    rewrite Forall_forall in Ht. specialize (Ht x Hinx). lia.
  - intros x Hin. apply in_app_or in Hin. destruct Hin as [Hin|[<-|[]]].
    + exact (Hown x Hin).
    + exact Hex.
Qed.

(** Rows that stay after a deletion keep distinct identifiers. *)
Lemma kept_ids_distinct (keep : task_row -> bool) (rows : list task_row) :
  NoDup (map t_id rows) -> NoDup (map t_id (filter keep rows)).
Proof.
  induction rows as [|x rows IH]; simpl; intros H; [exact H|].
  inversion H as [|? ? Hx Hl]; subst.
  destruct (keep x); simpl; [|exact (IH Hl)].
  constructor; [|exact (IH Hl)].
  intros Hin. apply Hx. apply in_map_iff in Hin. destruct Hin as (y & Hy & Hiny).
  apply in_map_iff. exists y. split; [exact Hy|].
  apply filter_In in Hiny. exact (proj1 Hiny).
Qed.

Lemma without_task_well_formed w tid uid :
  well_formed w -> well_formed (without_task w tid uid).
Proof.
  intros (Hu & Ht & Nu & Nt & Hown).
  unfold well_formed, without_task.
  cbn [set_db db users tasks next_user_id next_task_id].
  repeat split.
  - exact Hu.
  - rewrite Forall_forall in *. intros x Hin. apply filter_In in Hin.
    exact (Ht x (proj1 Hin)).
  - exact Nu.
  - apply kept_ids_distinct. exact Nt.
  - intros x Hin. apply filter_In in Hin. exact (Hown x (proj1 Hin)).
Qed.

Lemma effect_well_formed a w w' : effect a w w' -> well_formed w -> well_formed w'.
Proof.
  intros [ |name email hash _|uid title _ Hex|uid tid _] H.
  - exact H.
  - apply add_user_well_formed; [exact H|reflexivity].
  - apply add_task_well_formed; [exact H|reflexivity|exact Hex].
  - apply without_task_well_formed. exact H.
Qed.

Lemma run_well_formed mysql calls :
  forall w, well_formed w -> well_formed (run mysql calls w).
Proof.
  unfold run. induction calls as [|[r req] calls IH]; intros w H; simpl; [exact H|].
  apply IH. eapply effect_well_formed; [apply handle_effect|exact H].
Qed.

Lemma insert_user_well_formed m n e h w :
  well_formed w -> well_formed (snd (insert_user m n e h w)).
Proof.
  intros H. unfold insert_user. cbv zeta.
  destruct (negb _); [exact H|]. destruct (existsb _ _); [exact H|].
  cbn [snd]. apply (add_user_well_formed w (new_user w n e h) H). reflexivity.
Qed.

Lemma insert_task_well_formed m uid title c w :
  well_formed w -> well_formed (snd (insert_task m uid title c w)).
Proof.
  intros H. unfold insert_task. cbv zeta.
  destruct (negb (has_tasks _)); [exact H|].
  destruct (existsb _ _) eqn:E; cbn [negb]; [|exact H].
  cbn [snd].
  apply (add_task_well_formed w
           {| t_id := next_task_id (db w); t_user_id := uid; t_title := title;
              t_completed := c; t_created_at := now w; t_updated_at := now w |} H).
  - reflexivity.
  - apply existsb_exists in E. destruct E as [u [Hin Hid]].
    exists u. split; [exact Hin|]. apply Z.eqb_eq in Hid. symmetry. exact Hid.
Qed.

Lemma run_seed_well_formed stmts :
  forall w, well_formed w -> well_formed (snd (run_seed stmts w)).
Proof.
  induction stmts as [|st r IH]; intros w H; simpl; [exact H|].
  destruct st as [n e h|uid title c].
  - pose proof (insert_user_well_formed false n e h w H) as K.
    destruct (insert_user false n e h w) as [[x|x] w1]; cbn [snd] in *.
    + apply IH. exact K.
    + exact K.
  - pose proof (insert_task_well_formed false uid title c w H) as K.
    destruct (insert_task false uid title c w) as [[x|x] w1]; cbn [snd] in *.
    + apply IH. exact K.
    + exact K.
Qed.

Lemma bootstrap_well_formed mysql w :
  well_formed w -> well_formed (bootstrap mysql w).
Proof.
  intros H. destruct mysql.
  - rewrite Bootstrap.bootstrap_mysql. exact H.
  - rewrite Bootstrap.bootstrap_sqlite.
    assert (K : well_formed (after_schema w)).
    { unfold after_schema. destruct (schema_file w); exact H. }
    unfold after_seed. destruct (seed_file _); [|exact K].
    apply run_seed_well_formed. exact K.
Qed.

(** What the effects keep: the tables, and the user rows in their place. *)
Lemma effect_keeps a w w' :
  effect a w w' ->
  has_users (db w') = has_users (db w) /\
  has_tasks (db w') = has_tasks (db w) /\
  exists more, users (db w') = (users (db w) ++ more)%list.
Proof.
  intros [ |name email hash _|uid title _ Hex|uid tid _];
    (split; [reflexivity|split; [reflexivity|]]).
  - exists []. rewrite app_nil_r. reflexivity.
  - eexists. reflexivity.
  - exists []. rewrite app_nil_r. reflexivity.
  - exists []. rewrite app_nil_r. reflexivity.
Qed.

Lemma run_keeps mysql calls :
  forall w,
    has_users (db (run mysql calls w)) = has_users (db w) /\
    has_tasks (db (run mysql calls w)) = has_tasks (db w) /\
    exists more, users (db (run mysql calls w)) = (users (db w) ++ more)%list.
Proof.
  unfold run. induction calls as [|[r req] calls IH]; intros w; simpl.
  - split; [reflexivity|split; [reflexivity|]].
    exists []. rewrite app_nil_r. reflexivity.
  - destruct (IH (snd (handle mysql r req w))) as (Hu & Ht & more & Hm).
    destruct (effect_keeps _ _ _ (handle_effect mysql r req w))
      as (Hu' & Ht' & more' & Hm').
    split; [congruence|]. split; [congruence|].
    exists (more' ++ more)%list. rewrite Hm, Hm', app_assoc. reflexivity.
Qed.

Lemma filter_filter_implied {A} (p q : A -> bool) (l : list A) :
  (forall x, p x = true -> q x = true) ->
  filter p (filter q l) = filter p l.
Proof.
  intros H. induction l as [|x l IH]; simpl; [reflexivity|].
  destruct (q x) eqn:Q; simpl.
  - rewrite IH. reflexivity.
  - destruct (p x) eqn:P; [|exact IH]. rewrite (H x P) in Q. discriminate.
Qed.

(** A request leaves the tasks of every user it does not act for. *)
Lemma effect_own_tasks a w w' uid :
  effect a w w' -> a <> Some uid -> own_tasks uid w' = own_tasks uid w.
Proof.
  intros [ |name email hash _|uid' title Ha Hex|uid' tid Ha] Hother;
    unfold own_tasks; cbn [add_user add_task without_task set_db db tasks];
    try reflexivity.
  - rewrite filter_app. cbn [filter new_task t_user_id].
    destruct (uid =? uid') eqn:E.
    + apply Z.eqb_eq in E. subst. contradiction.
    + apply app_nil_r.
  - apply filter_filter_implied. intros x Hx.
    unfold task_matches. cbn [sql_int opt_Z_eqb].
    apply Z.eqb_eq in Hx. rewrite <- Hx.
    destruct (uid' =? uid) eqn:E.
    + apply Z.eqb_eq in E. subst. contradiction.
    + rewrite andb_false_r. reflexivity.
Qed.

Lemma run_own_tasks mysql uid calls :
  forall w,
    Forall (fun c => acting_user (fst c) (snd c) <> Some uid) calls ->
    own_tasks uid (run mysql calls w) = own_tasks uid w.
Proof.
  unfold run. induction calls as [|[r req] calls IH]; intros w H; simpl;
    [reflexivity|].
  inversion H as [|? ? Hc Hrest]; subst. rewrite (IH _ Hrest).
  exact (effect_own_tasks _ _ _ _ (handle_effect mysql r req w) Hc).
Qed.

Lemma empty_world_well_formed : well_formed empty_world.
Proof.
  repeat split; try constructor. intros t [].
Qed.

Lemma sample_well_formed : well_formed sample.
Proof.
  unfold well_formed, sample. cbn [db users tasks next_user_id next_task_id map].
  repeat split.
  - repeat constructor.
  - repeat constructor.
  - repeat constructor; cbn; intuition discriminate.
  - repeat constructor; cbn; intuition.
  - intros t [<-|[]]. exists ann. split; [left; reflexivity|reflexivity].
Qed.

(** X3. Identifiers stay below the counters and distinct, and every task
    keeps an owner who is stored: a store that is well formed stays so
    through the bootstrap and through every sequence of requests, on
    either backend. *)
Theorem store_stays_well_formed mysql calls w :
  well_formed w -> well_formed (run mysql calls (bootstrap mysql w)).
Proof.
  intros H. apply run_well_formed. apply bootstrap_well_formed. exact H.
Qed.

Lemma store_stays_well_formed_witness :
  well_formed empty_world /\
  well_formed
    (run true [(PostRegister, register_ann); (PostTask, ann_adds_task);
               (DelTask, bob_on_ann_task)]
       (bootstrap true empty_world)).
Proof.
  split; [exact empty_world_well_formed|].
  apply (store_stays_well_formed true
           [(PostRegister, register_ann); (PostTask, ann_adds_task);
            (DelTask, bob_on_ann_task)] empty_world).
  exact empty_world_well_formed.
Defined.

(** X4. On MySQL the bootstrap resolves and leaves a store with both
    tables; the rows and the identifier counters are those it found, so
    the data of an earlier run is never dropped. *)
Theorem mysql_bootstrap_keeps_the_rows w :
  fst (bootstrapDatabase true w) = Resolved tt /\
  ready (bootstrap true w) /\
  users (db (bootstrap true w)) = users (db w) /\
  tasks (db (bootstrap true w)) = tasks (db w) /\
  next_user_id (db (bootstrap true w)) = next_user_id (db w) /\
  next_task_id (db (bootstrap true w)) = next_task_id (db w).
Proof.
  split.
  - unfold bootstrapDatabase, Db.bootstrapDatabase, bind.
    cbn [mysql_execute ref_driver]. unfold ref_mysql_execute, exec.
    rewrite Bootstrap.parse_create_users.
    cbn [uses_returning run_stmt create_table]. cbv beta iota zeta.
    rewrite Bootstrap.parse_create_tasks.
    cbn [uses_returning run_stmt create_table]. cbv beta iota zeta.
    reflexivity.
  - rewrite Bootstrap.bootstrap_mysql. repeat split.
Qed.

End Store.

(** ** The task endpoints on the store *)

Module Tasks.

Import App Ref RefFacts RefFacts2 JsFacts Spec Behaviour Effects Store.

Lemma mapTask_row t : mapTask (task_obj t) = Resolved (task_json t).
Proof. destruct t as [i o s [|] c m]; reflexivity. Qed.

Lemma map_mapTask_rows l :
  map_mapTask (map task_obj l) = Resolved (map task_json l).
Proof.
  induction l as [|t l IH]; cbn [map map_mapTask]; [reflexivity|].
  rewrite mapTask_row, IH. reflexivity.
Qed.

Lemma insert_desc_perm key t l : Permutation (insert_desc key t l) (t :: l).
Proof.
  induction l as [|x l IH]; simpl; [apply Permutation_refl|].
  destruct (key x <=? key t); [apply Permutation_refl|].
  eapply Permutation_trans; [apply perm_skip; exact IH|apply perm_swap].
Qed.

Lemma sort_desc_perm key l : Permutation (sort_desc key l) l.
Proof.
  unfold sort_desc. induction l as [|x l IH]; simpl; [constructor|].
  eapply Permutation_trans; [apply insert_desc_perm|].
  apply perm_skip. exact IH.
Qed.

Lemma insert_desc_sorted key t l :
  Sorted (fun a b => key b <= key a) l ->
  Sorted (fun a b => key b <= key a) (insert_desc key t l).
Proof.
  induction l as [|x l IH]; simpl; intros H.
  - constructor; constructor.
  - destruct (key x <=? key t) eqn:E.
    + constructor; [exact H|]. constructor. apply Z.leb_le. exact E.
    + apply Z.leb_gt in E. inversion H as [|? ? Hl Hx]; subst.
      constructor; [exact (IH Hl)|].
      destruct l as [|y l]; simpl.
      * constructor. lia.
      * destruct (key y <=? key t); constructor; [lia|].
        inversion Hx; subst. assumption.
Qed.

Lemma sort_desc_sorted key l : Sorted (fun a b => key b <= key a) (sort_desc key l).
Proof.
  unfold sort_desc. induction l as [|x l IH]; simpl; [constructor|].
  apply insert_desc_sorted. exact IH.
Qed.

Lemma listed_newest_first uid w : StronglySorted newer_first (listed_tasks uid w).
Proof.
  apply Sorted_StronglySorted.
  - intros a b c Hab Hbc. unfold newer_first in *. lia.
  - apply (sort_desc_sorted t_created_at).
Qed.

(** The newest identifier comes first under [ORDER BY id DESC]. *)
Lemma sort_desc_newest key t l :
  Forall (fun x => key x < key t) l ->
  sort_desc key (l ++ [t]) = t :: sort_desc key l.
Proof.
  unfold sort_desc. induction l as [|x l IH]; intros H; simpl; [reflexivity|].
  inversion H as [|? ? Hx Hl]; subst. rewrite (IH Hl). simpl.
  destruct (key t <=? key x) eqn:E; [|reflexivity].
  apply Z.leb_le in E. lia.
Qed.

Lemma own_tasks_add_task uid w t :
  own_tasks uid (add_task w t) =
  (own_tasks uid w ++ (if uid =? t_user_id t then [t] else []))%list.
Proof.
  unfold own_tasks, add_task. cbn [set_db db tasks]. rewrite filter_app.
  reflexivity.
Qed.

Lemma ensureUser_missing mysql s uid w :
  has_users (db w) = true -> Js.parseInt s = Some uid -> ~ user_exists uid w ->
  ensureUser mysql ref_driver s w = (Rejected (http_error "User not found" 404), w).
Proof.
  intros Hu Hp Hno. unfold ensureUser. rewrite Hp. unfold bind.
  change (Db.query mysql ref_driver) with (query mysql).
  rewrite query_user_by_id, Hu. cbv beta iota.
  destruct (users_by_id (VNum uid) (db w)) as [|u l] eqn:F; [reflexivity|].
  exfalso. apply Hno. exists u.
  assert (Hf : In u (users_by_id (VNum uid) (db w))) by (rewrite F; left; reflexivity).
  apply filter_In in Hf. destruct Hf as [Hin Hid]. split; [exact Hin|].
  cbn in Hid. apply Z.eqb_eq in Hid. symmetry. exact Hid.
Qed.

Lemma listTasks_answers mysql req w uid :
  ready w -> Js.parseInt (userId req) = Some uid -> user_exists uid w ->
  listTasks mysql req w =
  (json 200 (VArr (map task_json (listed_tasks uid w))), w).
Proof.
  intros Hr Hp Hex.
  destruct (ensureUser_found mysql _ _ _ Hr Hp Hex) as [u [He Hid]].
  destruct Hr as [_ Ht].
  unfold listTasks, App.listTasks, endpoint, bind, lift, ret. rewrite He.
  cbv beta iota.
  change (js_get (user_obj u) "id") with (Resolved (A:=jsval) (VNum (u_id u))).
  cbv beta iota. change (Db.query mysql ref_driver) with (query mysql).
  rewrite query_tasks_of_user, Ht, Hid. cbv beta iota.
  cbn [rows_result Db.rows rows_map_mapTask]. rewrite map_mapTask_rows.
  reflexivity.
Qed.

Lemma query_insert_task_ok uid title w :
  has_tasks (db w) = true -> user_exists uid w ->
  query true SQL_INSERT_TASK [VNum uid; VStr title] w =
  (Resolved {| Db.rows := result_header 1 (next_task_id (db w));
               Db.rowCount := VUndef; Db.q_lastID := VUndef |},
   add_task w (new_task w uid title)).
Proof.
  intros Ht Hex. rewrite query_insert_task_mysql. unfold insert_task. cbv zeta.
  unfold add_task, new_task. rewrite Ht, (user_exists_found _ _ Hex). reflexivity.
Qed.

Lemma createTask_mysql_answers req w uid t :
  ready w -> well_formed w ->
  Js.parseInt (userId req) = Some uid -> user_exists uid w ->
  js_get (req_body req) "title" = Resolved (VStr t) ->
  Js.is_empty (Js.trim t) = false ->
  createTask true req w =
  (json 201 (task_json (new_task w uid (Js.trim t))),
   add_task w (new_task w uid (Js.trim t))).
Proof.
  intros Hr Hwf Hp Hex Htitle Hne.
  destruct (ensureUser_found true _ _ _ Hr Hp Hex) as [u [He Hid]].
  destruct Hr as [_ Ht]. destruct Hwf as (_ & Hbelow & _).
  unfold createTask, App.createTask, endpoint, bind, lift, ret, try_catch.
  rewrite He. cbv beta iota. rewrite Htitle. cbv beta iota.
  rewrite js_or_string_trim. cbv beta iota. rewrite Hne.
  change (js_get (user_obj u) "id") with (Resolved (A:=jsval) (VNum (u_id u))).
  cbv beta iota. change (Db.query true ref_driver) with (query true).
  rewrite query_insert_task_returning. unfold insert_returning_error.
  change (code_is (mysql_parse_error _) "ER_PARSE_ERROR") with true. cbv beta iota.
  rewrite Hid, (query_insert_task_ok _ _ _ Ht Hex). cbv beta iota.
  rewrite query_last_task_of_user.
  change (has_tasks (db (add_task w (new_task w uid (Js.trim t)))))
    with (has_tasks (db w)).
  rewrite Ht. cbv beta iota.
  rewrite own_tasks_add_task. cbn [new_task t_user_id]. rewrite Z.eqb_refl.
  rewrite sort_desc_newest.
  - cbn [firstn map rows_result Db.rows js_first]. cbv beta iota.
    rewrite mapTask_row. reflexivity.
  - unfold own_tasks. rewrite Forall_forall in *. intros x Hx.
    apply filter_In in Hx. cbn [t_id]. exact (Hbelow x (proj1 Hx)).
Qed.

Lemma blank_field_trims_to_empty src v :
  blank_field v = true ->
  exists s, js_trim src (js_or v (VStr EmptyString)) = Resolved s /\
            Js.is_empty s = true.
Proof.
  destruct v as [| |b|z|s|l|o]; cbn [blank_field truthy]; intros H;
    try (exists EmptyString; split; reflexivity);
    try discriminate.
  - destruct b; [discriminate|]. exists EmptyString. split; reflexivity.
  - unfold js_or. cbn [truthy]. destruct (z =? 0); [|discriminate].
    exists EmptyString. split; reflexivity.
  - exists (Js.trim s). rewrite js_or_string_trim. split; [reflexivity|exact H].
Qed.

(** The DELETE handler on each backend, for a path user who exists. *)
Lemma deleteTask_answers mysql req w uid :
  ready w -> Js.parseInt (userId req) = Some uid -> user_exists uid w ->
  deleteTask mysql req w =
  (if mysql then message 404 "Task not found"
   else match filter (task_matches (db w) (VStr (taskId req)) (VNum uid)) (tasks (db w)) with
        | [] => message 404 "Task not found"
        | _ => {| status := 204; body := None |}
        end,
   without_task w (taskId req) uid).
Proof.
  intros Hr Hp Hex.
  destruct (ensureUser_found mysql _ _ _ Hr Hp Hex) as [u [He Hid]].
  destruct Hr as [_ Ht].
  unfold deleteTask, App.deleteTask, endpoint, bind, lift, ret. rewrite He.
  cbv beta iota.
  change (js_get (user_obj u) "id") with (Resolved (A:=jsval) (VNum (u_id u))).
  cbv beta iota. change (Db.query mysql ref_driver) with (query mysql).
  rewrite Hid, query_delete_task, Ht. cbv beta iota.
  destruct mysql; [reflexivity|].
  cbn [Db.rowCount truthy].
  destruct (filter _ (tasks (db w))); reflexivity.
Qed.

Lemma without_task_none w tid uid :
  filter (task_matches (db (without_task w tid uid)) (VStr tid) (VNum uid))
    (tasks (db (without_task w tid uid))) = [].
Proof.
  change (task_matches (db (without_task w tid uid)))
    with (task_matches (db w)).
  unfold without_task. cbn [set_db db tasks].
  induction (tasks (db w)) as [|x l IH]; simpl; [reflexivity|].
  destruct (task_matches (db w) (VStr tid) (VNum uid) x) eqn:E; simpl; [exact IH|].
  rewrite E. exact IH.
Qed.

Lemma without_task_twice w tid uid :
  without_task (without_task w tid uid) tid uid = without_task w tid uid.
Proof.
  unfold without_task. cbn [set_db db has_users has_tasks users tasks next_user_id
                             next_task_id now schema_file seed_file].
  rewrite (filter_filter_implied _ _ _ (fun x H => H)). reflexivity.
Qed.

Lemma sample_ready : ready sample.
Proof. split; reflexivity. Qed.

Lemma ann_exists : user_exists 1 sample.
Proof. exists ann. split; [left; reflexivity|reflexivity]. Qed.

(** X5. On a bootstrapped store, the listing of an existing user answers
    200 with exactly the tasks of that user, each one once, newest first,
    with [completed] as a boolean; the store is left as it was. *)
Theorem list_answers_own_tasks_newest_first mysql req w uid :
  ready w -> Js.parseInt (userId req) = Some uid -> user_exists uid w ->
  listTasks mysql req w =
    (json 200 (VArr (map task_json (listed_tasks uid w))), w) /\
  Permutation (listed_tasks uid w) (own_tasks uid w) /\
  StronglySorted newer_first (listed_tasks uid w).
Proof.
  intros Hr Hp Hex. split; [exact (listTasks_answers mysql req w uid Hr Hp Hex)|].
  split; [apply sort_desc_perm|apply listed_newest_first].
Qed.

Lemma list_answers_own_tasks_newest_first_witness :
  ready sample /\ Js.parseInt "1" = Some 1 /\ user_exists 1 sample /\
  listTasks false (request_of "1" EmptyString []) sample =
    (json 200 (VArr [task_json write_spec]), sample).
Proof.
  split; [exact sample_ready|]. split; [reflexivity|]. split; [exact ann_exists|].
  exact (proj1 (list_answers_own_tasks_newest_first false
                  (request_of "1" EmptyString []) sample 1
                  sample_ready eq_refl ann_exists)).
Defined.

(** X6. A task endpoint whose path user id is a number that no stored
    user has answers 404 'User not found' and leaves the store as it was:
    list, create, update and delete alike, on either backend. *)
Theorem unknown_user_is_404 mysql req w uid :
  has_users (db w) = true ->
  Js.parseInt (userId req) = Some uid ->
  ~ user_exists uid w ->
  listTasks mysql req w = (message 404 "User not found", w) /\
  createTask mysql req w = (message 404 "User not found", w) /\
  updateTask mysql req w = (message 404 "User not found", w) /\
  deleteTask mysql req w = (message 404 "User not found", w).
Proof.
  intros Hu Hp Hno.
  pose proof (ensureUser_missing mysql _ _ _ Hu Hp Hno) as He.
  unfold listTasks, createTask, updateTask, deleteTask,
    App.listTasks, App.createTask, App.updateTask, App.deleteTask, endpoint, bind.
  rewrite He. repeat split; reflexivity.
Qed.

Lemma unknown_user_is_404_witness :
  has_users (db sample) = true /\ Js.parseInt "7" = Some 7 /\
  createTask true (request_of "7" EmptyString [("title", VStr "x")]) sample =
    (message 404 "User not found", sample).
Proof.
  split; [reflexivity|]. split; [reflexivity|].
  refine (proj1 (proj2 (unknown_user_is_404 true
            (request_of "7" EmptyString [("title", VStr "x")]) sample 7
            eq_refl eq_refl _))).
  intros [u [[<-|[<-|[]]] Hid]]; discriminate Hid.
Defined.

(** X7. On MySQL, a task creation for an existing user with a title that
    is a printable text, not blank and, once trimmed, within the 65535
    characters of the TEXT column, answers 201 with the new task: the
    next task identifier, the path user as owner, the title trimmed, not
    completed. The store gains that row and nothing else changes. *)
Theorem create_adds_the_task req w uid t :
  ready w -> well_formed w ->
  Js.parseInt (userId req) = Some uid -> user_exists uid w ->
  js_get (req_body req) "title" = Resolved (VStr t) ->
  printable t = true ->
  Js.is_empty (Js.trim t) = false ->
  Z.of_nat (String.length (Js.trim t)) <= 65535 ->
  createTask true req w =
  (json 201 (task_json (new_task w uid (Js.trim t))),
   add_task w (new_task w uid (Js.trim t))).
Proof.
  intros Hr Hwf Hp Hex Ht _ Hne _.
  exact (createTask_mysql_answers req w uid t Hr Hwf Hp Hex Ht Hne).
Qed.

Lemma create_adds_the_task_witness :
  ready sample /\ well_formed sample /\ user_exists 1 sample /\
  createTask true ann_adds_task sample =
  (json 201 (task_json (new_task sample 1 "Write spec")),
   add_task sample (new_task sample 1 "Write spec")).
Proof.
  split; [exact sample_ready|]. split; [exact sample_well_formed|].
  split; [exact ann_exists|].
  apply (create_adds_the_task ann_adds_task sample 1 " Write spec "
           sample_ready sample_well_formed eq_refl ann_exists eq_refl eq_refl
           eq_refl).
  vm_compute. discriminate.
Defined.

(** X8. A task creation for an existing user whose title is absent,
    falsy or made of white space only answers 400 'Task title is
    required' and stores nothing, on either backend. *)
Theorem create_requires_title mysql req w uid v :
  ready w -> Js.parseInt (userId req) = Some uid -> user_exists uid w ->
  js_get (req_body req) "title" = Resolved v ->
  blank_field v = true ->
  createTask mysql req w = (message 400 "Task title is required", w).
Proof.
  intros Hr Hp Hex Hv Hb.
  destruct (ensureUser_found mysql _ _ _ Hr Hp Hex) as [u [He Hid]].
  destruct (blank_field_trims_to_empty "(req.body.title || '')" v Hb) as (s & Hs & Hempty).
  unfold createTask, App.createTask, endpoint, bind, lift, ret.
  rewrite He. cbv beta iota. rewrite Hv. cbv beta iota.
  rewrite Hs. cbv beta iota. rewrite Hempty. reflexivity.
Qed.

Lemma create_requires_title_witness :
  ready sample /\ user_exists 1 sample /\
  createTask true (request_of "1" EmptyString [("title", VStr "   ")]) sample =
    (message 400 "Task title is required", sample) /\
  createTask false (request_of "1" EmptyString []) sample =
    (message 400 "Task title is required", sample).
Proof.
  split; [exact sample_ready|]. split; [exact ann_exists|]. split.
  - exact (create_requires_title true
             (request_of "1" EmptyString [("title", VStr "   ")]) sample 1
             (VStr "   ") sample_ready eq_refl ann_exists eq_refl eq_refl).
  - exact (create_requires_title false (request_of "1" EmptyString []) sample 1
             VUndef sample_ready eq_refl ann_exists eq_refl eq_refl).
Defined.

(** X9. What is created is listed: on MySQL, after a task creation with a
    title that is a printable text, not blank and, once trimmed, within
    the 65535 characters of the TEXT column, the listing of the same user
    answers the new task together with the tasks listed before, each once
    and newest first. *)
Theorem created_task_is_listed req lreq w uid t :
  ready w -> well_formed w ->
  Js.parseInt (userId req) = Some uid -> user_exists uid w ->
  js_get (req_body req) "title" = Resolved (VStr t) ->
  printable t = true ->
  Js.is_empty (Js.trim t) = false ->
  Z.of_nat (String.length (Js.trim t)) <= 65535 ->
  Js.parseInt (userId lreq) = Some uid ->
  exists listed,
    fst (listTasks true lreq (snd (createTask true req w))) =
      json 200 (VArr (map task_json listed)) /\
    Permutation listed (new_task w uid (Js.trim t) :: listed_tasks uid w) /\
    StronglySorted newer_first listed.
Proof.
  intros Hr Hwf Hp Hex Ht _ Hne _ Hlp.
  rewrite (createTask_mysql_answers req w uid t Hr Hwf Hp Hex Ht Hne). cbn [snd].
  set (n := new_task w uid (Js.trim t)).
  assert (Hr' : ready (add_task w n)) by exact Hr.
  assert (Hex' : user_exists uid (add_task w n)).
  { destruct Hex as [u Hu]. exists u. exact Hu. }
  rewrite (listTasks_answers true lreq _ uid Hr' Hlp Hex'). cbn [fst].
  exists (listed_tasks uid (add_task w n)).
  split; [reflexivity|]. split; [|apply listed_newest_first].
  unfold listed_tasks. rewrite own_tasks_add_task.
  subst n. cbn [new_task t_user_id]. rewrite Z.eqb_refl.
  eapply Permutation_trans; [apply sort_desc_perm|].
  eapply Permutation_trans; [apply Permutation_app_comm|]. cbn [app].
  apply perm_skip. apply Permutation_sym. apply sort_desc_perm.
Qed.

Lemma created_task_is_listed_witness :
  ready sample /\ well_formed sample /\ user_exists 1 sample /\
  exists listed,
    fst (listTasks true (request_of "1" EmptyString [])
           (snd (createTask true ann_adds_task sample))) =
      json 200 (VArr (map task_json listed)) /\
    Permutation listed (new_task sample 1 "Write spec" :: listed_tasks 1 sample) /\
    StronglySorted newer_first listed.
Proof.
  split; [exact sample_ready|]. split; [exact sample_well_formed|].
  split; [exact ann_exists|].
  apply (created_task_is_listed ann_adds_task (request_of "1" EmptyString [])
           sample 1 " Write spec "
           sample_ready sample_well_formed eq_refl ann_exists eq_refl eq_refl
           eq_refl);
    first [reflexivity | vm_compute; discriminate].
Defined.

(** X10. Requests that act for other users, and registrations, logins and
    health checks, leave the listing of a user as it is: after any
    sequence of them the user is answered the same list. *)
Theorem requests_of_others_leave_my_list mysql calls w lreq uid :
  ready w -> user_exists uid w -> Js.parseInt (userId lreq) = Some uid ->
  Forall (fun c => acting_user (fst c) (snd c) <> Some uid) calls ->
  fst (listTasks mysql lreq (run mysql calls w)) = fst (listTasks mysql lreq w).
Proof.
  intros Hr Hex Hp Hothers.
  destruct (run_keeps mysql calls w) as (Hu & Ht & more & Hm).
  assert (Hr' : ready (run mysql calls w)).
  { destruct Hr as [R1 R2]. split; congruence. }
  assert (Hex' : user_exists uid (run mysql calls w)).
  { exact (user_exists_more uid w _ more Hm Hex). }
  rewrite (listTasks_answers mysql lreq _ uid Hr' Hp Hex').
  rewrite (listTasks_answers mysql lreq _ uid Hr Hp Hex).
  cbn [fst]. unfold listed_tasks.
  rewrite (run_own_tasks mysql uid calls w Hothers). reflexivity.
Qed.

Lemma requests_of_others_leave_my_list_witness :
  ready sample /\ user_exists 1 sample /\
  fst (listTasks true (request_of "1" EmptyString [])
         (run true [(DelTask, bob_on_ann_task);
                    (PostTask, request_of "2" EmptyString [("title", VStr "Shop")]);
                    (PostRegister, register_ann_again)] sample)) =
  fst (listTasks true (request_of "1" EmptyString []) sample).
Proof.
  split; [exact sample_ready|]. split; [exact ann_exists|].
  apply (requests_of_others_leave_my_list true
           [(DelTask, bob_on_ann_task);
            (PostTask, request_of "2" EmptyString [("title", VStr "Shop")]);
            (PostRegister, register_ann_again)]
           sample (request_of "1" EmptyString []) 1
           sample_ready ann_exists eq_refl).
  repeat (constructor; [vm_compute; discriminate|]). constructor.
Defined.

(** X11. On SQLite, deleting a task of the path user answers 204 with no
    body and removes the rows the path names; every other task stays.
    Afterwards the user owns no task with that identifier, and the same
    request again answers 404 'Task not found'. *)
Theorem delete_removes_the_task req w uid t :
  ready w -> Js.parseInt (userId req) = Some uid -> user_exists uid w ->
  owned_task (taskId req) uid t w ->
  let w' := without_task w (taskId req) uid in
  deleteTask false req w = ({| status := 204; body := None |}, w') /\
  no_owned_task (taskId req) uid w' /\
  (forall x, In x (tasks (db w)) ->
             task_matches (db w) (VStr (taskId req)) (VNum uid) x = false ->
             In x (tasks (db w'))) /\
  deleteTask false req w' = (message 404 "Task not found", w').
Proof.
  intros Hr Hp Hex Hown w'.
  destruct (Update.owned_task_found _ _ _ _ Hown) as (t' & rest & Hf).
  assert (Hr' : ready w') by exact Hr.
  assert (Hex' : user_exists uid w').
  { destruct Hex as [u Hu]. exists u. exact Hu. }
  split; [|split; [|split]].
  - rewrite (deleteTask_answers false req w uid Hr Hp Hex), Hf. reflexivity.
  - intros x Hin Hid Howner.
    change (sql_int (db w') (VStr (taskId req)))
      with (sql_int (db w) (VStr (taskId req))) in Hid.
    unfold w', without_task in Hin. cbn [set_db db tasks] in Hin.
    apply filter_In in Hin. destruct Hin as [_ Hneg].
    unfold task_matches in Hneg. rewrite Hid, Howner in Hneg.
    cbn [opt_Z_eqb sql_int] in Hneg. rewrite !Z.eqb_refl in Hneg. discriminate.
  - intros x Hin Hno. unfold w', without_task. cbn [set_db db tasks].
    apply filter_In. split; [exact Hin|]. rewrite Hno. reflexivity.
  - rewrite (deleteTask_answers false req w' uid Hr' Hp Hex').
    unfold w'. rewrite without_task_none, without_task_twice. reflexivity.
Qed.

Lemma delete_removes_the_task_witness :
  ready sample /\ user_exists 1 sample /\ owned_task "1" 1 write_spec sample /\
  deleteTask false (request_of "1" "1" []) sample =
    ({| status := 204; body := None |}, without_task sample "1" 1) /\
  tasks (db (without_task sample "1" 1)) = [].
Proof.
  split; [exact sample_ready|]. split; [exact ann_exists|].
  assert (Hown : owned_task "1" 1 write_spec sample).
  { split; [left; reflexivity|]. split; reflexivity. }
  split; [exact Hown|]. split; [|reflexivity].
  exact (proj1 (delete_removes_the_task (request_of "1" "1" []) sample 1 write_spec
                  sample_ready eq_refl ann_exists Hown)).
Defined.

(** X12. On MySQL, a delete for an existing path user always answers 404
    'Task not found', also when it removed rows: the rows the path names
    are gone from the store all the same. *)
Theorem mysql_delete_answers_404_and_deletes req w uid :
  ready w -> Js.parseInt (userId req) = Some uid -> user_exists uid w ->
  deleteTask true req w =
    (message 404 "Task not found", without_task w (taskId req) uid) /\
  no_owned_task (taskId req) uid (without_task w (taskId req) uid).
Proof.
  intros Hr Hp Hex. split.
  - exact (deleteTask_answers true req w uid Hr Hp Hex).
  - intros x Hin Hid Howner.
    change (sql_int (db (without_task w (taskId req) uid)) (VStr (taskId req)))
      with (sql_int (db w) (VStr (taskId req))) in Hid.
    unfold without_task in Hin. cbn [set_db db tasks] in Hin.
    apply filter_In in Hin. destruct Hin as [_ Hneg].
    unfold task_matches in Hneg. rewrite Hid, Howner in Hneg.
    cbn [opt_Z_eqb sql_int] in Hneg. rewrite !Z.eqb_refl in Hneg. discriminate.
Qed.

Lemma mysql_delete_answers_404_and_deletes_witness :
  ready sample /\ user_exists 1 sample /\
  deleteTask true (request_of "1" "1" []) sample =
    (message 404 "Task not found", without_task sample "1" 1) /\
  In write_spec (tasks (db sample)) /\
  tasks (db (without_task sample "1" 1)) = [].
Proof.
  split; [exact sample_ready|]. split; [exact ann_exists|]. split.
  - exact (proj1 (mysql_delete_answers_404_and_deletes (request_of "1" "1" [])
                    sample 1 sample_ready eq_refl ann_exists)).
  - split; [left; reflexivity|reflexivity].
Defined.

(** X13. An update of an owned task whose title is given but empty once
    converted to a string and trimmed (white space, the empty string,
    null, an empty array) answers 400 'Task title cannot be empty' and
    leaves the store as it was, on either backend. *)
Theorem update_rejects_empty_title mysql req w uid t v :
  ready w -> Js.parseInt (userId req) = Some uid -> user_exists uid w ->
  owned_task (taskId req) uid t w ->
  js_get (req_body req) "title" = Resolved v ->
  v <> VUndef ->
  Js.is_empty (Js.trim (js_String (js_nullish v (VStr EmptyString)))) = true ->
  updateTask mysql req w = (message 400 "Task title cannot be empty", w).
Proof.
  intros Hr Hp Hex Hown Hv Hdef Hempty.
  destruct (ensureUser_found mysql _ _ _ Hr Hp Hex) as [u [He Hid]].
  destruct (Update.owned_task_found _ _ _ _ Hown) as (t' & rest & Hf).
  destruct Hr as [_ Ht].
  unfold updateTask, App.updateTask, endpoint, bind, lift, ret.
  rewrite He. cbv beta iota.
  change (js_get (user_obj u) "id") with (Resolved (A:=jsval) (VNum (u_id u))).
  cbv beta iota. change (Db.query mysql ref_driver) with (query mysql).
  rewrite Hid, query_task_of_user, Ht. cbv beta iota. rewrite Hf.
  cbn [map rows_result Db.rows js_first_opt js_first].
  change (truthy (task_obj t')) with true. cbn [negb]. cbv beta iota.
  rewrite Hv. cbv beta iota.
  destruct v; try (exfalso; apply Hdef; reflexivity);
    cbv beta iota; cbn [truthy]; rewrite Hempty; reflexivity.
Qed.

Lemma update_rejects_empty_title_witness :
  ready sample /\ user_exists 1 sample /\ owned_task "1" 1 write_spec sample /\
  updateTask true (request_of "1" "1" [("title", VStr "  ")]) sample =
    (message 400 "Task title cannot be empty", sample) /\
  updateTask false (request_of "1" "1" [("title", VNull)]) sample =
    (message 400 "Task title cannot be empty", sample).
Proof.
  split; [exact sample_ready|]. split; [exact ann_exists|].
  assert (Hown : owned_task "1" 1 write_spec sample).
  { split; [left; reflexivity|]. split; reflexivity. }
  split; [exact Hown|]. split.
  - apply (update_rejects_empty_title true
             (request_of "1" "1" [("title", VStr "  ")]) sample 1 write_spec
             (VStr "  ") sample_ready eq_refl ann_exists Hown eq_refl);
      [discriminate|reflexivity].
  - apply (update_rejects_empty_title false
             (request_of "1" "1" [("title", VNull)]) sample 1 write_spec
             VNull sample_ready eq_refl ann_exists Hown eq_refl);
      [discriminate|reflexivity].
Defined.

End Tasks.

(** ** Registration and login on the store *)

Module Auth.

Import App Ref RefFacts RefFacts2 JsFacts Registration Spec Behaviour Effects Store.

Lemma long_password p :
  6 <= Z.of_nat (String.length p) ->
  truthy (VStr p) = true /\ js_length_lt (VStr p) 6 = false.
Proof.
  intros H. split.
  - destruct p; [cbn in H; lia|reflexivity].
  - unfold js_length_lt, js_length_opt. cbn [js_get String.eqb Ascii.eqb Bool.eqb].
    cbv beta iota. apply Z.ltb_ge. exact H.
Qed.

(** The login handler when the email of the request is stored. *)
Lemma login_of_stored_email mysql req w e p u l :
  has_users (db w) = true ->
  js_get (req_body req) "email" = Resolved (VStr e) ->
  js_get (req_body req) "password" = Resolved (VStr p) ->
  Js.is_empty (normalize_email e) = false ->
  Js.is_empty p = false ->
  users_by_email (VStr (normalize_email e)) (db w) = u :: l ->
  login mysql req w =
  (if String.eqb (digest p) (u_password_hash u)
   then json 200 (user_body u) else message 401 "Invalid credentials", w).
Proof.
  intros Hu He Hp Ne Np Hfound. unfold normalize_email in *.
  unfold login, App.login, endpoint, bind, lift, ret. cbv zeta.
  rewrite He. cbv beta iota. rewrite js_or_string_trim. cbv beta iota.
  assert (Tp : truthy (VStr p) = true) by (cbn [truthy]; rewrite Np; reflexivity).
  rewrite Hp. cbv beta iota. rewrite Ne, (js_or_truthy _ Tp), Tp.
  cbn [negb orb]. cbv beta iota.
  change (Db.query mysql ref_driver) with (query mysql).
  rewrite query_login, Hu. cbv beta iota. rewrite Hfound.
  cbn [map rows_result Db.rows js_first_opt js_first].
  change (truthy (user_login_obj u)) with true. cbn [negb]. cbv beta iota.
  change (js_get (user_login_obj u) "password_hash")
    with (Resolved (A:=jsval) (VStr (u_password_hash u))).
  cbv beta iota.
  unfold comparePassword. cbn [bcrypt_compare ref_driver ref_bcrypt_compare].
  unfold ret. cbv beta iota.
  destruct (String.eqb (digest p) (u_password_hash u)); reflexivity.
Qed.

(** The registration handler on MySQL when the fields pass the checks and
    the email is new. *)
Lemma register_mysql_answers req w n e p :
  has_users (db w) = true ->
  js_get (req_body req) "name" = Resolved (VStr n) ->
  js_get (req_body req) "email" = Resolved (VStr e) ->
  js_get (req_body req) "password" = Resolved (VStr p) ->
  Js.is_empty (Js.trim n) = false ->
  Js.is_empty (normalize_email e) = false ->
  6 <= Z.of_nat (String.length p) ->
  users_by_email (VStr (normalize_email e)) (db w) = [] ->
  register true req w =
  (json 201 (user_body (new_user w (Js.trim n) (normalize_email e) (digest p))),
   add_user w (new_user w (Js.trim n) (normalize_email e) (digest p))).
Proof.
  intros Hu Hn He Hp Nn Ne Lp Hnone. unfold normalize_email in *.
  destruct (long_password p Lp) as [Tp Lp'].
  unfold register, App.register, endpoint, bind, lift, ret, try_catch. cbv zeta.
  rewrite Hn. cbv beta iota. rewrite js_or_string_trim. cbv beta iota.
  rewrite He. cbv beta iota. rewrite js_or_string_trim. cbv beta iota.
  rewrite Hp. cbv beta iota. rewrite (js_or_truthy _ Tp), Nn, Ne, Tp, Lp'.
  cbn [orb negb]. cbv beta iota.
  change (Db.query true ref_driver) with (query true).
  rewrite query_user_id_by_email, Hu. cbv beta iota. rewrite rows_nonempty, Hnone.
  cbn [map]. cbv beta iota.
  unfold hashPassword. cbn [bcrypt_hash ref_driver ref_bcrypt_hash].
  unfold ret. cbv beta iota.
  rewrite query_insert_user_returning. unfold insert_returning_error.
  change (code_is (mysql_parse_error _) "ER_PARSE_ERROR") with true. cbv beta iota.
  rewrite query_insert_user_mysql. unfold insert_user. cbv zeta.
  rewrite (users_by_email_none _ _ Hnone).
  unfold add_user, new_user. rewrite Hu. cbn [negb]. cbv beta iota.
  rewrite query_user_by_email.
  cbn [set_db db has_users users]. unfold users_by_email at 1. cbn [users].
  erewrite users_by_email_app; [ | exact Hnone | reflexivity ].
  reflexivity.
Qed.

(** The answer of a login depends on the store only through the users
    table and the first row found under the email. *)
Lemma login_depends mysql req w w' more :
  has_users (db w') = has_users (db w) ->
  users (db w') = (users (db w) ++ more)%list ->
  (forall em, request_email req = Some em ->
              users_by_email (VStr em) (db w) <> []) ->
  fst (login mysql req w') = fst (login mysql req w).
Proof.
  intros Hf Hus Hne.
  unfold login, App.login, endpoint, bind, lift, ret, throw. cbv zeta.
  unfold request_email in Hne.
  destruct (js_get (req_body req) "email") as [be|e]; [|reflexivity].
  cbv beta iota.
  destruct (js_trim "(req.body.email || '')" (js_or be (VStr EmptyString)))
    as [email|e] eqn:Ht; [|reflexivity].
  rewrite (js_trim_src _ EmptyString _ _ Ht) in Hne.
  cbv beta iota.
  destruct (js_get (req_body req) "password") as [bp|e]; [|reflexivity].
  cbv beta iota.
  destruct (_ || _); [reflexivity|].
  change (Db.query mysql ref_driver) with (query mysql).
  rewrite !query_login, Hf. destruct (has_users (db w)); [|reflexivity].
  cbv beta iota.
  specialize (Hne _ eq_refl).
  unfold users_by_email in *. rewrite Hus, filter_app.
  destruct (filter _ (users (db w))) as [|x l]; [contradiction Hne; reflexivity|].
  cbn [app map rows_result Db.rows js_first_opt js_first].
  destruct (negb _); [reflexivity|].
  destruct (js_get _ "password_hash") as [h|e]; [|reflexivity]. cbv beta iota.
  unfold comparePassword. cbn [bcrypt_compare ref_driver]. unfold ref_bcrypt_compare.
  destruct (js_or bp _); try reflexivity.
  destruct h; try reflexivity.
  unfold ret. cbv beta iota.
  destruct (negb _); [reflexivity|].
  destruct (sanitizeUser _); reflexivity.
Qed.

(** X14. On MySQL, on a store whose emails are as the handler writes
    them, a registration whose name, email and password are printable
    texts, whose name and email are not blank and, once trimmed, within
    the 255 characters of their columns, whose password has six
    characters or more and whose email, trimmed and in lower case, is not
    stored yet, answers 201 with the new user: the next user identifier,
    the name trimmed, the email trimmed and in lower case. The store
    gains that row, with the digest of the password and not the
    password. *)
Theorem register_creates_the_user req w n e p :
  has_users (db w) = true ->
  emails_as_written w ->
  js_get (req_body req) "name" = Resolved (VStr n) ->
  js_get (req_body req) "email" = Resolved (VStr e) ->
  js_get (req_body req) "password" = Resolved (VStr p) ->
  printable n = true -> printable e = true -> printable p = true ->
  Js.is_empty (Js.trim n) = false ->
  Js.is_empty (normalize_email e) = false ->
  Z.of_nat (String.length (Js.trim n)) <= 255 ->
  Z.of_nat (String.length (normalize_email e)) <= 255 ->
  6 <= Z.of_nat (String.length p) ->
  users_by_email (VStr (normalize_email e)) (db w) = [] ->
  register true req w =
  (json 201 (user_body (new_user w (Js.trim n) (normalize_email e) (digest p))),
   add_user w (new_user w (Js.trim n) (normalize_email e) (digest p))).
Proof.
  intros Hu _ Hn He Hp _ _ _ Nn Ne _ _ Lp Hnone.
  exact (register_mysql_answers req w n e p Hu Hn He Hp Nn Ne Lp Hnone).
Qed.

Lemma register_creates_the_user_witness :
  register true register_ann_again (with_tables blank) =
  (json 201 (VObj [("user", VObj [("id", VNum 1); ("name", VStr "Ann B");
                                  ("email", VStr "ann@x.com")])]),
   add_user (with_tables blank)
     (new_user (with_tables blank) "Ann B" "ann@x.com" (digest "secret2"))).
Proof.
  apply (register_creates_the_user register_ann_again (with_tables blank)
           "Ann B" "ANN@X.COM" "secret2");
    first [reflexivity | constructor | vm_compute; discriminate].
Defined.

(** X15. What is registered can log in: after such a registration on
    MySQL, a login with the same email, in any letter case and with
    spaces around it, and the same password answers 200 with the user
    that the registration answered. *)
Theorem register_then_login req lreq w n e p e' :
  has_users (db w) = true ->
  emails_as_written w ->
  js_get (req_body req) "name" = Resolved (VStr n) ->
  js_get (req_body req) "email" = Resolved (VStr e) ->
  js_get (req_body req) "password" = Resolved (VStr p) ->
  printable n = true -> printable e = true -> printable p = true ->
  Js.is_empty (Js.trim n) = false ->
  Js.is_empty (normalize_email e) = false ->
  Z.of_nat (String.length (Js.trim n)) <= 255 ->
  Z.of_nat (String.length (normalize_email e)) <= 255 ->
  6 <= Z.of_nat (String.length p) ->
  users_by_email (VStr (normalize_email e)) (db w) = [] ->
  js_get (req_body lreq) "email" = Resolved (VStr e') ->
  js_get (req_body lreq) "password" = Resolved (VStr p) ->
  printable e' = true ->
  normalize_email e' = normalize_email e ->
  exists user,
    fst (register true req w) = json 201 (VObj [("user", user)]) /\
    fst (login true lreq (snd (register true req w))) =
      json 200 (VObj [("user", user)]).
Proof.
  intros Hu _ Hn He Hp _ _ _ Nn Ne _ _ Lp Hnone He' Hp' _ Hsame.
  rewrite (register_mysql_answers req w n e p Hu Hn He Hp Nn Ne Lp Hnone).
  cbn [fst snd].
  set (u := new_user w (Js.trim n) (normalize_email e) (digest p)).
  exists (user_obj u). split; [reflexivity|].
  rewrite (login_of_stored_email true lreq (add_user w u) e' p u []).
  - cbn [fst]. subst u. cbn [new_user u_password_hash].
    rewrite String.eqb_refl. reflexivity.
  - exact Hu.
  - exact He'.
  - exact Hp'.
  - rewrite Hsame. exact Ne.
  - destruct p; [cbn in Lp; lia|reflexivity].
  - rewrite Hsame. unfold users_by_email, add_user. cbn [set_db db users].
    apply users_by_email_app; [exact Hnone|reflexivity].
Qed.

Lemma register_then_login_witness :
  exists user,
    fst (register true register_ann empty_world) = json 201 (VObj [("user", user)]) /\
    fst (login true
           (request_of EmptyString EmptyString
              [("email", VStr " Ann@X.com "); ("password", VStr "secret1")])
           (snd (register true register_ann empty_world))) =
      json 200 (VObj [("user", user)]).
Proof.
  apply (register_then_login register_ann
           (request_of EmptyString EmptyString
              [("email", VStr " Ann@X.com "); ("password", VStr "secret1")])
           empty_world "Ann" "ann@x.com" "secret1" " Ann@X.com ");
    first [reflexivity | constructor | vm_compute; discriminate].
Defined.

(** X16. A stored email keeps its login answer: whatever requests are
    handled in between, on either backend, a login request whose email is
    stored is answered after them as it was answered before them. No
    request changes or removes a user row. *)
Theorem login_answer_is_stable mysql calls w req em u :
  request_email req = Some em -> In u (users (db w)) -> u_email u = em ->
  fst (login mysql req (run mysql calls w)) = fst (login mysql req w).
Proof.
  intros Hem Hin Hue.
  destruct (run_keeps mysql calls w) as (Hu & _ & more & Hm).
  apply (login_depends mysql req w _ more Hu Hm).
  intros em' Hem'. rewrite Hem in Hem'. injection Hem' as <-.
  exact (users_by_email_In em (db w) u Hin Hue).
Qed.

Lemma login_answer_is_stable_witness :
  fst (login true
         (request_of EmptyString EmptyString
            [("email", VStr "ann@x.com"); ("password", VStr "secret1")])
         (run true [(PostRegister, register_ann_again); (DelTask, ann_completes);
                    (PostRegister, login_ghost)] sample)) =
  json 200 (user_body ann).
Proof.
  rewrite (login_answer_is_stable true
             [(PostRegister, register_ann_again); (DelTask, ann_completes);
              (PostRegister, login_ghost)]
             sample
             (request_of EmptyString EmptyString
                [("email", VStr "ann@x.com"); ("password", VStr "secret1")])
             "ann@x.com" ann eq_refl (or_introl eq_refl) eq_refl).
  reflexivity.
Defined.

End Auth.

(** ** Checks that do not depend on the collaborators *)

Module Checks.

Import App Ref JsFacts Spec Behaviour.




Lemma non_text_field src v :
  not_text v = true ->
  exists e, js_trim src (js_or v (VStr EmptyString)) = Rejected e /\
            e_status e = None.
Proof.
  destruct v as [| |b|z|s|l|o]; cbn [not_text truthy]; intros H;
    try discriminate; unfold js_or; cbn [truthy]; rewrite ?H;
    eexists; split; reflexivity.
Qed.

Lemma digit_is_plain c :
  Js.is_digit c = true ->
  Js.is_space c = false /\ c <> "-"%char /\ c <> "+"%char.
Proof.
  intros H. repeat split.
  - destruct c as [[] [] [] [] [] [] [] []]; try reflexivity; discriminate H.
  - intros ->. discriminate H.
  - intros ->. discriminate H.
Qed.

Lemma digits_prefix_stops ds c r :
  Js.is_digit c = false ->
  forall acc, Js.all_digits ds = true ->
  Js.digits_prefix acc (ds ++ String c r) = Js.digits_prefix acc ds.
Proof.
  intros Hc. induction ds as [|x ds IH]; intros acc H; simpl.
  - rewrite Hc. reflexivity.
  - simpl in H. apply andb_prop in H. destruct H as [Hx Hds].
    rewrite Hx. apply IH. exact Hds.
Qed.

(** [Number.parseInt] reads the digits and ignores what follows them. *)
Lemma parseInt_ignores_the_tail ds c r :
  Js.all_digits ds = true -> ds <> EmptyString -> Js.is_digit c = false ->
  Js.parseInt (ds ++ String c r) = Js.parseInt ds.
Proof.
  intros Hds Hne Hc. destruct ds as [|x ds]; [contradiction Hne; reflexivity|].
  pose proof Hds as Hall. simpl in Hds. apply andb_prop in Hds.
  destruct Hds as [Hx _].
  destruct (digit_is_plain x Hx) as (Hsp & Hminus & Hplus).
  unfold Js.parseInt. cbn [append Js.trimStart]. rewrite Hsp.
  change (String x (ds ++ String c r)) with (String x ds ++ String c r).
  destruct x as [[] [] [] [] [] [] [] []];
    try (exfalso; apply Hplus; reflexivity);
    try (exfalso; apply Hminus; reflexivity);
    apply (digits_prefix_stops _ c r Hc None Hall).
Qed.

Section AnyDriver.

Context {W : Type} (useMySql : bool) (d : driver W).

Ltac shown :=
  first [ left; cbn [fst]; unfold is_message, message, handleError, json;
          do 2 eexists; reflexivity
        | right; cbn [fst]; unfold user_answer; do 3 eexists; reflexivity ].

(** X17. Whatever the collaborators answer, the body of a registration or
    login answer is [{ message }], or [{ user }] with the keys id, name and
    email and no other: the row read from the store goes through
    [sanitizeUser], so a [password_hash] it carries is never sent. *)
Theorem auth_answers_hide_the_hash (req : request) (w : W) :
  (is_message (fst (App.register useMySql d req w)) \/
   user_answer 201 (fst (App.register useMySql d req w))) /\
  (is_message (fst (App.login useMySql d req w)) \/
   user_answer 200 (fst (App.login useMySql d req w))).
Proof.
  split.
  - unfold App.register, endpoint, bind, lift, ret, throw, try_catch.
    destruct (js_get (req_body req) "name") as [bn|e]; [|shown].
    cbv beta iota.
    destruct (js_trim _ (js_or bn _)) as [name|e]; [|shown].
    cbv beta iota.
    destruct (js_get (req_body req) "email") as [be|e]; [|shown].
    cbv beta iota.
    destruct (js_trim _ (js_or be _)) as [email|e]; [|shown].
    cbv beta iota.
    destruct (js_get (req_body req) "password") as [bp|e]; [|shown].
    cbv beta iota.
    destruct (_ || _ || _); [shown|].
    destruct (js_length_lt _ 6); [shown|].
    destruct (Db.query useMySql d SQL_USER_ID_BY_EMAIL _ w) as [[existing|e] w1];
      [|shown].
    cbv beta iota.
    destruct (truthy _); [shown|].
    destruct (hashPassword d _ w1) as [[h|e] w2]; [|shown].
    cbv beta iota.
    destruct (Db.query useMySql d SQL_INSERT_USER_RETURNING _ w2)
      as [[created|err] w3]; cbv beta iota.
    + destruct (js_first (Db.rows created)) as [row|e]; [|shown].
      cbv beta iota. unfold sanitizeUser, and_then.
      destruct (js_get row "id"); [|shown].
      destruct (js_get row "name"); [|shown].
      destruct (js_get row "email"); shown.
    + destruct (code_is err _); [|shown].
      destruct (Db.query useMySql d SQL_INSERT_USER _ w3) as [[x|e] w4]; [|shown].
      cbv beta iota.
      destruct (Db.query useMySql d SQL_USER_BY_EMAIL _ w4) as [[fetched|e] w5];
        [|shown].
      cbv beta iota.
      destruct (js_first (Db.rows fetched)) as [row|e]; [|shown].
      cbv beta iota. cbn [Db.rows js_first]. cbv beta iota.
      unfold sanitizeUser, and_then.
      destruct (js_get row "id"); [|shown].
      destruct (js_get row "name"); [|shown].
      destruct (js_get row "email"); shown.
  - unfold App.login, endpoint, bind, lift, ret, throw.
    destruct (js_get (req_body req) "email") as [be|e]; [|shown].
    cbv beta iota.
    destruct (js_trim _ (js_or be _)) as [email|e]; [|shown].
    cbv beta iota.
    destruct (js_get (req_body req) "password") as [bp|e]; [|shown].
    cbv beta iota.
    destruct (_ || _); [shown|].
    destruct (Db.query useMySql d SQL_LOGIN _ w) as [[result|e] w1]; [|shown].
    cbv beta iota.
    destruct (negb _); [shown|].
    destruct (js_get _ "password_hash") as [h|e]; [|shown].
    cbv beta iota.
    destruct (comparePassword d _ h w1) as [[m|e] w2]; [|shown].
    cbv beta iota.
    destruct (negb m); [shown|].
    unfold sanitizeUser, and_then.
    destruct (js_get _ "id"); [|shown].
    destruct (js_get _ "name"); [|shown].
    destruct (js_get _ "email"); shown.
Qed.


(** X19. A name or an email that is truthy and not a string (a number,
    [true], an array, an object) is not answered 400: calling [trim] on it
    throws, and the registration, or the login for the email, answers 500
    with a body [{ message }], before any call to a collaborator. *)
Theorem non_text_field_is_500 (req : request) (w : W) :
  (forall vn,
     js_get (req_body req) "name" = Resolved vn -> not_text vn = true ->
     status (fst (App.register useMySql d req w)) = 500 /\
     is_message (fst (App.register useMySql d req w)) /\
     snd (App.register useMySql d req w) = w) /\
  (forall ve,
     js_get (req_body req) "email" = Resolved ve -> not_text ve = true ->
     status (fst (App.login useMySql d req w)) = 500 /\
     is_message (fst (App.login useMySql d req w)) /\
     snd (App.login useMySql d req w) = w).
Proof.
  split.
  - intros vn Hn Tn.
    destruct (non_text_field "(req.body.name || '')" vn Tn) as (e & Hthrow & Hst).
    unfold App.register, endpoint, bind, lift. cbv zeta.
    rewrite Hn. cbv beta iota. rewrite Hthrow. cbv beta iota.
    cbn [fst snd]. split; [apply handleError_internal; exact Hst|].
    split; [|reflexivity].
    unfold is_message, message, handleError, json. do 2 eexists. reflexivity.
  - intros ve He Te.
    destruct (non_text_field "(req.body.email || '')" ve Te) as (e & Hthrow & Hst).
    unfold App.login, endpoint, bind, lift. cbv zeta.
    rewrite He. cbv beta iota. rewrite Hthrow. cbv beta iota.
    cbn [fst snd]. split; [apply handleError_internal; exact Hst|].
    split; [|reflexivity].
    unfold is_message, message, handleError, json. do 2 eexists. reflexivity.
Qed.

(** X20. The path user id is read by [Number.parseInt]: digits followed
    by anything that does not start with a digit name the same user as
    the digits alone. Each task endpoint answers and acts on such a path
    exactly as on the path with the digits only, for every driver. *)
Theorem user_id_is_read_by_its_digits (req : request) (w : W) ds c r :
  Js.all_digits ds = true -> ds <> EmptyString -> Js.is_digit c = false ->
  userId req = ds ++ String c r ->
  App.listTasks useMySql d req w = App.listTasks useMySql d (with_userId ds req) w /\
  App.createTask useMySql d req w = App.createTask useMySql d (with_userId ds req) w /\
  App.updateTask useMySql d req w = App.updateTask useMySql d (with_userId ds req) w /\
  App.deleteTask useMySql d req w = App.deleteTask useMySql d (with_userId ds req) w.
Proof.
  intros Hds Hne Hc Hid.
  pose proof (parseInt_ignores_the_tail ds c r Hds Hne Hc) as Hp.
  unfold App.listTasks, App.createTask, App.updateTask, App.deleteTask, ensureUser.
  unfold with_userId. cbn [userId taskId req_body].
  rewrite Hid, Hp. repeat split; reflexivity.
Qed.

End AnyDriver.


Lemma non_text_field_is_500_witness :
  status (fst (App.register true counting_driver
                 (request_of EmptyString EmptyString
                    [("name", VNum 5); ("email", VStr "a@x.com");
                     ("password", VStr "secret1")]) 0%nat)) = 500 /\
  snd (App.register true counting_driver
         (request_of EmptyString EmptyString
            [("name", VNum 5); ("email", VStr "a@x.com");
             ("password", VStr "secret1")]) 0%nat) = 0%nat.
Proof.
  destruct (proj1 (non_text_field_is_500 true counting_driver
                     (request_of EmptyString EmptyString
                        [("name", VNum 5); ("email", VStr "a@x.com");
                         ("password", VStr "secret1")]) 0%nat)
              (VNum 5) eq_refl eq_refl) as (H1 & _ & H3).
  split; [exact H1|exact H3].
Defined.

Lemma user_id_is_read_by_its_digits_witness :
  App.listTasks false ref_driver (request_of "1abc" EmptyString []) sample =
  App.listTasks false ref_driver (request_of "1" EmptyString []) sample.
Proof.
  apply (proj1 (user_id_is_read_by_its_digits false ref_driver
                  (request_of "1abc" EmptyString []) sample "1" "a"%char "bc"
                  eq_refl ltac:(discriminate) eq_refl eq_refl)).
Defined.

End Checks.

(** ** The status codes of the routes *)

Module Statuses.

Import App Ref RefFacts RefFacts2 JsFacts Registration Spec Behaviour Effects.

Lemma no_such_table_internal mysql t : e_status (no_such_table mysql t) = None.
Proof. destruct mysql; reflexivity. Qed.

Lemma insert_returning_internal mysql sql t w :
  e_status (insert_returning_error mysql sql t w) = None.
Proof.
  unfold insert_returning_error. destruct mysql; [reflexivity|].
  destruct (has_table t (db w)); reflexivity.
Qed.

Lemma sanitizeUser_rejected row e : sanitizeUser row = Rejected e -> e_status e = None.
Proof.
  unfold sanitizeUser, and_then.
  destruct (js_get row "id") eqn:E1; [|intros H; inversion H; subst;
                                        exact (js_get_rejected _ _ _ E1)].
  destruct (js_get row "name") eqn:E2; [|intros H; inversion H; subst;
                                          exact (js_get_rejected _ _ _ E2)].
  destruct (js_get row "email") eqn:E3; [discriminate|].
  intros H; inversion H; subst. exact (js_get_rejected _ _ _ E3).
Qed.

Lemma js_first_rejected v e : js_first v = Rejected e -> e_status e = None.
Proof.
  destruct v; simpl; intros H; inversion H; reflexivity.
Qed.

Lemma mapTask_rejected row e : mapTask row = Rejected e -> e_status e = None.
Proof.
  unfold mapTask, and_then.
  repeat match goal with
         | |- context [js_get row ?k] =>
             let E := fresh "E" in
             destruct (js_get row k) eqn:E;
             [|intros H; inversion H; subst; exact (js_get_rejected _ _ _ E)]
         end.
  discriminate.
Qed.

Ltac internal :=
  rewrite handleError_internal by
    first [ reflexivity
          | eapply js_get_rejected; eassumption
          | eapply js_trim_rejected; eassumption
          | eapply js_first_rejected; eassumption
          | eapply sanitizeUser_rejected; eassumption
          | eapply mapTask_rejected; eassumption
          | apply no_such_table_internal
          | apply insert_returning_internal ].

Ltac member :=
  solve [ cbn [fst]; try internal; cbn [In];
          repeat first [left; reflexivity | right] ].

Lemma ensureUser_rejected mysql s w e w' fb :
  ensureUser mysql ref_driver s w = (Rejected e, w') ->
  In (status (handleError e fb)) [400; 404; 500].
Proof.
  unfold ensureUser. destruct (Js.parseInt s) as [id|].
  - unfold bind. change (Db.query mysql ref_driver) with (query mysql).
    rewrite query_user_by_id.
    destruct (has_users (db w)); cbv beta iota.
    + destruct (negb _); unfold throw, ret; intros H; inversion H; subst.
      right; left; reflexivity.
    + intros H; inversion H; subst. member.
  - unfold throw. intros H; inversion H; subst. left; reflexivity.
Qed.

Lemma In_more (x a : Z) l : In x l -> In x (a :: l).
Proof. intros H. right. exact H. Qed.

(** The start of every task handler, keeping what was thrown. *)
Ltac ensure_user_or_answer mysql req w :=
  let o := fresh "o" in let w1 := fresh "w" in let E := fresh "E" in
  let user := fresh "user" in let e := fresh "e" in
  destruct (ensureUser mysql ref_driver (userId req) w) as [o w1] eqn:E;
  destruct o as [user|e];
  [ apply ensureUser_resolved in E;
    destruct E as (uid & u & Hp & Hin & Hid & -> & Hu & ->)
  | cbn [fst];
    first [ exact (ensureUser_rejected _ _ _ _ _ _ E)
          | exact (In_more _ _ _ (ensureUser_rejected _ _ _ _ _ _ E)) ] ].

Lemma login_statuses mysql req w :
  In (status (fst (login mysql req w))) [200; 400; 401; 500].
Proof.
  unfold login, App.login, endpoint, bind, lift, ret, throw. cbv zeta.
  destruct (js_get (req_body req) "email") as [be|e] eqn:E1; [|member].
  cbv beta iota.
  destruct (js_trim _ _) as [email|e] eqn:E2; [|member]. cbv beta iota.
  destruct (js_get (req_body req) "password") as [bp|e] eqn:E3; [|member].
  cbv beta iota.
  destruct (_ || _); [member|].
  change (Db.query mysql ref_driver) with (query mysql).
  rewrite query_login. destruct (has_users (db w)); [|member]. cbv beta iota.
  destruct (negb _); [member|].
  destruct (js_get _ "password_hash") as [h|e] eqn:E4; [|member]. cbv beta iota.
  unfold comparePassword. cbn [bcrypt_compare ref_driver]. unfold ref_bcrypt_compare.
  destruct (js_or bp _); try member.
  destruct h; try member.
  unfold ret. cbv beta iota.
  destruct (negb _); [member|].
  destruct (sanitizeUser _) eqn:E5; member.
Qed.

Lemma listTasks_statuses mysql req w :
  In (status (fst (listTasks mysql req w))) [200; 400; 404; 500].
Proof.
  unfold listTasks, App.listTasks, endpoint, bind, lift, ret, throw.
  ensure_user_or_answer mysql req w.
  change (js_get (user_obj u) "id") with (Resolved (A:=jsval) (VNum (u_id u))).
  cbv beta iota. change (Db.query mysql ref_driver) with (query mysql).
  rewrite query_tasks_of_user.
  destruct (has_tasks (db w)); [|member]. cbv beta iota.
  cbn [rows_result Db.rows rows_map_mapTask]. rewrite Tasks.map_mapTask_rows.
  member.
Qed.

Lemma updateTask_statuses mysql req w :
  In (status (fst (updateTask mysql req w))) [400; 404; 500].
Proof.
  unfold updateTask, App.updateTask, endpoint, bind, lift, ret, throw.
  ensure_user_or_answer mysql req w.
  change (js_get (user_obj u) "id") with (Resolved (A:=jsval) (VNum (u_id u))).
  cbv beta iota. change (Db.query mysql ref_driver) with (query mysql).
  rewrite query_task_of_user.
  destruct (has_tasks (db w)); [|member]. cbv beta iota.
  destruct (negb _); [member|].
  destruct (js_get (req_body req) "title") as [bt|e] eqn:E1; [|member].
  clear E1. cbv beta iota.
  destruct bt; cbv beta iota;
    try (destruct (js_get _ "title") as [t|e] eqn:E2; [|member]; cbv beta iota).
  all: destruct (_ && _); [member|].
  all: destruct (js_get (req_body req) "completed") as [bc|e] eqn:E3; [|member].
  all: clear E3; cbv beta iota; destruct (is_boolean bc); cbv beta iota.
  all: try (destruct (js_get _ "completed") as [c|e] eqn:E4; [|member];
            cbv beta iota).
  all: destruct mysql;
    [ rewrite query_update_task_mysql; member
    | match goal with
      | |- context [query false SQL_UPDATE_TASK ?params ?w'] =>
          let Hs := fresh "Hs" in
          destruct (query_update_task_sqlite params w') as (? & -> & Hs);
          cbn [fst]; rewrite (handleError_internal _ _ Hs); member
      end ].
Qed.

Lemma deleteTask_statuses mysql req w :
  In (status (fst (deleteTask mysql req w)))
     (if mysql then [400; 404; 500] else [204; 400; 404; 500]).
Proof.
  unfold deleteTask, App.deleteTask, endpoint, bind, lift, ret, throw.
  destruct (ensureUser mysql ref_driver (userId req) w) as [[user|e] w1] eqn:E.
  2:{ cbn [fst]. pose proof (ensureUser_rejected _ _ _ _ _ "Failed to delete task" E).
      destruct mysql; [assumption|right; assumption]. }
  apply ensureUser_resolved in E.
  destruct E as (uid & u & Hp & Hin & Hid & -> & Hu & ->).
  change (js_get (user_obj u) "id") with (Resolved (A:=jsval) (VNum (u_id u))).
  cbv beta iota. change (Db.query mysql ref_driver) with (query mysql).
  rewrite query_delete_task.
  destruct (has_tasks (db w)) eqn:Ht; [|destruct mysql; member]. cbv beta iota.
  destruct mysql; [member|].
  destruct (negb _); member.
Qed.

Lemma createTask_statuses mysql req w :
  In (status (fst (createTask mysql req w)))
     (if mysql then [201; 400; 404; 500] else [400; 404; 500]).
Proof.
  unfold createTask, App.createTask, endpoint, bind, lift, ret, throw, try_catch.
  destruct (ensureUser mysql ref_driver (userId req) w) as [[user|e] w1] eqn:E.
  2:{ cbn [fst]. pose proof (ensureUser_rejected _ _ _ _ _ "Failed to create task" E).
      destruct mysql; [right; assumption|assumption]. }
  apply ensureUser_resolved in E.
  destruct E as (uid & u & Hp & Hin & Hid & -> & Hu & ->).
  destruct (js_get (req_body req) "title") as [bt|e] eqn:E1;
    [|destruct mysql; member].
  cbv beta iota.
  destruct (js_trim _ _) as [title|e] eqn:E2; [|destruct mysql; member].
  cbv beta iota.
  destruct (Js.is_empty title); [destruct mysql; member|].
  change (js_get (user_obj u) "id") with (Resolved (A:=jsval) (VNum (u_id u))).
  cbv beta iota. change (Db.query mysql ref_driver) with (query mysql).
  rewrite query_insert_task_returning.
  destruct mysql; unfold insert_returning_error.
  2:{ destruct (has_table "tasks" (db w)); member. }
  change (code_is (mysql_parse_error _) "ER_PARSE_ERROR") with true. cbv beta iota.
  rewrite query_insert_task_mysql. unfold insert_task. cbv zeta.
  destruct (has_tasks (db w)) eqn:Ht; [|member]. cbn [negb].
  assert (Hex : user_exists uid w) by (exists u; split; assumption).
  rewrite Hid, (user_exists_found _ _ Hex). cbn [negb]. cbv beta iota.
  rewrite query_last_task_of_user.
  cbn [set_db db has_tasks]. cbv beta iota.
  cbn [rows_result Db.rows js_first]. cbv beta iota.
  destruct (mapTask _) eqn:E5; member.
Qed.

Lemma register_statuses mysql req w :
  In (status (fst (register mysql req w)))
     (if mysql then [201; 400; 409; 500] else [400; 409; 500]).
Proof.
  unfold register, App.register, endpoint, bind, lift, ret, throw, try_catch.
  cbv zeta.
  destruct (js_get (req_body req) "name") as [bn|e] eqn:E1;
    [|destruct mysql; member].
  cbv beta iota.
  destruct (js_trim _ (js_or bn _)) as [name|e] eqn:E2; [|destruct mysql; member].
  cbv beta iota.
  destruct (js_get (req_body req) "email") as [be|e] eqn:E3;
    [|destruct mysql; member].
  cbv beta iota.
  destruct (js_trim _ (js_or be _)) as [email|e] eqn:E4; [|destruct mysql; member].
  cbv beta iota.
  destruct (js_get (req_body req) "password") as [bp|e] eqn:E5;
    [|destruct mysql; member].
  cbv beta iota.
  destruct (_ || _ || _); [destruct mysql; member|].
  destruct (js_length_lt _ 6); [destruct mysql; member|].
  change (Db.query mysql ref_driver) with (query mysql).
  rewrite query_user_id_by_email.
  destruct (has_users (db w)) eqn:Hu; [|destruct mysql; member].
  cbv beta iota. rewrite rows_nonempty.
  destruct (users_by_email (VStr (Js.toLowerCase email)) (db w)) as [|x l] eqn:Hnone;
    cbn [map]; [|destruct mysql; member].
  unfold hashPassword. cbn [bcrypt_hash ref_driver]. unfold ref_bcrypt_hash.
  destruct (js_or bp (VStr EmptyString)) as [| |b|z|p|l|o];
    try (unfold throw; destruct mysql; member).
  unfold ret. cbv beta iota.
  rewrite query_insert_user_returning.
  destruct mysql; unfold insert_returning_error.
  2:{ destruct (has_table "users" (db w)); member. }
  change (code_is (mysql_parse_error _) "ER_PARSE_ERROR") with true. cbv beta iota.
  rewrite query_insert_user_mysql. unfold insert_user. cbv zeta.
  rewrite Hu, (users_by_email_none _ _ Hnone). cbn [negb]. cbv beta iota.
  rewrite query_user_by_email.
  cbn [set_db db has_users]. cbv beta iota.
  cbn [rows_result Db.rows js_first]. cbv beta iota.
  destruct (sanitizeUser _) eqn:E8; member.
Qed.

(** X21. The status codes of the routes on the reference store: every
    answer of a route carries one of the codes listed for it. In
    particular the update never answers 200, a delete on MySQL never
    answers 204, and a registration or a task creation on SQLite never
    answers 201. *)
Theorem routes_answer_listed_statuses mysql r req w :
  In (status (fst (handle mysql r req w))) (statuses mysql r).
Proof.
  destruct r; cbn [handle statuses].
  - rewrite health_answers. left. reflexivity.
  - apply register_statuses.
  - apply login_statuses.
  - apply listTasks_statuses.
  - apply createTask_statuses.
  - apply updateTask_statuses.
  - apply deleteTask_statuses.
Qed.

End Statuses.

(** ** The bootstrap on SQLite, for every driver *)

Module Files.

Import Db.

Section AnyDriver.

Context {W : Type} (d : driver W).

(** X22. The bootstrap on SQLite applies the schema file, then the seed
    file, each only if it exists. With neither file the world is left
    untouched; a schema script that the database rejects stops the
    bootstrap with that error and the seed file is not applied; when the
    schema script resolves, the outcome is that of the seed script run on
    the world the schema left, or success if there is no seed file. *)
Theorem sqlite_bootstrap_follows_the_files (w : W) :
  (fs_existsSync d SCHEMA_FILE w = false ->
   fs_existsSync d SEED_FILE w = false ->
   bootstrapDatabase false d w = (Resolved tt, w)) /\
  (forall e w',
     fs_existsSync d SCHEMA_FILE w = true ->
     sqlite_exec d (fs_readFileSync d SCHEMA_FILE w) w = (Rejected e, w') ->
     bootstrapDatabase false d w = (Rejected e, w')) /\
  (forall w',
     fs_existsSync d SCHEMA_FILE w = true ->
     sqlite_exec d (fs_readFileSync d SCHEMA_FILE w) w = (Resolved tt, w') ->
     bootstrapDatabase false d w =
     if fs_existsSync d SEED_FILE w'
     then sqlite_exec d (fs_readFileSync d SEED_FILE w') w'
     else (Resolved tt, w')).
Proof.
  unfold bootstrapDatabase, applySqlFile, bind, ret.
  split; [|split].
  - intros H1 H2. rewrite H1. cbn [negb]. rewrite H2. reflexivity.
  - intros e w' H1 H2. rewrite H1. cbn [negb]. rewrite H2. reflexivity.
  - intros w' H1 H2. rewrite H1. cbn [negb]. rewrite H2.
    destruct (fs_existsSync d SEED_FILE w'); reflexivity.
Qed.

End AnyDriver.

Lemma sqlite_bootstrap_follows_the_files_witness :
  bootstrapDatabase false Ref.ref_driver Ref.empty_world =
    (Resolved tt, Ref.empty_world) /\
  bootstrapDatabase false Spec.counting_driver 0%nat = (Resolved tt, 0%nat).
Proof.
  split.
  - apply (proj1 (sqlite_bootstrap_follows_the_files Ref.ref_driver Ref.empty_world));
      reflexivity.
  - apply (proj1 (sqlite_bootstrap_follows_the_files Spec.counting_driver 0%nat));
      reflexivity.
Defined.

End Files.
